(** * Cellular automaton on a torus, CUDA implementation (ca.cu)

    A shallow embedding of [ca.cu]: the grid buffers, the two device
    kernels [boundary] and [simulate], the kernel launches, the host
    routines [initConfig] and [getMD5DigestStr], and [main].

    Conventions of the embedding.
    - A [Line *buf] with [n] lines is a finite map from [(y, x)] to the
      [State] of [buf[y][x]]; the keys present are the cells of the
      allocation.  An access outside of it is undefined behaviour in C; here
      it makes the access, and everything that runs after it, fail ([None]).
    - A kernel is a function of one thread (its [blockIdx] and [threadIdx])
      and of the device memory.  A launch runs every thread of the grid; the
      device fixes no order, so a launch takes the order as a schedule, and
      statements about a launch hold for every schedule.  Threads run one
      after the other: the statements of two threads are not interleaved.
    - A [char] is an integer of [Z]: the program stores 0 and 1 only, and
      the one place where its width counts, the bytes given to MD5, reduces
      it modulo 256.  [int] arithmetic on indices is arithmetic in [Z]; the
      one conversion from the unsigned thread coordinates to [int] is
      written out.
    - What the program takes from outside (the outcome of the allocations,
      the content of fresh device memory, the order of the threads, the
      time measured) is a parameter of [main], its environment.  The
      generator of [random.h] and MD5 are parameters too. *)

From stdpp Require Import base option list gmap strings.
From Stdlib Require Import ZArith Lia String Ascii.

Local Open Scope Z_scope.

(** * Part I: the program *)

(** ** Data model *)

(** [#define XSIZE 1024] *)
Definition XSIZE : Z := 1024.

(** [typedef char State;]  The cells the program writes are 0 and 1. *)
Abbreviation State := Z (only parsing).

(** [typedef State Line[XSIZE + 2]; Line *buf]: cell [buf[y][x]] at key
    [(y, x)]. *)
Abbreviation Buf := (gmap (Z * Z) State).

(** The cells of an allocation of [lines + 2] lines. *)
Definition in_buf (lines y x : Z) : Prop :=
  0 <= y < lines + 2 /\ 0 <= x < XSIZE + 2.

Definition interior (lines y x : Z) : Prop :=
  1 <= y <= lines /\ 1 <= x <= XSIZE.

Definition halo (lines y x : Z) : Prop :=
  in_buf lines y x /\ ~ interior lines y x.

Definition allocated (lines : Z) (buf : Buf) : Prop :=
  forall y x, is_Some (buf !! (y, x)) <-> in_buf lines y x.

(** Every cell of the buffer is 0 or 1. *)
Definition binary (buf : Buf) : Prop :=
  forall c v, buf !! c = Some v -> v = 0 \/ v = 1.

(** The interior cells of the buffer are 0 or 1. *)
Definition binary_interior (lines : Z) (buf : Buf) : Prop :=
  forall y x v, interior lines y x -> buf !! (y, x) = Some v ->
                v = 0 \/ v = 1.

(** The interior of [buf] is that of [orig]. *)
Definition same_interior (lines : Z) (orig buf : Buf) : Prop :=
  forall y x, interior lines y x -> buf !! (y, x) = orig !! (y, x).

(** ** Memory accesses and allocation *)

(** [buf[y][x]] as an rvalue. *)
Definition rd (buf : Buf) (y x : Z) : option State := buf !! (y, x).

(** [buf[y][x] = v]. *)
Definition wr (buf : Buf) (y x : Z) (v : State) : option Buf :=
  match buf !! (y, x) with
  | Some _ => Some (<[(y, x) := v]> buf)
  | None => None
  end.

(** [buf[yd][xd] = buf[ys][xs]]. *)
Definition cp (buf : Buf) (yd xd ys xs : Z) : option Buf :=
  v ← rd buf ys xs; wr buf yd xd v.

(** The cells of a buffer of [lines + 2] lines, in memory order. *)
Definition cells (lines : Z) : list (Z * Z) :=
  y ← seqZ 0 (lines + 2); x ← seqZ 0 (XSIZE + 2); [(y, x)].

(** A fresh buffer of [lines + 2] lines whose cells hold [content]. *)
Definition alloc (lines : Z) (content : Z * Z -> State) : Buf :=
  list_to_map ((fun c => (c, content c)) <$> cells lines).

(** [(Line* )calloc((lines + 2), sizeof(Line))], when it succeeds: every
    cell is zero. *)
Definition calloc (lines : Z) : Buf := alloc lines (fun _ => 0).

(** ** Threads and launches *)

Record dim3 : Type := Dim3 { dim_x : Z; dim_y : Z }.

Record thread : Type := Thread { blockIdx : dim3; threadIdx : dim3 }.

(** Conversion of an unsigned 32-bit value to [int]. *)
Definition to_int (z : Z) : Z := (z + 2 ^ 31) mod 2 ^ 32 - 2 ^ 31.

(** [blockIdx.y * blockDim.y + threadIdx.y] as an [int]. *)
Definition global_y (blockDim : dim3) (t : thread) : Z :=
  to_int (dim_y (blockIdx t) * dim_y blockDim + dim_y (threadIdx t)).

Definition global_x (blockDim : dim3) (t : thread) : Z :=
  to_int (dim_x (blockIdx t) * dim_x blockDim + dim_x (threadIdx t)).

(** The threads of a launch [<<<numBlocks, threadsPerBlock>>>]. *)
Definition threads_of (numBlocks threadsPerBlock : dim3) : list thread :=
  bx ← seqZ 0 (dim_x numBlocks);
  by_ ← seqZ 0 (dim_y numBlocks);
  tx ← seqZ 0 (dim_x threadsPerBlock);
  ty ← seqZ 0 (dim_y threadsPerBlock);
  [Thread (Dim3 bx by_) (Dim3 tx ty)].

(** A schedule of a launch: its threads in the order the device runs
    them. *)
Definition schedule_of (numBlocks threadsPerBlock : dim3)
    (sched : list thread) : Prop :=
  sched ≡ₚ threads_of numBlocks threadsPerBlock.

(** Runs the threads of a schedule one after the other on the device
    memory [mem]. *)
Fixpoint run_threads {M : Type} (kernel : thread -> M -> option M)
    (sched : list thread) (mem : M) : option M :=
  match sched with
  | [] => Some mem
  | t :: ts => mem' ← kernel t mem; run_threads kernel ts mem'
  end.

(** The number of threads of a launch along [x] and along [y]. *)
Definition total_x (numBlocks threadsPerBlock : dim3) : Z :=
  dim_x numBlocks * dim_x threadsPerBlock.

Definition total_y (numBlocks threadsPerBlock : dim3) : Z :=
  dim_y numBlocks * dim_y threadsPerBlock.

(** ** The kernels *)

(** [__global__ static void boundary(Line *buf, int lines)] *)
Definition boundary (blockDim : dim3) (lines : Z) (t : thread) (buf : Buf)
    : option Buf :=
  let y := global_y blockDim t in
  let x := global_x blockDim t in
  buf ← (if y =? lines - 1 then cp buf (y + 2) (x + 1) 1 (x + 1)
         else Some buf);
  buf ← (if y =? 0 then cp buf y (x + 1) lines (x + 1) else Some buf);
  buf ← (if x =? 0 then cp buf (y + 1) x (y + 1) XSIZE else Some buf);
  buf ← (if x =? XSIZE - 1 then cp buf (y + 1) (x + 2) (y + 1) 1
         else Some buf);
  if (x =? 0) && (y =? 0) then
    buf ← cp buf 0 0 lines XSIZE;
    buf ← cp buf 0 (XSIZE + 1) lines 1;
    buf ← cp buf (lines + 1) 0 1 XSIZE;
    cp buf (lines + 1) (XSIZE + 1) 1 1
  else Some buf.

(** [static State anneal[10] = {0, 0, 0, 0, 1, 0, 1, 1, 1, 1};] *)
Definition anneal : list State := [0; 0; 0; 0; 1; 0; 1; 1; 1; 1].

(** [anneal[i]] for an [int] index. *)
Definition anneal_at (i : Z) : option State :=
  if i <? 0 then None else anneal !! Z.to_nat i.

(** The index expression of [simulate]: the sum of the nine cells around
    [(y, x)], in the order of the source. *)
Definition sum9 (from : Buf) (y x : Z) : option Z :=
  a ← rd from (y - 1) (x - 1); b ← rd from y (x - 1);
  c ← rd from (y + 1) (x - 1);
  d ← rd from (y - 1) x; e ← rd from y x; f ← rd from (y + 1) x;
  g ← rd from (y - 1) (x + 1); h ← rd from y (x + 1);
  i ← rd from (y + 1) (x + 1);
  Some (a + b + c + d + e + f + g + h + i).

(** [__global__ void simulate(Line *from, Line *to, int lines)] *)
Definition simulate (blockDim : dim3) (from : Buf) (lines : Z) (t : thread)
    (to : Buf) : option Buf :=
  let y := global_y blockDim t + 1 in
  let x := global_x blockDim t + 1 in
  s ← sum9 from y x;
  v ← anneal_at s;
  wr to y x v.

(** ** The host program *)

(** [dim3 numBlocks(32, 4096); dim3 threadsPerBlock(32, 32);] *)
Definition numBlocks : dim3 := Dim3 32 4096.

Definition threadsPerBlock : dim3 := Dim3 32 32.

(** [for (i = first; ...; i++) body], over the values [idx] of [i]. *)
Fixpoint for_loop {S : Type} (idx : list Z) (body : Z -> S -> option S)
    (s : S) : option S :=
  match idx with
  | [] => Some s
  | i :: idx => s' ← body i s; for_loop idx body s'
  end.

(** The two device allocations of [main]. *)
Inductive dptr : Type := DevA | DevB.

Record device : Type := Device { memA : Buf; memB : Buf }.

Definition deref (d : device) (p : dptr) : Buf :=
  match p with DevA => memA d | DevB => memB d end.

Definition store (d : device) (p : dptr) (buf : Buf) : device :=
  match p with
  | DevA => Device buf (memB d)
  | DevB => Device (memA d) buf
  end.

(** A kernel launch, with the device pointers it was given. *)
Inductive event : Type :=
  | LaunchBoundary (buf : dptr)
  | LaunchSimulate (from to : dptr).

(** The variables of the loop of [main]. *)
Record loop_state : Type := LoopState {
  dev : device;
  pFrom : dptr;
  pTo : dptr;
  launches : list event
}.

(** What is outside of the program: whether the allocations succeed, what
    the fresh device memory holds ([cudaMalloc] does not clear it), the
    order in which the device runs the threads of each launch, and the
    measured time as [printf] renders it. *)
Record Env : Type := MkEnv {
  calloc_from_ok : bool;
  calloc_to_ok : bool;
  cudaMalloc_pFrom : option (Z * Z -> State);
  cudaMalloc_pTo : option (Z * Z -> State);
  sched_boundary : nat -> list thread;
  sched_simulate : nat -> list thread;
  elapsed : string
}.

(** What a run that ends by [exit] or [return] leaves: the exit status, the
    standard output, the host buffer [from], the bytes given to MD5 and the
    kernel launches made. *)
Record run : Type := MkRun {
  status : Z;
  stdout : string;
  final : Buf;
  hashed : list Z;
  launched : list event
}.

Inductive outcome : Type :=
  | Undefined            (* an access outside of an allocation *)
  | Finished (r : run).

Definition EXIT_SUCCESS : Z := 0.

Definition EXIT_FAILURE : Z := 1.

(** The bytes of a buffer: byte [i] is the cell at line [i / (XSIZE + 2)]
    and column [i mod (XSIZE + 2)], as an [unsigned char]. *)
Definition byte_at (buf : Buf) (i : Z) : option Z :=
  v ← buf !! (i / (XSIZE + 2), i mod (XSIZE + 2)); Some (v mod 256).

(** Conversion of an [int] to [size_t]. *)
Definition to_size_t (n : Z) : Z := n mod 2 ^ 64.

(** The [buflen] bytes at [buf] that [MD5_Update(&ctx, buf, buflen)]
    reads. *)
Definition read_bytes (buf : Buf) (buflen : Z) : option (list Z) :=
  mapM (byte_at buf) (seqZ 0 buflen).

Definition hex_digit (n : Z) : ascii :=
  nth (Z.to_nat n)
    ["0"; "1"; "2"; "3"; "4"; "5"; "6"; "7"; "8"; "9";
     "A"; "B"; "C"; "D"; "E"; "F"]%char "0"%char.

(** [snprintf(ptr, 3, "%02X", sum[i])] for every byte of [sum]. *)
Fixpoint hex_string (sum : list Z) : string :=
  match sum with
  | [] => EmptyString
  | b :: sum =>
      String (hex_digit (b / 16)) (String (hex_digit (b mod 16))
        (hex_string sum))
  end.

Definition tab : string := String (ascii_of_nat 9) EmptyString.

Definition newline : string := String (ascii_of_nat 10) EmptyString.

(** One step of the loop of [main], the [i]-th. *)
Definition loop_step (e : Env) (lines : Z) (i : nat) (s : loop_state)
    : option loop_state :=
  b ← run_threads (boundary threadsPerBlock lines) (sched_boundary e i)
        (deref (dev s) (pFrom s));
  let d1 := store (dev s) (pFrom s) b in
  t ← run_threads (simulate threadsPerBlock (deref d1 (pFrom s)) lines)
        (sched_simulate e i) (deref d1 (pTo s));
  let d2 := store d1 (pTo s) t in
  let pTemp := pFrom s in
  Some (LoopState d2 (pTo s) pTemp
          (launches s ++
           [LaunchBoundary (pFrom s); LaunchSimulate (pFrom s) (pTo s)])).

(** [for (int i = 0; i < iterations; i++) { ... }], [n] steps from the
    [i]-th. *)
Fixpoint loop (e : Env) (lines : Z) (n : nat) (i : nat) (s : loop_state)
    : option loop_state :=
  match n with
  | O => Some s
  | S n => s' ← loop_step e lines i s; loop e lines n (S i) s'
  end.

(** ** What the kernels and the loop compute *)

(** The nine cells read by [sum9]. *)
Definition around (y x : Z) : list (Z * Z) :=
  [(y - 1, x - 1); (y, x - 1); (y + 1, x - 1);
   (y - 1, x); (y, x); (y + 1, x);
   (y - 1, x + 1); (y, x + 1); (y + 1, x + 1)].

(** The value [simulate] writes at [(y, x)]. *)
Definition next_state (from : Buf) (y x : Z) : option State :=
  s ← sum9 from y x; anneal_at s.

Definition simulate_target (blockDim : dim3) (t : thread) : Z * Z :=
  (global_y blockDim t + 1, global_x blockDim t + 1).

(** The sum of the eight neighbours alone, through the halo and on the
    torus. *)
Definition sum8 (from : Buf) (y x : Z) : option Z :=
  s ← sum9 from y x; e ← rd from y x; Some (s - e).

(** A copy statement [buf[dst] = buf[src]], as [(dst, src)]. *)
Definition copy : Type := (Z * Z) * (Z * Z).

Definition exec_copy (buf : Buf) (c : copy) : option Buf :=
  cp buf c.1.1 c.1.2 c.2.1 c.2.2.

Fixpoint exec_copies (cs : list copy) (buf : Buf) : option Buf :=
  match cs with
  | [] => Some buf
  | c :: cs => buf' ← exec_copy buf c; exec_copies cs buf'
  end.

(** The copies the thread with coordinates [(x, y)] executes, in program
    order. *)
Definition boundary_copies (lines x y : Z) : list copy :=
  (if y =? lines - 1 then [((y + 2, x + 1), (1, x + 1))] else []) ++
  (if y =? 0 then [((y, x + 1), (lines, x + 1))] else []) ++
  (if x =? 0 then [((y + 1, x), (y + 1, XSIZE))] else []) ++
  (if x =? XSIZE - 1 then [((y + 1, x + 2), (y + 1, 1))] else []) ++
  (if (x =? 0) && (y =? 0) then
     [((0, 0), (lines, XSIZE)); ((0, XSIZE + 1), (lines, 1));
      ((lines + 1, 0), (1, XSIZE)); ((lines + 1, XSIZE + 1), (1, 1))]
   else []).

(** The cell a copy writes. *)
Definition boundary_targets (blockDim : dim3) (lines : Z)
    (sched : list thread) : list (Z * Z) :=
  (t ← sched;
   boundary_copies lines (global_x blockDim t) (global_y blockDim t)).*1.

(** Indexing the interior modulo [lines] (rows 1..lines) and modulo [XSIZE]
    (columns 1..XSIZE), with no halo. *)
Definition torus_y (lines y : Z) : Z := (y - 1) mod lines + 1.

Definition torus_x (x : Z) : Z := (x - 1) mod XSIZE + 1.

Definition torus (lines : Z) (c : Z * Z) : Z * Z :=
  (torus_y lines c.1, torus_x c.2).

(** The copies of [boundary] go from an interior cell to the cell of the halo
    that stands for it on the torus. *)
Definition valid_copy (lines : Z) (c : copy) : Prop :=
  in_buf lines c.1.1 c.1.2 /\ ~ interior lines c.1.1 c.1.2 /\
  interior lines c.2.1 c.2.2 /\ torus lines c.1 = c.2.

(** The buffer in which every cell holds the interior cell of [orig] that
    stands at its place on the torus. *)
Definition synchronized (lines : Z) (orig : Buf) : Buf :=
  alloc lines (fun c => default 0 (orig !! torus lines c)).

(** The sum of the nine cells around [(y, x)], read in the interior at the
    indices taken modulo [lines] and [XSIZE], with no halo. *)
Definition torus_sum9 (lines : Z) (g : Buf) (y x : Z) : option Z :=
  a ← g !! torus lines (y - 1, x - 1); b ← g !! torus lines (y, x - 1);
  c ← g !! torus lines (y + 1, x - 1);
  d ← g !! torus lines (y - 1, x); e ← g !! torus lines (y, x);
  f ← g !! torus lines (y + 1, x);
  g' ← g !! torus lines (y - 1, x + 1); h ← g !! torus lines (y, x + 1);
  i ← g !! torus lines (y + 1, x + 1);
  Some (a + b + c + d + e + f + g' + h + i).

Definition torus_sum8 (lines : Z) (g : Buf) (y x : Z) : option Z :=
  s ← torus_sum9 lines g y x; e ← g !! torus lines (y, x); Some (s - e).

(** One step of the automaton on the torus: every cell becomes the entry of
    [anneal] at the sum of the nine cells around it. *)
Definition torus_step (lines : Z) (g : Buf) : Buf :=
  alloc lines
    (fun c => default 0 (s ← torus_sum9 lines g c.1 c.2; anneal_at s)).

(** The launches of [n] steps that start with source [src] and destination
    [dst]. *)
Fixpoint expected_launches (n : nat) (src dst : dptr) : list event :=
  match n with
  | O => []
  | S n =>
      LaunchBoundary src :: LaunchSimulate src dst ::
      expected_launches n dst src
  end.

(** What holds of the variables of the loop after the steps that turned the
    grid [init] into [g] on the torus. *)
Definition loop_inv (lines : Z) (g : Buf) (s : loop_state) : Prop :=
  pFrom s <> pTo s /\
  allocated lines (deref (dev s) (pFrom s)) /\
  allocated lines (deref (dev s) (pTo s)) /\
  binary_interior lines (deref (dev s) (pFrom s)) /\
  same_interior lines g (deref (dev s) (pFrom s)).

(** An environment in which the four allocations succeed and every launch
    runs the threads of the grid of [main], in some order. *)
Definition env_ok (e : Env) : Prop :=
  calloc_from_ok e = true /\ calloc_to_ok e = true /\
  is_Some (cudaMalloc_pFrom e) /\ is_Some (cudaMalloc_pTo e) /\
  (forall i, schedule_of numBlocks threadsPerBlock (sched_boundary e i)) /\
  (forall i, schedule_of numBlocks threadsPerBlock (sched_simulate e i)).

(** ** The device pointers of [main] *)

(** The variables [pFrom], [pTo] and [pTemp]: [Line *pFrom, *pTo, *pTemp;]
    gives [pTemp] no value. *)
Record pointers : Type := Pointers {
  ptr_from : dptr;
  ptr_to : dptr;
  ptr_temp : option dptr
}.

(** [pTemp = pFrom; pFrom = pTo; pTo = pTemp;] *)
Definition swap (p : pointers) : pointers :=
  let pTemp := ptr_from p in
  Pointers (ptr_to p) pTemp (Some pTemp).

(** The three pointers after [n] steps of the loop, [pFrom] and [pTo] being
    the two allocations. *)
Definition pointers_after (n : nat) : pointers :=
  Nat.iter n swap (Pointers DevA DevB None).

(** [cudaFree(pFrom); cudaFree(pTo); cudaFree(pTemp);] *)
Definition freed (p : pointers) : list (option dptr) :=
  [Some (ptr_from p); Some (ptr_to p); ptr_temp p].

(** ** Reading the digest string back *)

(** The value of an uppercase hexadecimal digit, as ["%02X"] prints them. *)
Definition hex_value (c : ascii) : option Z :=
  let n := Z.of_nat (nat_of_ascii c) in
  if (48 <=? n) && (n <=? 57) then Some (n - 48)
  else if (65 <=? n) && (n <=? 70) then Some (n - 55)
  else None.

(** The bytes that a string of pairs of hexadecimal digits stands for. *)
Fixpoint unhex (s : string) : option (list Z) :=
  match s with
  | EmptyString => Some []
  | String _ EmptyString => None
  | String hi (String lo s) =>
      h ← hex_value hi; l ← hex_value lo; sum ← unhex s;
      Some (16 * h + l :: sum)
  end.

(** ** The grid with every cell inverted *)

Definition complement (buf : Buf) : Buf := (fun v => 1 - v) <$> buf.

(** ** Instances for the examples *)

(** An environment in which every allocation succeeds, the fresh device
    memory holds [garbage], and every launch runs its threads in the order
    of the grid. *)
Definition env_of (garbage : Z * Z -> State) : Env :=
  MkEnv true true (Some garbage) (Some garbage)
    (fun _ => threads_of numBlocks threadsPerBlock)
    (fun _ => threads_of numBlocks threadsPerBlock) "0.0".

(** A generator that always draws 0. *)
Definition zero_rng : unit -> unit * unit := fun g => (tt, g).

(** A generator that draws 0, 37, 74, 11, 48, ...: its state counts the
    calls. *)
Definition count_rng : Z -> Z * Z := fun g => (g, g + 1).

Definition count_scale (d n : Z) : Z := (37 * d) mod n.

(** ** Tactics *)

(** Membership in a list that is written out. *)
Ltac in_list :=
  repeat first [apply list_elem_of_here | apply list_elem_of_further].

Ltac split_in_list H :=
  repeat (apply elem_of_cons in H as [H|H]);
  try (apply elem_of_nil in H; contradiction).

(** The coordinates of a thread that is a member of a launch. *)
Ltac thread_of H :=
  repeat (apply list_elem_of_bind in H as (? & H & ?));
  apply list_elem_of_ret in H.

(** A list that is written out has no element twice. *)
Ltac nodup_list :=
  repeat (apply NoDup_cons_2;
          [let H := fresh in intros H; split_in_list H; simplify_eq; lia|]);
  apply NoDup_nil_2.

(** ** The routines that use the generator and the digest *)

Section Program.

(** [random.h], whose source is not part of the sources: the generator
    of L'Ecuyer, with its state passed along. *)
Variable rng : Type.
Variable double : Type.
Variable initRandomLEcuyer : Z -> rng.
Variable nextRandomLEcuyer : rng -> double * rng.

(** [(int)(d * n)] for a [double d] and an [int n]. *)
Variable scale : double -> Z -> Z.

(** [openssl/md5.h]: the sixteen bytes [MD5_Final] leaves in [sum] for the
    bytes given to [MD5_Update]. *)
Variable MD5 : list Z -> list Z.

(** [#define randInt(n) ((int)(nextRandomLEcuyer() * n))] *)
Definition randInt (n : Z) (g : rng) : Z * rng :=
  let (d, g') := nextRandomLEcuyer g in (scale d n, g').

(** [buf[y][x] = randInt(100) >= 50;] *)
Definition init_cell (y x : Z) (s : rng * Buf) : option (rng * Buf) :=
  let (r, g') := randInt 100 s.1 in
  buf' ← wr s.2 y x (if 50 <=? r then 1 else 0);
  Some (g', buf').

(** [static void initConfig(Line *buf, int lines)] *)
Definition initConfig (buf : Buf) (lines : Z) : option Buf :=
  snd <$>
    for_loop (seqZ 1 lines)
      (fun y => for_loop (seqZ 1 XSIZE) (fun x => init_cell y x))
      (initRandomLEcuyer 424243, buf).

(** [char* getMD5DigestStr(void* buf, size_t buflen)]: the bytes read and
    the string returned. *)
Definition getMD5DigestStr (buf : Buf) (buflen : Z)
    : option (list Z * string) :=
  bytes ← read_bytes buf buflen; Some (bytes, hex_string (MD5 bytes)).

(** [int main(int argc, char** argv)], with [lines] and [iterations] the
    values of [atoi(argv[1])] and [atoi(argv[2])].  A null host pointer has
    no cell, so a write through it is undefined.  A [cudaMalloc] that fails
    is taken to leave its pointer null, as the test that follows it
    presumes.  Left out: the [assert] on [argc], the two timers, the test of
    [cudaGetLastError] (the only device error of the model is an access
    outside of an allocation, which is undefined), and the calls of
    [cudaFree] and [free] after the [printf]. *)
Definition main (e : Env) (lines iterations : Z) : outcome :=
  let from := if calloc_from_ok e then Some (calloc lines) else None in
  let to := if calloc_to_ok e then Some (calloc lines) else None in
  match initConfig (default ∅ from) lines with
  | None => Undefined
  | Some from_mem =>
    if bool_decide (from = None) || bool_decide (to = None) then
      Finished (MkRun EXIT_FAILURE
        ("ERROR: failure allocating host memory" +:+ newline)
        from_mem [] [])
    else
      match cudaMalloc_pFrom e, cudaMalloc_pTo e with
      | Some ga, Some gb =>
        let d0 := Device (alloc lines ga) (alloc lines gb) in
        (* cudaMemcpy(pFrom, from, ..., cudaMemcpyHostToDevice) *)
        let s0 := LoopState (store d0 DevA from_mem) DevA DevB [] in
        match loop e lines (Z.to_nat iterations) 0 s0 with
        | None => Undefined
        | Some s =>
          (* cudaMemcpy(from, pFrom, ..., cudaMemcpyDeviceToHost) *)
          let from_mem := deref (dev s) (pFrom s) in
          match getMD5DigestStr from_mem (to_size_t lines) with
          | None => Undefined
          | Some (bytes, hash) =>
            Finished (MkRun EXIT_SUCCESS
              ("hash gpu: " +:+ hash +:+ tab +:+ "time: " +:+ elapsed e
                 +:+ " ms" +:+ newline)
              from_mem bytes (launches s))
          end
        end
      | _, _ =>
        Finished (MkRun EXIT_FAILURE
          ("ERROR: failure allocating device memory" +:+ newline)
          from_mem [] [])
      end
  end.

(** The state of the generator after [n] calls of [nextRandomLEcuyer]. *)
Fixpoint rng_after (n : nat) (g : rng) : rng :=
  match n with
  | O => g
  | S n => (nextRandomLEcuyer (rng_after n g)).2
  end.

(** The value of [randInt(100) >= 50] at the [k]-th call of [randInt] (from
    0) after [initRandomLEcuyer(424243)]. *)
Definition draw (k : nat) : State :=
  if 50 <=? (randInt 100 (rng_after k (initRandomLEcuyer 424243))).1
  then 1 else 0.

(** The rank of the interior cell [(y, x)] in the order of the two loops of
    [initConfig]. *)
Definition rank (y x : Z) : Z := (y - 1) * XSIZE + (x - 1).

(** The variables of [initConfig] when the next cell to fill has rank [k]:
    the generator has been called [k] times, the cells of lower rank hold
    their draw, and the others are those of [buf0], the buffer given. *)
Definition init_upto (lines : Z) (buf0 : Buf) (k : Z) (s : rng * Buf)
    : Prop :=
  s.1 = rng_after (Z.to_nat k) (initRandomLEcuyer 424243) /\
  allocated lines s.2 /\
  (forall y x, interior lines y x -> rank y x < k ->
     s.2 !! (y, x) = Some (draw (Z.to_nat (rank y x)))) /\
  (forall y x, ~ (interior lines y x /\ rank y x < k) ->
     s.2 !! (y, x) = buf0 !! (y, x)).

(** What [initConfig] keeps true of the buffer it fills, [buf0] being the
    buffer it was given. *)
Definition init_inv (lines : Z) (buf0 : Buf) (s : rng * Buf) : Prop :=
  allocated lines s.2 /\
  (forall y x, ~ interior lines y x -> s.2 !! (y, x) = buf0 !! (y, x)) /\
  (forall c v, s.2 !! c = Some v -> v = 0 \/ v = 1 \/ buf0 !! c = Some v).

(** The configuration [initConfig] builds in a zeroed buffer of [lines]
    lines. *)
Definition initial_grid (lines : Z) : Buf :=
  default ∅ (initConfig (calloc lines) lines).


(** * Part II: theorems *)

Set Default Proof Using "Type".

(** ** Basic facts about the memory operations *)

Lemma XSIZE_eq : XSIZE = 1024.
Proof. reflexivity. Qed.

Global Opaque XSIZE.

Lemma to_int_small z : 0 <= z < 2 ^ 31 -> to_int z = z.
Proof.
  intros Hz. unfold to_int. rewrite Z.mod_small; lia.
Qed.

Lemma rd_Some lines buf y x :
  allocated lines buf -> in_buf lines y x -> exists v, rd buf y x = Some v.
Proof. intros Ha Hin. apply Ha in Hin. destruct Hin as [v Hv]. eauto. Qed.

Lemma rd_None lines buf y x :
  allocated lines buf -> ~ in_buf lines y x -> rd buf y x = None.
Proof.
  intros Ha Hin. unfold rd. apply eq_None_not_Some. intros Hs.
  apply Hin, Ha, Hs.
Qed.

Lemma wr_Some lines buf y x v :
  allocated lines buf -> in_buf lines y x ->
  wr buf y x v = Some (<[(y, x) := v]> buf).
Proof.
  intros Ha Hin. apply Ha in Hin. destruct Hin as [w Hw].
  unfold wr. by rewrite Hw.
Qed.

Lemma wr_inv buf y x v buf' :
  wr buf y x v = Some buf' ->
  is_Some (buf !! (y, x)) /\ buf' = <[(y, x) := v]> buf.
Proof.
  unfold wr. destruct (buf !! (y, x)) eqn:E; [|done].
  intros [= <-]. eauto.
Qed.

Lemma wr_allocated lines buf y x v buf' :
  allocated lines buf -> wr buf y x v = Some buf' -> allocated lines buf'.
Proof.
  intros Ha Hw. apply wr_inv in Hw as [Hs ->]. intros y' x'.
  destruct (decide ((y, x) = (y', x'))) as [Heq|Hne].
  - simplify_eq. rewrite lookup_insert_eq.
    split; [intros _; by apply Ha | eauto].
  - rewrite lookup_insert_ne by done. apply Ha.
Qed.

Lemma cp_allocated lines buf yd xd ys xs buf' :
  allocated lines buf -> cp buf yd xd ys xs = Some buf' ->
  allocated lines buf'.
Proof.
  unfold cp. intros Ha Hc. destruct (rd buf ys xs); simpl in Hc; [|done].
  eapply wr_allocated; eauto.
Qed.

Lemma anneal_at_range s :
  0 <= s <= 9 -> exists v, anneal_at s = Some v /\ (v = 0 \/ v = 1).
Proof.
  intros Hs. unfold anneal_at. destruct (Z.ltb_spec s 0); [lia|].
  assert (Hc : s = 0 \/ s = 1 \/ s = 2 \/ s = 3 \/ s = 4 \/ s = 5 \/ s = 6
               \/ s = 7 \/ s = 8 \/ s = 9) by lia.
  destruct Hc as [->|[->|[->|[->|[->|[->|[->|[->|[->| ->]]]]]]]]];
    simpl; eauto.
Qed.


Lemma around_in_buf lines y x y' x' :
  interior lines y x -> (y', x') ∈ around y x -> in_buf lines y' x'.
Proof.
  intros [Hy Hx] Hc. unfold around in Hc. pose proof XSIZE_eq.
  split_in_list Hc; simplify_eq; unfold in_buf; lia.
Qed.

Lemma sum9_is_Some lines from y x :
  allocated lines from -> interior lines y x -> is_Some (sum9 from y x).
Proof.
  intros Ha Hi. unfold sum9.
  assert (Hr : forall y' x', (y', x') ∈ around y x ->
            exists v, rd from y' x' = Some v).
  { intros y' x' Hc. apply (rd_Some lines); [done|].
    eapply around_in_buf; eauto. }
  unfold around in Hr.
  destruct (Hr (y - 1) (x - 1)) as (a & ->); [in_list|].
  destruct (Hr y (x - 1)) as (b & ->); [in_list|].
  destruct (Hr (y + 1) (x - 1)) as (c & ->); [in_list|].
  destruct (Hr (y - 1) x) as (d & ->); [in_list|].
  destruct (Hr y x) as (e & ->); [in_list|].
  destruct (Hr (y + 1) x) as (f & ->); [in_list|].
  destruct (Hr (y - 1) (x + 1)) as (g & ->); [in_list|].
  destruct (Hr y (x + 1)) as (h & ->); [in_list|].
  destruct (Hr (y + 1) (x + 1)) as (i & ->); [in_list|].
  simpl. eauto.
Qed.

Lemma sum9_interior lines from y x :
  allocated lines from -> interior lines y x ->
  (forall c v, c ∈ around y x -> from !! c = Some v -> v = 0 \/ v = 1) ->
  exists s, sum9 from y x = Some s /\ 0 <= s <= 9.
Proof.
  intros Ha Hi Hb. unfold sum9.
  assert (Hr : forall y' x', (y', x') ∈ around y x ->
            exists v, rd from y' x' = Some v /\ (v = 0 \/ v = 1)).
  { intros y' x' Hc. destruct (rd_Some lines from y' x' Ha) as [v Hv].
    - eapply around_in_buf; eauto.
    - exists v. split; [done|]. eapply Hb; eauto. }
  unfold around in Hr.
  destruct (Hr (y - 1) (x - 1)) as (a & -> & ?); [in_list|].
  destruct (Hr y (x - 1)) as (b & -> & ?); [in_list|].
  destruct (Hr (y + 1) (x - 1)) as (c & -> & ?); [in_list|].
  destruct (Hr (y - 1) x) as (d & -> & ?); [in_list|].
  destruct (Hr y x) as (e & -> & ?); [in_list|].
  destruct (Hr (y + 1) x) as (f & -> & ?); [in_list|].
  destruct (Hr (y - 1) (x + 1)) as (g & -> & ?); [in_list|].
  destruct (Hr y (x + 1)) as (h & -> & ?); [in_list|].
  destruct (Hr (y + 1) (x + 1)) as (i & -> & ?); [in_list|].
  simpl. eexists. split; [done|]. lia.
Qed.

(** The index of [simulate] written out: the cell itself plus its eight
    neighbours, each read in the source. *)
Lemma sum9_cells (from : Buf) (y x s : Z) :
  sum9 from y x = Some s ->
  exists c n1 n2 n3 n4 n5 n6 n7 n8,
    from !! (y, x) = Some c /\
    from !! (y - 1, x - 1) = Some n1 /\ from !! (y - 1, x) = Some n2 /\
    from !! (y - 1, x + 1) = Some n3 /\ from !! (y, x - 1) = Some n4 /\
    from !! (y, x + 1) = Some n5 /\ from !! (y + 1, x - 1) = Some n6 /\
    from !! (y + 1, x) = Some n7 /\ from !! (y + 1, x + 1) = Some n8 /\
    s = c + (n1 + n2 + n3 + n4 + n5 + n6 + n7 + n8).
Proof.
  unfold sum9, rd.
  destruct (from !! (y - 1, x - 1)) as [n1|]; simpl; [|done].
  destruct (from !! (y, x - 1)) as [n4|]; simpl; [|done].
  destruct (from !! (y + 1, x - 1)) as [n6|]; simpl; [|done].
  destruct (from !! (y - 1, x)) as [n2|]; simpl; [|done].
  destruct (from !! (y, x)) as [c|]; simpl; [|done].
  destruct (from !! (y + 1, x)) as [n7|]; simpl; [|done].
  destruct (from !! (y - 1, x + 1)) as [n3|]; simpl; [|done].
  destruct (from !! (y, x + 1)) as [n5|]; simpl; [|done].
  destruct (from !! (y + 1, x + 1)) as [n8|]; simpl; [|done].
  intros [= <-]. exists c, n1, n2, n3, n4, n5, n6, n7, n8.
  split_and!; try done. lia.
Qed.

(** The nine cells around [(y, x)] are those within one line and one
    column of it. *)
Lemma around_range y x y' x' :
  (y', x') ∈ around y x -> y - 1 <= y' <= y + 1 /\ x - 1 <= x' <= x + 1.
Proof.
  intros Hc. unfold around in Hc. split_in_list Hc; simplify_eq; lia.
Qed.

Lemma elem_of_cells lines y x : (y, x) ∈ cells lines <-> in_buf lines y x.
Proof.
  unfold cells, in_buf. rewrite list_elem_of_bind. split.
  - intros (y' & Hx & Hy). apply list_elem_of_bind in Hx as (x' & Hr & Hx).
    apply list_elem_of_ret in Hr. simplify_eq.
    apply elem_of_seqZ in Hy, Hx. lia.
  - intros [Hy Hx]. exists y. split; [|apply elem_of_seqZ; lia].
    apply list_elem_of_bind. exists x. split; [by apply list_elem_of_ret|].
    apply elem_of_seqZ; lia.
Qed.

Lemma lookup_alloc lines content y x :
  in_buf lines y x -> alloc lines content !! (y, x) = Some (content (y, x)).
Proof.
  intros Hin. unfold alloc. apply elem_of_list_to_map_1'.
  - intros v Hv. apply list_elem_of_fmap in Hv as (c & Hc & _).
    by simplify_eq.
  - apply list_elem_of_fmap. exists (y, x). split; [done|].
    by apply elem_of_cells.
Qed.

Lemma lookup_alloc_None lines content y x :
  ~ in_buf lines y x -> alloc lines content !! (y, x) = None.
Proof.
  intros Hin. unfold alloc. apply not_elem_of_list_to_map_1.
  intros Hc. apply list_elem_of_fmap in Hc as ([c v] & Hc & Hv).
  apply list_elem_of_fmap in Hv as (c' & Hc' & Hv). simplify_eq.
  simpl in Hc. subst c'. by apply Hin, elem_of_cells.
Qed.

Lemma alloc_allocated lines content : allocated lines (alloc lines content).
Proof.
  intros y x. split.
  - intros Hs. destruct (decide (in_buf lines y x)) as [|Hn]; [done|].
    rewrite lookup_alloc_None in Hs by done. by destruct Hs.
  - intros Hin. rewrite lookup_alloc by done. eauto.
Qed.

Lemma calloc_binary lines : binary (calloc lines).
Proof.
  intros [y x] v Hv. destruct (decide (in_buf lines y x)) as [Hin|Hn].
  - unfold calloc in Hv. rewrite lookup_alloc in Hv by done.
    left. congruence.
  - unfold calloc in Hv. by rewrite lookup_alloc_None in Hv.
Qed.

Global Opaque alloc.

(** ** The transition of one cell *)

(** C1.  For every interior cell [(row, col)], the invocation of the
    transition kernel for that cell (the thread whose [y] and [x] are [row]
    and [col]) reads the source cell [c] at [(row, col)] and its eight
    immediate neighbours [n1] to [n8], all of them inside the buffer, and
    writes to the destination at [(row, col)] the entry of [anneal] at the
    sum [c + (n1 + ... + n8)], leaving every other cell of the destination
    as it was; with the nine cells 0 or 1 the sum lies in 0..9, and the
    entry is 1 for the sums 4, 6, 7, 8, 9 and 0 for the sums 0, 1, 2, 3,
    5. *)
Theorem simulate_interior_cell blockDim lines from to t row col :
  allocated lines from -> allocated lines to ->
  global_y blockDim t + 1 = row -> global_x blockDim t + 1 = col ->
  interior lines row col ->
  (forall y x v, row - 1 <= y <= row + 1 -> col - 1 <= x <= col + 1 ->
     from !! (y, x) = Some v -> v = 0 \/ v = 1) ->
  exists c n1 n2 n3 n4 n5 n6 n7 n8 s v,
    from !! (row, col) = Some c /\
    from !! (row - 1, col - 1) = Some n1 /\
    from !! (row - 1, col) = Some n2 /\
    from !! (row - 1, col + 1) = Some n3 /\
    from !! (row, col - 1) = Some n4 /\
    from !! (row, col + 1) = Some n5 /\
    from !! (row + 1, col - 1) = Some n6 /\
    from !! (row + 1, col) = Some n7 /\
    from !! (row + 1, col + 1) = Some n8 /\
    s = c + (n1 + n2 + n3 + n4 + n5 + n6 + n7 + n8) /\
    0 <= s <= 9 /\
    anneal !! Z.to_nat s = Some v /\
    (v = 1 <-> s = 4 \/ s = 6 \/ s = 7 \/ s = 8 \/ s = 9) /\
    (v = 0 <-> s = 0 \/ s = 1 \/ s = 2 \/ s = 3 \/ s = 5) /\
    simulate blockDim from lines t to = Some (<[(row, col) := v]> to).
Proof.
  intros Hf Ht Hy Hx Hi Hb.
  assert (Hb' : forall c v, c ∈ around row col -> from !! c = Some v ->
            v = 0 \/ v = 1).
  { intros [y x] v Hc. destruct (around_range _ _ _ _ Hc). by apply Hb. }
  destruct (sum9_interior lines from row col Hf Hi Hb') as (s & Hs & Hr).
  destruct (sum9_cells from row col s Hs)
    as (c & n1 & n2 & n3 & n4 & n5 & n6 & n7 & n8 & Hc & H1 & H2 & H3 & H4
        & H5 & H6 & H7 & H8 & Hsum).
  assert (Hto : in_buf lines row col).
  { destruct Hi. pose proof XSIZE_eq. unfold in_buf. lia. }
  assert (Hcase : s = 0 \/ s = 1 \/ s = 2 \/ s = 3 \/ s = 4 \/ s = 5
                  \/ s = 6 \/ s = 7 \/ s = 8 \/ s = 9) by lia.
  assert (Hw : exists v, anneal !! Z.to_nat s = Some v /\
             (v = 1 <-> s = 4 \/ s = 6 \/ s = 7 \/ s = 8 \/ s = 9) /\
             (v = 0 <-> s = 0 \/ s = 1 \/ s = 2 \/ s = 3 \/ s = 5)).
  { destruct Hcase as [->|[->|[->|[->|[->|[->|[->|[->|[->| ->]]]]]]]]];
      simpl; eexists; (split; [done|]); split; lia. }
  destruct Hw as (v & Hv & Hv1 & Hv0).
  exists c, n1, n2, n3, n4, n5, n6, n7, n8, s, v.
  repeat (split; [first [done | lia]|]).
  unfold simulate. rewrite Hy, Hx, Hs. simpl. unfold anneal_at.
  destruct (Z.ltb_spec s 0); [lia|]. rewrite Hv. simpl.
  by apply (wr_Some lines).
Qed.

Lemma simulate_interior_cell_witness :
  exists c n1 n2 n3 n4 n5 n6 n7 n8 s v,
    calloc 1 !! (1, 1) = Some c /\
    calloc 1 !! (1 - 1, 1 - 1) = Some n1 /\
    calloc 1 !! (1 - 1, 1) = Some n2 /\
    calloc 1 !! (1 - 1, 1 + 1) = Some n3 /\
    calloc 1 !! (1, 1 - 1) = Some n4 /\
    calloc 1 !! (1, 1 + 1) = Some n5 /\
    calloc 1 !! (1 + 1, 1 - 1) = Some n6 /\
    calloc 1 !! (1 + 1, 1) = Some n7 /\
    calloc 1 !! (1 + 1, 1 + 1) = Some n8 /\
    s = c + (n1 + n2 + n3 + n4 + n5 + n6 + n7 + n8) /\
    0 <= s <= 9 /\
    anneal !! Z.to_nat s = Some v /\
    (v = 1 <-> s = 4 \/ s = 6 \/ s = 7 \/ s = 8 \/ s = 9) /\
    (v = 0 <-> s = 0 \/ s = 1 \/ s = 2 \/ s = 3 \/ s = 5) /\
    simulate (Dim3 32 32) (calloc 1) 1 (Thread (Dim3 0 0) (Dim3 0 0))
      (calloc 1) = Some (<[(1, 1) := v]> (calloc 1)).
Proof.
  apply (simulate_interior_cell (Dim3 32 32) 1 (calloc 1) (calloc 1)
           (Thread (Dim3 0 0) (Dim3 0 0)) 1 1).
  - apply alloc_allocated.
  - apply alloc_allocated.
  - reflexivity.
  - reflexivity.
  - unfold interior. rewrite XSIZE_eq. lia.
  - intros y x v _ _ Hv. exact (calloc_binary 1 (y, x) v Hv).
Defined.

(** ** The threads of a launch *)

Lemma elem_of_threads_of nb tpb t :
  t ∈ threads_of nb tpb <->
  (0 <= dim_x (blockIdx t) < dim_x nb /\ 0 <= dim_y (blockIdx t) < dim_y nb) /\
  (0 <= dim_x (threadIdx t) < dim_x tpb /\
   0 <= dim_y (threadIdx t) < dim_y tpb).
Proof.
  unfold threads_of. split.
  - intros H.
    apply list_elem_of_bind in H as (bx & H & Hbx).
    apply list_elem_of_bind in H as (by_ & H & Hby).
    apply list_elem_of_bind in H as (tx & H & Htx).
    apply list_elem_of_bind in H as (ty & H & Hty).
    apply list_elem_of_ret in H. subst t. simpl.
    apply elem_of_seqZ in Hbx, Hby, Htx, Hty. lia.
  - destruct t as [[bx by_] [tx ty]]. simpl. intros [[Hbx Hby] [Htx Hty]].
    apply list_elem_of_bind. exists bx. split; [|apply elem_of_seqZ; lia].
    apply list_elem_of_bind. exists by_. split; [|apply elem_of_seqZ; lia].
    apply list_elem_of_bind. exists tx. split; [|apply elem_of_seqZ; lia].
    apply list_elem_of_bind. exists ty. split; [|apply elem_of_seqZ; lia].
    by apply list_elem_of_ret.
Qed.

(** A launch has no thread twice. *)
Lemma NoDup_threads_of nb tpb : NoDup (threads_of nb tpb).
Proof.
  unfold threads_of.
  apply NoDup_bind; [| |apply NoDup_seqZ].
  { intros bx1 bx2 t _ _ H1 H2. thread_of H1. thread_of H2. congruence. }
  intros bx _. apply NoDup_bind; [| |apply NoDup_seqZ].
  { intros by1 by2 t _ _ H1 H2. thread_of H1. thread_of H2. congruence. }
  intros by_ _. apply NoDup_bind; [| |apply NoDup_seqZ].
  { intros tx1 tx2 t _ _ H1 H2. thread_of H1. thread_of H2. congruence. }
  intros tx _. apply NoDup_bind; [| |apply NoDup_seqZ].
  { intros ty1 ty2 t _ _ H1 H2. thread_of H1. thread_of H2. congruence. }
  intros ty _. apply NoDup_singleton.
Qed.

Global Opaque threads_of.

Lemma threads_of_schedule nb tpb : schedule_of nb tpb (threads_of nb tpb).
Proof. unfold schedule_of. reflexivity. Qed.

Lemma elem_of_schedule nb tpb sched t :
  schedule_of nb tpb sched -> t ∈ sched <-> t ∈ threads_of nb tpb.
Proof. intros Hs. by rewrite Hs. Qed.

(** A thread that fails on every memory of a class closed under the kernel
    makes the launch fail, wherever the schedule puts it. *)
Lemma run_threads_fault {M : Type} (P : M -> Prop)
    (kernel : thread -> M -> option M) t sched mem :
  (forall t' m m', P m -> kernel t' m = Some m' -> P m') ->
  (forall m, P m -> kernel t m = None) ->
  t ∈ sched -> P mem -> run_threads kernel sched mem = None.
Proof.
  intros Hpres Hfail Hin. revert mem.
  induction sched as [|t' ts IH]; intros mem HP.
  - by apply elem_of_nil in Hin.
  - simpl. destruct (kernel t' mem) as [m'|] eqn:E; [|done]. simpl.
    apply elem_of_cons in Hin as [->|Hin].
    + rewrite Hfail in E; done.
    + apply IH; eauto.
Qed.

(** ** The boundary kernel as a sequence of copies *)

Lemma exec_copies_app cs1 cs2 buf :
  exec_copies (cs1 ++ cs2) buf =
  buf' ← exec_copies cs1 buf; exec_copies cs2 buf'.
Proof.
  revert buf. induction cs1 as [|c cs1 IH]; intros buf; simpl; [done|].
  destruct (exec_copy buf c); simpl; [apply IH | done].
Qed.

Lemma boundary_as_copies blockDim lines t buf :
  boundary blockDim lines t buf =
  exec_copies (boundary_copies lines (global_x blockDim t)
                 (global_y blockDim t)) buf.
Proof.
  unfold boundary, boundary_copies.
  set (y := global_y blockDim t). set (x := global_x blockDim t).
  rewrite !exec_copies_app.
  destruct (y =? lines - 1); simpl.
  - unfold exec_copy at 1. simpl.
    destruct (cp buf (y + 2) (x + 1) 1 (x + 1)) as [b1|]; simpl; [|done].
    destruct (y =? 0), (x =? 0), (x =? XSIZE - 1); simpl;
      unfold exec_copy; simpl;
      repeat (match goal with
              | |- context [cp ?b ?a1 ?a2 ?a3 ?a4] =>
                  destruct (cp b a1 a2 a3 a4); simpl; try done
              end); reflexivity.
  - destruct (y =? 0), (x =? 0), (x =? XSIZE - 1); simpl;
      unfold exec_copy; simpl;
      repeat (match goal with
              | |- context [cp ?b ?a1 ?a2 ?a3 ?a4] =>
                  destruct (cp b a1 a2 a3 a4); simpl; try done
              end); reflexivity.
Qed.

Lemma run_boundary_as_copies blockDim lines sched buf :
  run_threads (boundary blockDim lines) sched buf =
  exec_copies (t ← sched; boundary_copies lines (global_x blockDim t)
                            (global_y blockDim t)) buf.
Proof.
  revert buf. induction sched as [|t ts IH]; intros buf; [done|].
  simpl. rewrite exec_copies_app, boundary_as_copies.
  destruct (exec_copies _ buf); simpl; [apply IH | done].
Qed.

(** ** The torus *)

Lemma wrap_low n : 1 <= n -> (0 - 1) mod n + 1 = n.
Proof.
  intros Hn. rewrite <- (Z.mod_unique (0 - 1) n (-1) (n - 1)); lia.
Qed.

Lemma wrap_high n : 1 <= n -> (n + 1 - 1) mod n + 1 = 1.
Proof.
  intros Hn. rewrite <- (Z.mod_unique (n + 1 - 1) n 1 0); lia.
Qed.

Lemma wrap_mid n k : 1 <= k <= n -> (k - 1) mod n + 1 = k.
Proof. intros Hk. rewrite Z.mod_small; lia. Qed.

Lemma torus_interior lines y x :
  interior lines y x -> torus lines (y, x) = (y, x).
Proof.
  intros [Hy Hx]. unfold torus, torus_y, torus_x. simpl.
  by rewrite !wrap_mid.
Qed.

Lemma torus_is_interior lines y x :
  1 <= lines -> in_buf lines y x ->
  interior lines (torus_y lines y) (torus_x x).
Proof.
  intros Hl [Hy Hx]. pose proof XSIZE_eq as HX.
  unfold interior, torus_y, torus_x.
  pose proof (Z.mod_pos_bound (y - 1) lines).
  pose proof (Z.mod_pos_bound (x - 1) XSIZE). lia.
Qed.

Lemma interior_in_buf lines y x : interior lines y x -> in_buf lines y x.
Proof. intros [Hy Hx]. unfold in_buf. lia. Qed.

Lemma exec_copies_spec lines orig cs :
  allocated lines orig -> Forall (valid_copy lines) cs ->
  forall buf, allocated lines buf -> same_interior lines orig buf ->
  exists buf',
    exec_copies cs buf = Some buf' /\ allocated lines buf' /\
    same_interior lines orig buf' /\
    forall c, buf' !! c =
      if decide (c ∈ cs.*1) then orig !! torus lines c else buf !! c.
Proof.
  intros Ho Hv. induction Hv as [|[[yd xd] [ys xs]] cs Hc Hcs IH];
    intros buf Ha Hi.
  - exists buf. by split_and!.
  - destruct Hc as (Hd & Hnd & Hs & Ht). simpl in *.
    destruct (rd_Some lines orig ys xs Ho (interior_in_buf _ _ _ Hs))
      as [v Hrv].
    assert (Hbv : rd buf ys xs = Some v) by (unfold rd in *; by rewrite Hi).
    unfold exec_copy, cp. simpl. rewrite Hbv. simpl.
    rewrite (wr_Some lines) by done. simpl.
    destruct (IH (<[(yd, xd) := v]> buf)) as (buf' & He & Ha' & Hi' & Hl).
    + eapply wr_allocated; [exact Ha|]. by apply (wr_Some lines).
    + intros y x Hyx. rewrite lookup_insert_ne; [by apply Hi|].
      intros [= -> ->]. contradiction.
    + exists buf'. split_and!; try done. intros c. rewrite Hl.
      destruct (decide (c ∈ cs.*1)) as [Hin|Hnin].
      * rewrite decide_True; [done|]. by apply list_elem_of_further.
      * destruct (decide (c = (yd, xd))) as [->|Hne].
        -- rewrite lookup_insert_eq, decide_True by apply list_elem_of_here.
           by rewrite Ht.
        -- rewrite lookup_insert_ne by done. rewrite decide_False; [done|].
           intros [?|?]%elem_of_cons; done.
Qed.

Lemma exec_copies_allocated lines cs buf buf' :
  allocated lines buf -> exec_copies cs buf = Some buf' ->
  allocated lines buf'.
Proof.
  revert buf. induction cs as [|c cs IH]; intros buf Ha He; simpl in He.
  - by simplify_eq.
  - destruct (exec_copy buf c) as [b|] eqn:E; simpl in He; [|done].
    eapply IH; [|done]. eapply cp_allocated; eauto.
Qed.

Lemma boundary_allocated blockDim lines t buf buf' :
  allocated lines buf -> boundary blockDim lines t buf = Some buf' ->
  allocated lines buf'.
Proof. rewrite boundary_as_copies. apply exec_copies_allocated. Qed.

Lemma elem_of_boundary_copies lines x y c :
  c ∈ boundary_copies lines x y <->
  (y = lines - 1 /\ c = ((y + 2, x + 1), (1, x + 1))) \/
  (y = 0 /\ c = ((y, x + 1), (lines, x + 1))) \/
  (x = 0 /\ c = ((y + 1, x), (y + 1, XSIZE))) \/
  (x = XSIZE - 1 /\ c = ((y + 1, x + 2), (y + 1, 1))) \/
  (x = 0 /\ y = 0 /\
   (c = ((0, 0), (lines, XSIZE)) \/ c = ((0, XSIZE + 1), (lines, 1)) \/
    c = ((lines + 1, 0), (1, XSIZE)) \/
    c = ((lines + 1, XSIZE + 1), (1, 1)))).
Proof.
  clear. unfold boundary_copies. rewrite !elem_of_app.
  destruct (Z.eqb_spec y (lines - 1)), (Z.eqb_spec y 0), (Z.eqb_spec x 0),
    (Z.eqb_spec x (XSIZE - 1)); simpl;
    rewrite ?elem_of_cons, ?elem_of_nil; naive_solver.
Qed.

Lemma torus_y_cases lines y :
  1 <= lines ->
  (y = 0 -> torus_y lines y = lines) /\
  (y = lines + 1 -> torus_y lines y = 1) /\
  (1 <= y <= lines -> torus_y lines y = y).
Proof.
  intros Hl. unfold torus_y. split_and!.
  - intros ->. by apply wrap_low.
  - intros ->. by apply wrap_high.
  - apply wrap_mid.
Qed.

Lemma torus_x_cases x :
  (x = 0 -> torus_x x = XSIZE) /\
  (x = XSIZE + 1 -> torus_x x = 1) /\
  (1 <= x <= XSIZE -> torus_x x = x).
Proof.
  pose proof XSIZE_eq. unfold torus_x. split_and!.
  - intros ->. apply wrap_low. lia.
  - intros ->. apply wrap_high. lia.
  - apply wrap_mid.
Qed.

(** The copies of a thread of the interior's range are valid. *)
Lemma boundary_copies_valid lines x y :
  1 <= lines -> 0 <= x < XSIZE -> 0 <= y < lines ->
  Forall (valid_copy lines) (boundary_copies lines x y).
Proof.
  intros Hl Hx Hy. apply Forall_forall. intros c Hc.
  apply elem_of_boundary_copies in Hc.
  pose proof XSIZE_eq as HX.
  destruct (torus_y_cases lines 0 Hl) as (Hy0 & _ & _).
  destruct (torus_y_cases lines (lines + 1) Hl) as (_ & Hy1 & _).
  destruct (torus_y_cases lines (y + 1) Hl) as (_ & _ & Hym).
  destruct (torus_x_cases 0) as (Hx0 & _ & _).
  destruct (torus_x_cases (XSIZE + 1)) as (_ & Hx1 & _).
  destruct (torus_x_cases (x + 1)) as (_ & _ & Hxm).
  unfold valid_copy, in_buf, interior, torus.
  destruct Hc as [[-> ->]|[[-> ->]|[[-> ->]|[[-> ->]|(-> & -> & Hc)]]]];
    simpl.
  - replace (lines - 1 + 2) with (lines + 1) by lia.
    rewrite Hy1, Hxm by lia. split_and!; try done; lia.
  - rewrite Hy0, Hxm by lia. split_and!; try done; lia.
  - rewrite Hym, Hx0 by lia. split_and!; try done; lia.
  - replace (XSIZE - 1 + 2) with (XSIZE + 1) by lia.
    rewrite Hym, Hx1 by lia. split_and!; try done; lia.
  - destruct Hc as [->|[->|[->| ->]]]; simpl;
      rewrite ?Hy0, ?Hy1, ?Hx0, ?Hx1 by lia; split_and!; try done; lia.
Qed.

(** ** Launch geometry *)

Section Geometry.

Variables (nb tpb : dim3).

Hypothesis block_x_pos : 0 < dim_x tpb.

Hypothesis block_y_pos : 0 < dim_y tpb.

Hypothesis total_x_int : total_x nb tpb < 2 ^ 31.

Hypothesis total_y_int : total_y nb tpb < 2 ^ 31.

Lemma thread_coords t :
  t ∈ threads_of nb tpb ->
  (0 <= global_x tpb t < total_x nb tpb) /\
  (0 <= global_y tpb t < total_y nb tpb).
Proof using block_x_pos block_y_pos total_x_int total_y_int.
  intros Ht. apply elem_of_threads_of in Ht as [[Hbx Hby] [Htx Hty]].
  unfold global_x, global_y, total_x, total_y in *.
  rewrite !to_int_small; nia.
Qed.

Lemma thread_at x y :
  0 <= x < total_x nb tpb -> 0 <= y < total_y nb tpb ->
  exists t, t ∈ threads_of nb tpb /\
            global_x tpb t = x /\
            global_y tpb t = y.
Proof using block_x_pos block_y_pos total_x_int total_y_int.
  intros Hx Hy. unfold total_x, total_y in *.
  set (bx := dim_x tpb) in *.
  set (by_ := dim_y tpb) in *.
  exists (Thread (Dim3 (x / bx) (y / by_)) (Dim3 (x mod bx) (y mod by_))).
  pose proof (Z.mod_pos_bound x bx block_x_pos).
  pose proof (Z.mod_pos_bound y by_ block_y_pos).
  pose proof (Z.div_mod x bx ltac:(lia)).
  pose proof (Z.div_mod y by_ ltac:(lia)).
  assert (0 <= x / bx) by (apply Z.div_pos; lia).
  assert (0 <= y / by_) by (apply Z.div_pos; lia).
  assert (x / bx < dim_x nb)
    by (apply Z.div_lt_upper_bound; lia).
  assert (y / by_ < dim_y nb)
    by (apply Z.div_lt_upper_bound; lia).
  split; [apply elem_of_threads_of; simpl; fold bx by_; lia|].
  unfold global_x, global_y. simpl. fold bx by_.
  rewrite !to_int_small; lia.
Qed.

(** Two threads of a launch with the same coordinates are the same
    thread. *)
Lemma thread_coords_inj t1 t2 :
  t1 ∈ threads_of nb tpb -> t2 ∈ threads_of nb tpb ->
  global_x tpb t1 = global_x tpb t2 -> global_y tpb t1 = global_y tpb t2 ->
  t1 = t2.
Proof using block_x_pos block_y_pos total_x_int total_y_int.
  intros H1 H2.
  apply elem_of_threads_of in H1 as [[Hbx1 Hby1] [Htx1 Hty1]].
  apply elem_of_threads_of in H2 as [[Hbx2 Hby2] [Htx2 Hty2]].
  destruct t1 as [[bx1 by1] [tx1 ty1]], t2 as [[bx2 by2] [tx2 ty2]].
  unfold global_x, global_y, total_x, total_y in *. simpl in *.
  rewrite !to_int_small by nia. intros Hx Hy.
  assert (bx1 = bx2) by nia. assert (by1 = by2) by nia.
  assert (tx1 = tx2) by nia. assert (ty1 = ty2) by nia.
  congruence.
Qed.

End Geometry.

(** ** A launch of [boundary] *)

Lemma run_boundary_spec blockDim lines orig sched :
  1 <= lines -> allocated lines orig ->
  (forall t, t ∈ sched ->
     0 <= global_x blockDim t < XSIZE /\ 0 <= global_y blockDim t < lines) ->
  exists buf',
    run_threads (boundary blockDim lines) sched orig = Some buf' /\
    allocated lines buf' /\ same_interior lines orig buf' /\
    forall c, buf' !! c =
      if decide (c ∈ boundary_targets blockDim lines sched)
      then orig !! torus lines c else orig !! c.
Proof.
  intros Hl Ho Hs. rewrite run_boundary_as_copies.
  apply (exec_copies_spec lines orig); try done.
  apply Forall_forall. intros c Hc.
  apply list_elem_of_bind in Hc as (t & Hc & Ht).
  destruct (Hs t Ht) as [Hx Hy].
  pose proof (boundary_copies_valid lines _ _ Hl Hx Hy) as Hv.
  rewrite Forall_forall in Hv. by apply Hv.
Qed.

Lemma elem_of_boundary_targets blockDim lines sched c :
  c ∈ boundary_targets blockDim lines sched <->
  exists t s, t ∈ sched /\
    (c, s) ∈ boundary_copies lines (global_x blockDim t)
               (global_y blockDim t).
Proof.
  unfold boundary_targets. rewrite list_elem_of_fmap. split.
  - intros ([d s] & -> & Hc). apply list_elem_of_bind in Hc as (t & Hc & Ht).
    eauto.
  - intros (t & s & Ht & Hc). exists (c, s). split; [done|].
    apply list_elem_of_bind. eauto.
Qed.

(** ** A launch of [simulate] *)

Lemma simulate_unfold blockDim from lines t to :
  simulate blockDim from lines t to =
  v ← next_state from (simulate_target blockDim t).1
        (simulate_target blockDim t).2;
  wr to (simulate_target blockDim t).1 (simulate_target blockDim t).2 v.
Proof.
  unfold simulate, next_state, simulate_target. simpl.
  by destruct (sum9 _ _ _).
Qed.

Lemma next_state_interior lines from y x :
  allocated lines from -> binary from -> interior lines y x ->
  exists v, next_state from y x = Some v /\ (v = 0 \/ v = 1).
Proof.
  intros Ha Hb Hi.
  destruct (sum9_interior lines from y x Ha Hi) as (s & Hs & Hr).
  { intros c v _. apply Hb. }
  destruct (anneal_at_range s Hr) as (v & Hv & Hv').
  exists v. unfold next_state. by rewrite Hs.
Qed.

Lemma simulate_allocated blockDim from lines t to to' :
  allocated lines to -> simulate blockDim from lines t to = Some to' ->
  allocated lines to'.
Proof.
  rewrite simulate_unfold. intros Ha Hs.
  destruct (next_state _ _ _); simpl in Hs; [|done].
  eapply wr_allocated; eauto.
Qed.

Lemma run_simulate_spec blockDim lines from sched :
  allocated lines from -> binary from ->
  (forall t, t ∈ sched ->
     interior lines (simulate_target blockDim t).1
       (simulate_target blockDim t).2) ->
  forall to, allocated lines to ->
  exists to',
    run_threads (simulate blockDim from lines) sched to = Some to' /\
    allocated lines to' /\
    forall c, to' !! c =
      if decide (c ∈ simulate_target blockDim <$> sched)
      then next_state from c.1 c.2 else to !! c.
Proof.
  intros Hf Hb. induction sched as [|t ts IH]; intros Hs to Ht.
  - exists to. by split_and!.
  - simpl. rewrite simulate_unfold.
    destruct (simulate_target blockDim t) as [y x] eqn:Et.
    assert (Hi : interior lines y x).
    { specialize (Hs t (list_elem_of_here _ _)). by rewrite Et in Hs. }
    destruct (next_state_interior lines from y x Hf Hb Hi) as (v & Hv & _).
    simpl. rewrite Hv. simpl.
    rewrite (wr_Some lines) by eauto using interior_in_buf. simpl.
    destruct (IH (fun t' Ht' => Hs t' (list_elem_of_further _ _ _ Ht'))
                (<[(y, x) := v]> to)) as (to' & Hr & Ha & Hl).
    { eapply wr_allocated; [exact Ht|].
      apply (wr_Some lines); eauto using interior_in_buf. }
    exists to'. split_and!; try done. intros c. rewrite Hl.
    destruct (decide (c ∈ simulate_target blockDim <$> ts)) as [Hin|Hnin].
    + rewrite decide_True; [done|]. by apply list_elem_of_further.
    + destruct (decide (c = (y, x))) as [->|Hne].
      * rewrite lookup_insert_eq, decide_True by apply list_elem_of_here.
        done.
      * rewrite lookup_insert_ne by done. rewrite decide_False; [done|].
        intros [?|?]%elem_of_cons; done.
Qed.

(** ** Launches with one thread for each interior cell *)

Lemma copy_eq (a b c d a' b' c' d' : Z) :
  a = a' -> b = b' -> c = c' -> d = d' ->
  ((a, b), (c, d)) = ((a', b'), (c', d')).
Proof. by intros -> -> -> ->. Qed.

(** Every cell of the halo is the destination of a copy of some thread of
    the interior's range. *)
Lemma halo_is_target lines y x :
  1 <= lines -> halo lines y x ->
  exists x0 y0 s,
    (0 <= x0 < XSIZE /\ 0 <= y0 < lines) /\
    ((y, x), s) ∈ boundary_copies lines x0 y0.
Proof.
  intros Hl [[Hy Hx] Hn]. pose proof XSIZE_eq as HX. unfold interior in Hn.
  destruct (decide (x = 0)) as [->|Hx0].
  { destruct (decide (y = 0)) as [->|Hy0].
    { exists 0, 0, (lines, XSIZE). split; [lia|].
      apply elem_of_boundary_copies. do 4 right. auto. }
    destruct (decide (y = lines + 1)) as [->|Hy1].
    { exists 0, 0, (1, XSIZE). split; [lia|].
      apply elem_of_boundary_copies. do 4 right. auto 6. }
    exists 0, (y - 1), (y - 1 + 1, XSIZE). split; [lia|].
    apply elem_of_boundary_copies. right. right. left.
    split; [done|]. apply copy_eq; lia. }
  destruct (decide (x = XSIZE + 1)) as [->|Hx1].
  { destruct (decide (y = 0)) as [->|Hy0].
    { exists 0, 0, (lines, 1). split; [lia|].
      apply elem_of_boundary_copies. do 4 right. auto. }
    destruct (decide (y = lines + 1)) as [->|Hy1].
    { exists 0, 0, (1, 1). split; [lia|].
      apply elem_of_boundary_copies. do 4 right. auto 6. }
    exists (XSIZE - 1), (y - 1), (y - 1 + 1, 1). split; [lia|].
    apply elem_of_boundary_copies. right. right. right. left.
    split; [done|]. apply copy_eq; lia. }
  destruct (decide (y = 0)) as [->|Hy0].
  { exists (x - 1), 0, (lines, x - 1 + 1). split; [lia|].
    apply elem_of_boundary_copies. right. left.
    split; [done|]. apply copy_eq; lia. }
  exists (x - 1), (lines - 1), (1, x - 1 + 1). split; [lia|].
  apply elem_of_boundary_copies. left.
  split; [done|]. apply copy_eq; lia.
Qed.

(** *** Sums through the halo and sums on the torus *)

Lemma lookup_synchronized lines orig y x :
  1 <= lines -> allocated lines orig -> in_buf lines y x ->
  synchronized lines orig !! (y, x) = orig !! torus lines (y, x).
Proof.
  intros Hl Ho Hin. unfold synchronized. rewrite lookup_alloc by done.
  pose proof (torus_is_interior lines y x Hl Hin) as Ht.
  destruct (rd_Some lines orig _ _ Ho (interior_in_buf _ _ _ Ht)) as [v Hv].
  unfold rd in Hv. unfold torus. simpl. by rewrite Hv.
Qed.

Lemma sum9_synchronized lines orig y x :
  1 <= lines -> allocated lines orig -> interior lines y x ->
  sum9 (synchronized lines orig) y x = torus_sum9 lines orig y x.
Proof.
  intros Hl Ho Hi. unfold sum9, torus_sum9, rd.
  assert (Hs : forall y' x', (y', x') ∈ around y x ->
            synchronized lines orig !! (y', x') =
            orig !! torus lines (y', x')).
  { intros y' x' Hc. apply lookup_synchronized; try done.
    eapply around_in_buf; eauto. }
  unfold around in Hs.
  rewrite !Hs by in_list. done.
Qed.

Lemma torus_sum9_ext lines g1 g2 y x :
  1 <= lines -> same_interior lines g1 g2 -> interior lines y x ->
  torus_sum9 lines g2 y x = torus_sum9 lines g1 y x.
Proof.
  intros Hl Hs Hi. unfold torus_sum9.
  assert (He : forall y' x', (y', x') ∈ around y x ->
            g2 !! torus lines (y', x') = g1 !! torus lines (y', x')).
  { intros y' x' Hc. apply Hs. apply torus_is_interior; [done|].
    eapply around_in_buf; eauto. }
  unfold around in He.
  rewrite !He by in_list. done.
Qed.

Lemma synchronized_allocated lines orig :
  allocated lines (synchronized lines orig).
Proof. apply alloc_allocated. Qed.

Lemma synchronized_binary lines orig :
  binary orig -> binary (synchronized lines orig).
Proof.
  intros Hb [y x] v Hv. unfold synchronized in Hv.
  destruct (decide (in_buf lines y x)) as [Hin|Hout].
  - rewrite lookup_alloc in Hv by done. simplify_eq.
    destruct (orig !! torus lines (y, x)) as [w|] eqn:E; simpl; eauto.
  - by rewrite lookup_alloc_None in Hv.
Qed.

Section Launch.

Variables (nb tpb : dim3) (lines : Z).

Hypothesis block_x_pos : 0 < dim_x tpb.

Hypothesis block_y_pos : 0 < dim_y tpb.

Hypothesis grid_x : total_x nb tpb = XSIZE.

Hypothesis grid_y : total_y nb tpb = lines.

Hypothesis lines_int : 1 <= lines < 2 ^ 31.

Lemma launch_thread_coords t :
  t ∈ threads_of nb tpb ->
  0 <= global_x tpb t < XSIZE /\ 0 <= global_y tpb t < lines.
Proof using block_x_pos block_y_pos grid_x grid_y lines_int.
  intros Ht. rewrite <- grid_x, <- grid_y. apply thread_coords; try done.
  - rewrite grid_x, XSIZE_eq. lia.
  - rewrite grid_y. lia.
Qed.

Lemma launch_thread_at x y :
  0 <= x < XSIZE -> 0 <= y < lines ->
  exists t, t ∈ threads_of nb tpb /\
            global_x tpb t = x /\ global_y tpb t = y.
Proof using block_x_pos block_y_pos grid_x grid_y lines_int.
  intros Hx Hy. apply thread_at; try done.
  - rewrite grid_x, XSIZE_eq. lia.
  - rewrite grid_y. lia.
  - by rewrite grid_x.
  - by rewrite grid_y.
Qed.

(** With one thread for each interior cell, a launch of [boundary] leaves
    the synchronized buffer, whatever the order of the threads. *)
Lemma run_boundary_synchronized orig sched :
  allocated lines orig -> schedule_of nb tpb sched ->
  run_threads (boundary tpb lines) sched orig =
    Some (synchronized lines orig).
Proof using block_x_pos block_y_pos grid_x grid_y lines_int.
  intros Ho Hs.
  destruct (run_boundary_spec tpb lines orig sched) as
    (buf' & -> & Ha & Hi & Hl); [lia|done| |].
  { intros t Ht. apply launch_thread_coords.
    by apply (elem_of_schedule nb tpb sched). }
  f_equal. apply map_eq. intros [y x]. unfold synchronized.
  destruct (decide (in_buf lines y x)) as [Hin|Hout].
  - rewrite lookup_alloc by done.
    pose proof (torus_is_interior lines y x ltac:(lia) Hin) as Ht.
    destruct (rd_Some lines orig _ _ Ho (interior_in_buf _ _ _ Ht))
      as [v Hv]. unfold rd in Hv.
    assert (Hto : orig !! torus lines (y, x) = Some v) by done.
    rewrite Hto. simpl. rewrite Hl.
    destruct (decide (interior lines y x)) as [Hint|Hh].
    + rewrite (torus_interior lines y x Hint) in Hto |- *.
      by destruct (decide _).
    + rewrite decide_True; [done|].
      destruct (halo_is_target lines y x) as (x0 & y0 & s & [Hx0 Hy0] & Hc);
        [lia|done|].
      destruct (launch_thread_at x0 y0 Hx0 Hy0) as (t & Ht' & Hgx & Hgy).
      apply elem_of_boundary_targets. exists t, s. split.
      * by apply (elem_of_schedule nb tpb sched).
      * by rewrite Hgx, Hgy.
  - rewrite lookup_alloc_None by done.
    apply eq_None_not_Some. intros Hs'. by apply Hout, Ha.
Qed.

(** With one thread for each interior cell, a launch of [simulate] writes
    the next state of every interior cell and no other cell, whatever the
    order of the threads. *)
Lemma run_simulate_interior from to sched :
  allocated lines from -> binary from -> allocated lines to ->
  schedule_of nb tpb sched ->
  exists to',
    run_threads (simulate tpb from lines) sched to = Some to' /\
    allocated lines to' /\
    (forall y x, interior lines y x -> to' !! (y, x) = next_state from y x) /\
    (forall y x, ~ interior lines y x -> to' !! (y, x) = to !! (y, x)).
Proof using block_x_pos block_y_pos grid_x grid_y lines_int.
  intros Hf Hb Ht Hs.
  assert (Hti : forall t, t ∈ sched ->
            interior lines (simulate_target tpb t).1
              (simulate_target tpb t).2).
  { intros t Hin. apply (elem_of_schedule nb tpb sched) in Hin; [|done].
    apply launch_thread_coords in Hin. unfold simulate_target, interior.
    simpl. lia. }
  destruct (run_simulate_spec tpb lines from sched Hf Hb Hti to Ht)
    as (to' & Hr & Ha & Hl).
  exists to'. split_and!; try done.
  - intros y x Hi. rewrite Hl. rewrite decide_True; [done|].
    destruct Hi as [Hy Hx].
    destruct (launch_thread_at (x - 1) (y - 1)) as (t & Hin & Hgx & Hgy);
      [lia|lia|].
    apply list_elem_of_fmap. exists t. split.
    + unfold simulate_target. rewrite Hgx, Hgy. f_equal; lia.
    + by apply (elem_of_schedule nb tpb sched).
  - intros y x Hn. rewrite Hl. rewrite decide_False; [done|].
    intros Hin. apply list_elem_of_fmap in Hin as (t & Heq & Hin).
    apply Hn. specialize (Hti t Hin). by rewrite <- Heq in Hti.
Qed.

(** X25.  Launched with one thread for each interior cell (as many threads
    along [x] as [XSIZE], along [y] as [lines], what the comment in
    [boundary] counts on), the boundary synchronizer ends, whatever the
    order of its threads, and afterwards:
    halo line 0 equals interior line [lines] and halo line [lines + 1]
    equals interior line 1, column by column; halo column 0 equals column
    [XSIZE] and halo column [XSIZE + 1] equals column 1, line by line; each
    corner of the halo equals the interior corner diagonally opposite; the
    interior is unchanged; and around every interior cell the sum of the
    eight neighbours (and of the nine cells) read through the halo is the
    sum read in the interior at the indices modulo [lines] and [XSIZE]. *)
Theorem boundary_launch_synchronizes buf sched :
  allocated lines buf -> schedule_of nb tpb sched ->
  exists buf',
    run_threads (boundary tpb lines) sched buf = Some buf' /\
    (forall x, 1 <= x <= XSIZE ->
       buf' !! (0, x) = buf !! (lines, x) /\
       buf' !! (lines + 1, x) = buf !! (1, x)) /\
    (forall y, 1 <= y <= lines ->
       buf' !! (y, 0) = buf !! (y, XSIZE) /\
       buf' !! (y, XSIZE + 1) = buf !! (y, 1)) /\
    (buf' !! (0, 0) = buf !! (lines, XSIZE) /\
     buf' !! (0, XSIZE + 1) = buf !! (lines, 1) /\
     buf' !! (lines + 1, 0) = buf !! (1, XSIZE) /\
     buf' !! (lines + 1, XSIZE + 1) = buf !! (1, 1)) /\
    (forall y x, interior lines y x -> buf' !! (y, x) = buf !! (y, x)) /\
    (forall y x, interior lines y x ->
       exists s8 s9,
         sum8 buf' y x = Some s8 /\ torus_sum8 lines buf y x = Some s8 /\
         sum9 buf' y x = Some s9 /\ torus_sum9 lines buf y x = Some s9).
Proof using block_x_pos block_y_pos grid_x grid_y lines_int.
  intros Ha Hs. exists (synchronized lines buf).
  split; [by apply run_boundary_synchronized|].
  pose proof XSIZE_eq as HX.
  assert (Hl : 1 <= lines) by lia.
  assert (Hlk : forall y x y' x', in_buf lines y x ->
            torus_y lines y = y' -> torus_x x = x' ->
            synchronized lines buf !! (y, x) = buf !! (y', x')).
  { intros y x y' x' Hin <- <-. by apply lookup_synchronized. }
  destruct (torus_y_cases lines 0 Hl) as (Hy0 & _ & _).
  destruct (torus_y_cases lines (lines + 1) Hl) as (_ & Hy1 & _).
  destruct (torus_x_cases 0) as (Hx0 & _ & _).
  destruct (torus_x_cases (XSIZE + 1)) as (_ & Hx1 & _).
  assert (Hym : forall y, 1 <= y <= lines -> torus_y lines y = y)
    by (intros y; apply torus_y_cases; lia).
  assert (Hxm : forall x, 1 <= x <= XSIZE -> torus_x x = x)
    by (intros x; apply torus_x_cases).
  split_and!.
  - intros x Hx. split; apply Hlk; auto; unfold in_buf; lia.
  - intros y Hy. split; apply Hlk; auto; unfold in_buf; lia.
  - apply Hlk; auto; unfold in_buf; lia.
  - apply Hlk; auto; unfold in_buf; lia.
  - apply Hlk; auto; unfold in_buf; lia.
  - apply Hlk; auto; unfold in_buf; lia.
  - intros y x [Hy Hx]. apply Hlk; auto; unfold in_buf; lia.
  - intros y x Hi.
    assert (H9 : sum9 (synchronized lines buf) y x = torus_sum9 lines buf y x)
      by (by apply sum9_synchronized).
    assert (He : synchronized lines buf !! (y, x) =
                 buf !! torus lines (y, x))
      by (apply lookup_synchronized; eauto using interior_in_buf).
    destruct (sum9_is_Some lines (synchronized lines buf) y x
                (synchronized_allocated _ _) Hi) as [s9 Hs9].
    destruct (rd_Some lines (synchronized lines buf) y x
                (synchronized_allocated _ _) (interior_in_buf _ _ _ Hi))
      as [e Hre]. unfold rd in Hre.
    exists (s9 - e), s9. unfold sum8, torus_sum8, rd.
    rewrite <- H9, <- He, Hs9, Hre. done.
Qed.

(** X26.  Launched with one thread for each interior cell, the boundary
    synchronizer ends, whatever the order of its threads; every cell it
    writes is a cell of the halo, and every interior cell holds the same
    value afterwards as before. *)
Theorem boundary_launch_frame buf sched :
  allocated lines buf -> schedule_of nb tpb sched ->
  exists buf',
    run_threads (boundary tpb lines) sched buf = Some buf' /\
    (forall y x, (y, x) ∈ boundary_targets tpb lines sched ->
       halo lines y x) /\
    (forall y x, interior lines y x -> buf' !! (y, x) = buf !! (y, x)).
Proof using block_x_pos block_y_pos grid_x grid_y lines_int.
  intros Ha Hs.
  assert (Hc : forall t, t ∈ sched ->
            0 <= global_x tpb t < XSIZE /\ 0 <= global_y tpb t < lines).
  { intros t Ht. apply launch_thread_coords.
    by apply (elem_of_schedule nb tpb sched). }
  destruct (run_boundary_spec tpb lines buf sched) as
    (buf' & Hr & _ & Hi & _); [lia|done|done|].
  exists buf'. split_and!; [done| |done].
  intros y x Hin. apply elem_of_boundary_targets in Hin as (t & s & Ht & Hin).
  destruct (Hc t Ht) as [Hgx Hgy].
  pose proof (boundary_copies_valid lines _ _ ltac:(lia) Hgx Hgy) as Hv.
  rewrite Forall_forall in Hv. destruct (Hv _ Hin) as (Hb & Hn & _).
  by split.
Qed.

(** X27.  Launched with one thread for each interior cell, on a source
    whose cells are 0 or 1, the transition kernel ends, whatever the order
    of its threads; it writes at every interior cell of the destination the
    entry of [anneal] at the sum of the source cell [c] at that place and of
    its eight neighbours [n1] to [n8], a sum in 0..9, and leaves every cell
    of the halo of the destination as it was. *)
Theorem simulate_launch_interior from to sched :
  allocated lines from -> binary from -> allocated lines to ->
  schedule_of nb tpb sched ->
  exists to',
    run_threads (simulate tpb from lines) sched to = Some to' /\
    (forall y x, interior lines y x ->
       exists c n1 n2 n3 n4 n5 n6 n7 n8 s v,
         from !! (y, x) = Some c /\
         from !! (y - 1, x - 1) = Some n1 /\ from !! (y - 1, x) = Some n2 /\
         from !! (y - 1, x + 1) = Some n3 /\ from !! (y, x - 1) = Some n4 /\
         from !! (y, x + 1) = Some n5 /\ from !! (y + 1, x - 1) = Some n6 /\
         from !! (y + 1, x) = Some n7 /\ from !! (y + 1, x + 1) = Some n8 /\
         s = c + (n1 + n2 + n3 + n4 + n5 + n6 + n7 + n8) /\
         0 <= s <= 9 /\
         anneal !! Z.to_nat s = Some v /\
         to' !! (y, x) = Some v) /\
    (forall y x, halo lines y x -> to' !! (y, x) = to !! (y, x)).
Proof using block_x_pos block_y_pos grid_x grid_y lines_int.
  intros Hf Hb Ht Hs.
  destruct (run_simulate_interior from to sched Hf Hb Ht Hs)
    as (to' & Hr & _ & Hi & Hh).
  exists to'. split_and!; [done| |].
  - intros y x Hyx. rewrite (Hi y x Hyx). unfold next_state.
    destruct (sum9_interior lines from y x Hf Hyx) as (s & Hs9 & Hr9).
    { intros c v _. apply Hb. }
    destruct (sum9_cells from y x s Hs9)
      as (c & n1 & n2 & n3 & n4 & n5 & n6 & n7 & n8 & Hc & H1 & H2 & H3
          & H4 & H5 & H6 & H7 & H8 & Hsum).
    rewrite Hs9. simpl.
    destruct (anneal_at_range s Hr9) as (v & Hv & _). rewrite Hv.
    unfold anneal_at in Hv. destruct (Z.ltb_spec s 0); [lia|].
    exists c, n1, n2, n3, n4, n5, n6, n7, n8, s, v.
    repeat (split; [first [done | lia]|]). done.
  - intros y x [_ Hn]. by apply Hh.
Qed.

End Launch.

Global Opaque synchronized.

(** ** The launches of [main] *)

Lemma main_total_x : total_x numBlocks threadsPerBlock = XSIZE.
Proof. by rewrite XSIZE_eq. Qed.

Lemma main_total_y : total_y numBlocks threadsPerBlock = 131072.
Proof. done. Qed.

(** The threads of a launch of [main] are those with [x] in 0..XSIZE-1 and
    [y] in 0..131071. *)
Lemma main_thread_coords t :
  t ∈ threads_of numBlocks threadsPerBlock ->
  (0 <= global_x threadsPerBlock t < XSIZE) /\
  (0 <= global_y threadsPerBlock t < 131072).
Proof.
  intros Ht. rewrite <- main_total_x, <- main_total_y.
  by apply thread_coords.
Qed.

Lemma main_thread_at x y :
  0 <= x < XSIZE -> 0 <= y < 131072 ->
  exists t, t ∈ threads_of numBlocks threadsPerBlock /\
            global_x threadsPerBlock t = x /\
            global_y threadsPerBlock t = y.
Proof.
  intros Hx Hy. apply thread_at; try done.
Qed.

Lemma boundary_launch_synchronizes_witness :
  exists buf',
    run_threads (boundary threadsPerBlock 131072)
      (threads_of numBlocks threadsPerBlock) (calloc 131072) = Some buf' /\
    (forall x, 1 <= x <= XSIZE ->
       buf' !! (0, x) = calloc 131072 !! (131072, x) /\
       buf' !! (131072 + 1, x) = calloc 131072 !! (1, x)) /\
    (forall y, 1 <= y <= 131072 ->
       buf' !! (y, 0) = calloc 131072 !! (y, XSIZE) /\
       buf' !! (y, XSIZE + 1) = calloc 131072 !! (y, 1)) /\
    (buf' !! (0, 0) = calloc 131072 !! (131072, XSIZE) /\
     buf' !! (0, XSIZE + 1) = calloc 131072 !! (131072, 1) /\
     buf' !! (131072 + 1, 0) = calloc 131072 !! (1, XSIZE) /\
     buf' !! (131072 + 1, XSIZE + 1) = calloc 131072 !! (1, 1)) /\
    (forall y x, interior 131072 y x ->
       buf' !! (y, x) = calloc 131072 !! (y, x)) /\
    (forall y x, interior 131072 y x ->
       exists s8 s9,
         sum8 buf' y x = Some s8 /\
         torus_sum8 131072 (calloc 131072) y x = Some s8 /\
         sum9 buf' y x = Some s9 /\
         torus_sum9 131072 (calloc 131072) y x = Some s9).
Proof.
  apply (boundary_launch_synchronizes numBlocks threadsPerBlock 131072).
  - reflexivity.
  - reflexivity.
  - exact main_total_x.
  - exact main_total_y.
  - lia.
  - apply alloc_allocated.
  - apply threads_of_schedule.
Defined.

Lemma boundary_launch_frame_witness :
  exists buf',
    run_threads (boundary threadsPerBlock 131072)
      (threads_of numBlocks threadsPerBlock) (calloc 131072) = Some buf' /\
    (forall y x,
       (y, x) ∈ boundary_targets threadsPerBlock 131072
                  (threads_of numBlocks threadsPerBlock) ->
       halo 131072 y x) /\
    (forall y x, interior 131072 y x ->
       buf' !! (y, x) = calloc 131072 !! (y, x)).
Proof.
  apply (boundary_launch_frame numBlocks threadsPerBlock 131072).
  - reflexivity.
  - reflexivity.
  - exact main_total_x.
  - exact main_total_y.
  - lia.
  - apply alloc_allocated.
  - apply threads_of_schedule.
Defined.

Lemma simulate_launch_interior_witness :
  exists to',
    run_threads (simulate threadsPerBlock (calloc 131072) 131072)
      (threads_of numBlocks threadsPerBlock) (calloc 131072) = Some to' /\
    (forall y x, interior 131072 y x ->
       exists c n1 n2 n3 n4 n5 n6 n7 n8 s v,
         calloc 131072 !! (y, x) = Some c /\
         calloc 131072 !! (y - 1, x - 1) = Some n1 /\
         calloc 131072 !! (y - 1, x) = Some n2 /\
         calloc 131072 !! (y - 1, x + 1) = Some n3 /\
         calloc 131072 !! (y, x - 1) = Some n4 /\
         calloc 131072 !! (y, x + 1) = Some n5 /\
         calloc 131072 !! (y + 1, x - 1) = Some n6 /\
         calloc 131072 !! (y + 1, x) = Some n7 /\
         calloc 131072 !! (y + 1, x + 1) = Some n8 /\
         s = c + (n1 + n2 + n3 + n4 + n5 + n6 + n7 + n8) /\
         0 <= s <= 9 /\
         anneal !! Z.to_nat s = Some v /\
         to' !! (y, x) = Some v) /\
    (forall y x, halo 131072 y x ->
       to' !! (y, x) = calloc 131072 !! (y, x)).
Proof.
  apply (simulate_launch_interior numBlocks threadsPerBlock 131072).
  - reflexivity.
  - reflexivity.
  - exact main_total_x.
  - exact main_total_y.
  - lia.
  - apply alloc_allocated.
  - apply calloc_binary.
  - apply alloc_allocated.
  - apply threads_of_schedule.
Defined.

(** A thread of [boundary] in column 0 and below the last line of the
    buffer copies from and to cells outside of the buffer. *)
Lemma boundary_out_of_bounds blockDim lines t buf :
  1 <= lines -> allocated lines buf ->
  global_x blockDim t = 0 -> lines + 1 <= global_y blockDim t ->
  boundary blockDim lines t buf = None.
Proof.
  intros Hl Ha Hx Hy. unfold boundary. rewrite Hx.
  destruct (Z.eqb_spec (global_y blockDim t) (lines - 1)); [lia|].
  destruct (Z.eqb_spec (global_y blockDim t) 0); [lia|]. simpl.
  assert (cp buf (global_y blockDim t + 1) 0 (global_y blockDim t + 1) XSIZE
          = None) as ->; [|done].
  unfold cp. rewrite (rd_None lines); [done|done|].
  unfold in_buf. lia.
Qed.

(** A thread of [simulate] below the last interior line reads the line
    after the bottom halo, outside of the buffer. *)
Lemma simulate_out_of_bounds blockDim lines from t to :
  allocated lines from ->
  0 <= global_x blockDim t -> lines <= global_y blockDim t ->
  simulate blockDim from lines t to = None.
Proof.
  intros Ha Hx Hy. unfold simulate.
  assert (sum9 from (global_y blockDim t + 1) (global_x blockDim t + 1)
          = None) as ->; [|done].
  unfold sum9.
  rewrite (rd_None lines from (global_y blockDim t + 1 + 1)
             (global_x blockDim t + 1 - 1)); [|done|].
  - destruct (rd from (global_y blockDim t + 1 - 1)
                (global_x blockDim t + 1 - 1)); simpl; [|done].
    by destruct (rd from (global_y blockDim t + 1)
                   (global_x blockDim t + 1 - 1)).
  - unfold in_buf. lia.
Qed.

Lemma run_boundary_fails lines buf sched :
  1 <= lines <= 131070 -> allocated lines buf ->
  schedule_of numBlocks threadsPerBlock sched ->
  run_threads (boundary threadsPerBlock lines) sched buf = None.
Proof.
  intros Hl Ha Hs.
  destruct (main_thread_at 0 (lines + 1)) as (t & Ht & Hx & Hy);
    [rewrite XSIZE_eq; lia | lia |].
  apply (run_threads_fault (allocated lines) _ t).
  - intros t' m m'. apply boundary_allocated.
  - intros m Hm. apply boundary_out_of_bounds; try done; lia.
  - by apply (elem_of_schedule numBlocks threadsPerBlock).
  - done.
Qed.

(** X3.  Launched as [main] launches it, on a buffer
    of up to 131070 lines, the boundary synchronizer has threads below the
    buffer (its grid always has 131072 lines of threads).  The thread in
    column 0 of line [lines + 1] executes the copy from [(lines + 2, XSIZE)]
    to [(lines + 2, 0)], two cells outside of the buffer and so not of its
    halo, and the launch has no defined result, whatever the order of the
    threads. *)
Theorem boundary_launch_out_of_bounds lines buf sched :
  1 <= lines <= 131070 -> allocated lines buf ->
  schedule_of numBlocks threadsPerBlock sched ->
  (exists t, t ∈ sched /\
     ((lines + 2, 0), (lines + 2, XSIZE)) ∈
       boundary_copies lines (global_x threadsPerBlock t)
         (global_y threadsPerBlock t) /\
     ~ in_buf lines (lines + 2) 0 /\
     boundary threadsPerBlock lines t buf = None) /\
  run_threads (boundary threadsPerBlock lines) sched buf = None.
Proof.
  intros Hl Ha Hs. split; [|by apply run_boundary_fails].
  destruct (main_thread_at 0 (lines + 1)) as (t & Ht & Hx & Hy);
    [rewrite XSIZE_eq; lia | lia |].
  exists t. split_and!.
  - by apply (elem_of_schedule numBlocks threadsPerBlock).
  - rewrite Hx, Hy. apply elem_of_boundary_copies.
    right. right. left. split; [done|].
    by replace (lines + 1 + 1) with (lines + 2) by lia.
  - unfold in_buf. lia.
  - apply boundary_out_of_bounds; try done; lia.
Qed.

Lemma boundary_launch_out_of_bounds_witness :
  (exists t : thread, t ∈ threads_of numBlocks threadsPerBlock /\
     ((1 + 2, 0), (1 + 2, XSIZE)) ∈
       boundary_copies 1 (global_x threadsPerBlock t)
         (global_y threadsPerBlock t) /\
     ~ in_buf 1 (1 + 2) 0 /\
     boundary threadsPerBlock 1 t (calloc 1) = None) /\
  run_threads (boundary threadsPerBlock 1)
    (threads_of numBlocks threadsPerBlock) (calloc 1) = None.
Proof.
  apply (boundary_launch_out_of_bounds 1 (calloc 1)
           (threads_of numBlocks threadsPerBlock)).
  - lia.
  - apply alloc_allocated.
  - apply threads_of_schedule.
Defined.

Lemma run_simulate_fails lines from to sched :
  1 <= lines < 131072 -> allocated lines from -> allocated lines to ->
  schedule_of numBlocks threadsPerBlock sched ->
  run_threads (simulate threadsPerBlock from lines) sched to = None.
Proof.
  intros Hl Hf Ht Hs.
  destruct (main_thread_at 0 lines) as (t & Hin & Hx & Hy);
    [rewrite XSIZE_eq; lia | lia |].
  apply (elem_of_schedule _ _ _ _ Hs) in Hin.
  apply (run_threads_fault (allocated lines) _ t); try done.
  - intros t' m m'. apply simulate_allocated.
  - intros m _. apply simulate_out_of_bounds; try done; lia.
Qed.

(** X4.  Launched as [main] launches it, with fewer than 131072 lines, the
    transition kernel has a thread whose destination cell is
    [(lines + 1, 1)], a cell of the bottom halo, and whose sum reads line
    [lines + 2], outside of the source buffer; the launch has no defined
    result, whatever the order of the threads. *)
Theorem simulate_launch_halo_thread lines from to sched :
  1 <= lines < 131072 -> allocated lines from -> allocated lines to ->
  schedule_of numBlocks threadsPerBlock sched ->
  (exists t, t ∈ sched /\
     simulate_target threadsPerBlock t = (lines + 1, 1) /\
     halo lines (lines + 1) 1 /\
     simulate threadsPerBlock from lines t to = None) /\
  run_threads (simulate threadsPerBlock from lines) sched to = None.
Proof.
  intros Hl Hf Ht Hs.
  destruct (main_thread_at 0 lines) as (t & Hin & Hx & Hy);
    [rewrite XSIZE_eq; lia | lia |].
  apply (elem_of_schedule _ _ _ _ Hs) in Hin.
  assert (Hfail : forall m, simulate threadsPerBlock from lines t m = None).
  { intros m. apply simulate_out_of_bounds; try done; lia. }
  split.
  - exists t. split_and!; try done.
    + unfold simulate_target. by rewrite Hx, Hy.
    + pose proof XSIZE_eq. unfold halo, in_buf, interior. lia.
  - by apply run_simulate_fails.
Qed.

Lemma simulate_launch_halo_thread_witness :
  (exists t : thread, t ∈ threads_of numBlocks threadsPerBlock /\
     simulate_target threadsPerBlock t = (1 + 1, 1) /\
     halo 1 (1 + 1) 1 /\
     simulate threadsPerBlock (calloc 1) 1 t (calloc 1) = None) /\
  run_threads (simulate threadsPerBlock (calloc 1) 1)
    (threads_of numBlocks threadsPerBlock) (calloc 1) = None.
Proof.
  apply (simulate_launch_halo_thread 1 (calloc 1) (calloc 1)
           (threads_of numBlocks threadsPerBlock)).
  - lia.
  - apply alloc_allocated.
  - apply alloc_allocated.
  - apply threads_of_schedule.
Defined.

Lemma insert_allocated lines buf y x v :
  allocated lines buf -> in_buf lines y x ->
  allocated lines (<[(y, x) := v]> buf).
Proof.
  intros Ha Hin. eapply wr_allocated; [exact Ha|]. by apply (wr_Some lines).
Qed.

(** With more than 131072 lines no thread of a launch of [main] is in the
    last interior line, and none copies to the bottom halo. *)
Lemma run_boundary_short lines buf sched :
  131072 < lines -> allocated lines buf ->
  schedule_of numBlocks threadsPerBlock sched ->
  exists buf',
    run_threads (boundary threadsPerBlock lines) sched buf = Some buf' /\
    forall x, 1 <= x <= XSIZE ->
      buf' !! (lines + 1, x) = buf !! (lines + 1, x) /\
      buf' !! (1, x) = buf !! (1, x).
Proof.
  intros Hl Ha Hs.
  assert (Hc : forall t, t ∈ sched ->
            0 <= global_x threadsPerBlock t < XSIZE /\
            0 <= global_y threadsPerBlock t < 131072).
  { intros t Ht. apply main_thread_coords.
    by apply (elem_of_schedule numBlocks threadsPerBlock sched). }
  destruct (run_boundary_spec threadsPerBlock lines buf sched)
    as (buf' & Hr & _ & Hi & Hl'); [lia|done| |].
  { intros t Ht. destruct (Hc t Ht). lia. }
  exists buf'. split; [done|]. intros x Hx. split.
  - rewrite Hl'. rewrite decide_False; [done|].
    intros Hin. apply elem_of_boundary_targets in Hin as (t & s & Ht & Hin).
    destruct (Hc t Ht) as [Hgx Hgy].
    apply elem_of_boundary_copies in Hin.
    destruct Hin as [[? Heq]|[[? Heq]|[[? Heq]|[[? Heq]|(? & ? & Heq)]]]].
    + lia.
    + injection Heq; intros; lia.
    + injection Heq; intros; lia.
    + injection Heq; intros; lia.
    + destruct Heq as [Heq|[Heq|[Heq|Heq]]]; injection Heq; intros; lia.
  - apply Hi. unfold interior. lia.
Qed.

(** X2.  Launched as [main] launches it, on a buffer
    of more than 131072 lines, the boundary synchronizer leaves the bottom
    halo line [lines + 1] as it was, and the first interior line as well:
    afterwards halo line [lines + 1] equals interior line 1 only where it
    did before. *)
Theorem boundary_launch_misses_bottom lines buf sched :
  131072 < lines -> allocated lines buf ->
  schedule_of numBlocks threadsPerBlock sched ->
  exists buf',
    run_threads (boundary threadsPerBlock lines) sched buf = Some buf' /\
    forall x, 1 <= x <= XSIZE ->
      buf' !! (lines + 1, x) = buf !! (lines + 1, x) /\
      buf' !! (1, x) = buf !! (1, x) /\
      (buf !! (lines + 1, x) <> buf !! (1, x) ->
       buf' !! (lines + 1, x) <> buf' !! (1, x)).
Proof.
  intros Hl Ha Hs.
  destruct (run_boundary_short lines buf sched Hl Ha Hs) as (buf' & Hr & Hx).
  exists buf'. split; [done|]. intros x Hx'.
  destruct (Hx x Hx') as [-> ->]. done.
Qed.

Lemma boundary_launch_misses_bottom_witness :
  exists buf',
    run_threads (boundary threadsPerBlock 131073)
      (threads_of numBlocks threadsPerBlock)
      (<[(1, 1) := 1]> (calloc 131073)) = Some buf' /\
    forall x, 1 <= x <= XSIZE ->
      buf' !! (131073 + 1, x) = <[(1, 1) := 1]> (calloc 131073)
                                  !! (131073 + 1, x) /\
      buf' !! (1, x) = <[(1, 1) := 1]> (calloc 131073) !! (1, x) /\
      (<[(1, 1) := 1]> (calloc 131073) !! (131073 + 1, x) <>
       <[(1, 1) := 1]> (calloc 131073) !! (1, x) ->
       buf' !! (131073 + 1, x) <> buf' !! (1, x)).
Proof.
  apply (boundary_launch_misses_bottom 131073
           (<[(1, 1) := 1]> (calloc 131073))
           (threads_of numBlocks threadsPerBlock)).
  - lia.
  - apply insert_allocated; [apply alloc_allocated|].
    unfold in_buf. rewrite XSIZE_eq. lia.
  - apply threads_of_schedule.
Defined.

Lemma run_boundary_short_differs lines sched :
  131072 < lines -> schedule_of numBlocks threadsPerBlock sched ->
  exists buf',
    run_threads (boundary threadsPerBlock lines) sched
      (<[(1, 1) := 1]> (calloc lines)) = Some buf' /\
    buf' !! (lines + 1, 1) <> buf' !! (1, 1).
Proof.
  intros Hl Hs. pose proof XSIZE_eq as HX.
  assert (Ha : allocated lines (<[(1, 1) := 1]> (calloc lines))).
  { apply insert_allocated; [apply alloc_allocated|]. unfold in_buf. lia. }
  destruct (run_boundary_short lines _ sched Hl Ha Hs) as (buf' & Hr & Hx).
  exists buf'. split; [done|].
  destruct (Hx 1 ltac:(lia)) as [-> ->].
  rewrite lookup_insert_eq, lookup_insert_ne by (intros [= ?]; lia).
  unfold calloc. rewrite lookup_alloc by (unfold in_buf; lia). done.
Qed.

(** C3, at the failing input.  On 131073 lines, with the buffer 0 but for
    [buf[1][1] = 1], the boundary synchronizer as [main] launches it (1024
    by 131072 threads, one line of threads short of what its comment counts
    on) ends and leaves the halo cell [(lines + 1, 1)] different from the
    interior cell [(1, 1)]: no thread has [y == lines - 1], and the copy
    into halo line [lines + 1] is never made. *)
Lemma boundary_main_launch_131073 :
  exists buf',
    run_threads (boundary threadsPerBlock 131073)
      (threads_of numBlocks threadsPerBlock)
      (<[(1, 1) := 1]> (calloc 131073)) = Some buf' /\
    buf' !! (131073 + 1, 1) <> buf' !! (1, 1).
Proof.
  apply (run_boundary_short_differs 131073); [lia|].
  apply threads_of_schedule.
Qed.

(** C5, at the failing input.  On one line, the boundary synchronizer as
    [main] launches it (1024 by 131072 threads, where its comment counts on
    one line of threads) has a thread with a copy whose destination is not a
    cell of the halo (it is outside of the buffer), and the launch has no
    defined result: its writes are not confined to the halo. *)
Lemma boundary_main_launch_one_line :
  (exists (t : thread) (c : copy),
     t ∈ threads_of numBlocks threadsPerBlock /\
     c ∈ boundary_copies 1 (global_x threadsPerBlock t)
           (global_y threadsPerBlock t) /\
     ~ halo 1 c.1.1 c.1.2) /\
  run_threads (boundary threadsPerBlock 1)
    (threads_of numBlocks threadsPerBlock) (calloc 1) = None.
Proof.
  split.
  - destruct (main_thread_at 0 2) as (t & Ht & Hx & Hy);
      [rewrite XSIZE_eq; lia | lia |].
    exists t, ((3, 0), (3, XSIZE)). split_and!; [done| |].
    + rewrite Hx, Hy. apply elem_of_boundary_copies.
      right. right. left. done.
    + unfold halo, in_buf. simpl. lia.
  - apply run_boundary_fails; [lia|apply alloc_allocated|].
    apply threads_of_schedule.
Qed.

(** C4, at the failing input.  On one line, the transition kernel as
    [main] launches it (1024 by 131072 threads) has a thread whose
    destination is a cell of the halo, and the launch has no defined result:
    the kernel is given a halo cell to write, and no interior cell is known
    to be written. *)
Lemma simulate_main_launch_one_line :
  (exists t : thread,
     t ∈ threads_of numBlocks threadsPerBlock /\
     halo 1 (simulate_target threadsPerBlock t).1
       (simulate_target threadsPerBlock t).2) /\
  run_threads (simulate threadsPerBlock (calloc 1) 1)
    (threads_of numBlocks threadsPerBlock) (calloc 1) = None.
Proof.
  split.
  - destruct (main_thread_at 0 1) as (t & Ht & Hx & Hy);
      [rewrite XSIZE_eq; lia | lia |].
    exists t. split; [done|]. unfold simulate_target. rewrite Hx, Hy.
    simpl. pose proof XSIZE_eq. unfold halo, in_buf, interior. lia.
  - apply run_simulate_fails; [lia|apply alloc_allocated..|].
    apply threads_of_schedule.
Qed.

(** ** Cells are 0 or 1 *)

Lemma wr_binary buf y x v buf' :
  binary buf -> v = 0 \/ v = 1 -> wr buf y x v = Some buf' -> binary buf'.
Proof.
  intros Hb Hv Hw. apply wr_inv in Hw as [_ ->]. intros c w.
  destruct (decide (c = (y, x))) as [->|Hne].
  - rewrite lookup_insert_eq. by intros [= <-].
  - rewrite lookup_insert_ne by done. apply Hb.
Qed.

(** A copy writes the value of a cell of the buffer. *)
Lemma cp_binary buf yd xd ys xs buf' :
  binary buf -> cp buf yd xd ys xs = Some buf' -> binary buf'.
Proof.
  unfold cp, rd. intros Hb Hc.
  destruct (buf !! (ys, xs)) as [v|] eqn:E; simpl in Hc; [|done].
  eapply wr_binary; [exact Hb | exact (Hb _ _ E) | exact Hc].
Qed.

Lemma exec_copies_binary cs buf buf' :
  binary buf -> exec_copies cs buf = Some buf' -> binary buf'.
Proof.
  revert buf. induction cs as [|c cs IH]; intros buf Hb He; simpl in He.
  - by simplify_eq.
  - destruct (exec_copy buf c) as [b|] eqn:E; simpl in He; [|done].
    eapply IH; [|done]. eapply cp_binary; eauto.
Qed.

Lemma boundary_binary blockDim lines t buf buf' :
  binary buf -> boundary blockDim lines t buf = Some buf' -> binary buf'.
Proof. rewrite boundary_as_copies. apply exec_copies_binary. Qed.


(** *** The initial configuration *)

Lemma for_loop_inv {S : Type} (P : S -> Prop) idx
    (body : Z -> S -> option S) s :
  P s ->
  (forall i s, i ∈ idx -> P s -> exists s', body i s = Some s' /\ P s') ->
  exists s', for_loop idx body s = Some s' /\ P s'.
Proof.
  revert s. induction idx as [|i idx IH]; intros s Hs Hb; simpl; [eauto|].
  destruct (Hb i s (list_elem_of_here _ _) Hs) as (s1 & -> & Hs1). simpl.
  apply IH; [done|]. intros j s' Hj. apply Hb. by apply list_elem_of_further.
Qed.

Lemma init_cell_inv lines buf0 y x s :
  interior lines y x -> init_inv lines buf0 s ->
  exists s', init_cell y x s = Some s' /\ init_inv lines buf0 s'.
Proof.
  intros Hi (Ha & Hh & Hb). unfold init_cell.
  destruct (randInt 100 s.1) as [r g']. 
  rewrite (wr_Some lines) by eauto using interior_in_buf. simpl.
  eexists. split; [done|]. split_and!; simpl.
  - eapply wr_allocated; [exact Ha|].
    apply (wr_Some lines); eauto using interior_in_buf.
  - intros y' x' Hn. rewrite lookup_insert_ne; [by apply Hh|].
    intros [= -> ->]. contradiction.
  - intros c v. destruct (decide (c = (y, x))) as [->|Hne].
    + rewrite lookup_insert_eq. intros [= <-].
      destruct (50 <=? r); auto.
    + rewrite lookup_insert_ne by done. apply Hb.
Qed.

Lemma initConfig_spec lines buf0 :
  allocated lines buf0 ->
  exists buf,
    initConfig buf0 lines = Some buf /\ allocated lines buf /\
    (forall y x, ~ interior lines y x -> buf !! (y, x) = buf0 !! (y, x)) /\
    (forall c v, buf !! c = Some v -> v = 0 \/ v = 1 \/ buf0 !! c = Some v).
Proof.
  intros Ha. unfold initConfig.
  destruct (for_loop_inv (init_inv lines buf0) (seqZ 1 lines)
              (fun y => for_loop (seqZ 1 XSIZE) (fun x => init_cell y x))
              (initRandomLEcuyer 424243, buf0)) as ([g buf] & -> & Hinv).
  - split_and!; simpl; auto.
  - intros y s Hy Hs. apply for_loop_inv; [done|].
    intros x s' Hx Hs'. apply init_cell_inv; [|done].
    apply elem_of_seqZ in Hy, Hx. unfold interior. lia.
  - exists buf. by destruct Hinv as (? & ? & ?).
Qed.

Lemma initConfig_calloc lines :
  exists buf,
    initConfig (calloc lines) lines = Some buf /\ allocated lines buf /\
    binary buf /\
    (forall y x, in_buf lines y x -> ~ interior lines y x ->
                 buf !! (y, x) = Some 0).
Proof.
  destruct (initConfig_spec lines (calloc lines) (alloc_allocated _ _))
    as (buf & He & Ha & Hh & Hb).
  exists buf. split_and!; try done.
  - intros c v Hv. destruct (Hb c v Hv) as [?|[?|H0]]; auto.
    by apply (calloc_binary lines c).
  - intros y x Hin Hn. rewrite Hh by done. by apply lookup_alloc.
Qed.

Lemma init_cell_null y x g : init_cell y x (g, ∅) = None.
Proof.
  unfold init_cell. simpl. destruct (randInt 100 g) as [r g'].
  unfold wr. by rewrite lookup_empty.
Qed.

(** Through a null pointer the first assignment of [initConfig] is already
    undefined. *)
Lemma initConfig_null lines : 1 <= lines -> initConfig ∅ lines = None.
Proof.
  intros Hl. unfold initConfig.
  rewrite (seqZ_cons 1 lines) by lia. simpl.
  rewrite (seqZ_cons 1 XSIZE) by (rewrite XSIZE_eq; lia). simpl.
  by rewrite init_cell_null.
Qed.




(** *** The digest *)

Lemma byte_at_Some lines buf i :
  allocated lines buf -> 0 <= i < (lines + 2) * (XSIZE + 2) ->
  is_Some (byte_at buf i).
Proof.
  intros Ha Hi. pose proof XSIZE_eq as HX. unfold byte_at.
  assert (Hin : in_buf lines (i / (XSIZE + 2)) (i mod (XSIZE + 2))).
  { unfold in_buf. split.
    - split; [apply Z.div_pos; lia|].
      apply Z.div_lt_upper_bound; lia.
    - apply Z.mod_pos_bound. lia. }
  apply Ha in Hin as [v ->]. simpl. eauto.
Qed.

Lemma read_bytes_Some lines buf n :
  allocated lines buf -> n <= (lines + 2) * (XSIZE + 2) ->
  is_Some (read_bytes buf n).
Proof.
  intros Ha Hn. unfold read_bytes. apply mapM_is_Some_2.
  apply Forall_forall. intros i Hi. apply elem_of_seqZ in Hi. simpl.
  apply (byte_at_Some lines); [done|lia].
Qed.

Lemma to_size_t_small n : 0 <= n < 2 ^ 31 -> to_size_t n = n.
Proof. intros Hn. unfold to_size_t. apply Z.mod_small. lia. Qed.

Lemma digest_Some lines buf :
  1 <= lines < 2 ^ 31 -> allocated lines buf ->
  exists bytes,
    read_bytes buf lines = Some bytes /\
    getMD5DigestStr buf (to_size_t lines) =
      Some (bytes, hex_string (MD5 bytes)).
Proof.
  intros Hl Ha. pose proof XSIZE_eq as HX.
  destruct (read_bytes_Some lines buf lines Ha) as [bytes Hb]; [nia|].
  exists bytes. split; [done|].
  unfold getMD5DigestStr. rewrite to_size_t_small by lia. by rewrite Hb.
Qed.

(** *** Runs of [main] *)

Lemma initial_grid_spec lines :
  initConfig (calloc lines) lines = Some (initial_grid lines) /\
  allocated lines (initial_grid lines) /\ binary (initial_grid lines) /\
  (forall y x, in_buf lines y x -> ~ interior lines y x ->
               initial_grid lines !! (y, x) = Some 0).
Proof.
  unfold initial_grid.
  destruct (initConfig_calloc lines) as (buf & -> & Ha & Hb & Hh). done.
Qed.

(** C6.  With an iteration count of 0 (and the four allocations
    successful) the program makes no kernel launch, neither of the
    boundary synchronizer nor of the transition, and ends normally with the
    host grid it reports on equal to the initialized grid, cell for cell. *)
Theorem main_zero_iterations e lines :
  1 <= lines < 2 ^ 31 ->
  calloc_from_ok e = true -> calloc_to_ok e = true ->
  is_Some (cudaMalloc_pFrom e) -> is_Some (cudaMalloc_pTo e) ->
  exists r,
    main e lines 0 = Finished r /\
    initConfig (calloc lines) lines = Some (final r) /\
    launched r = [] /\ status r = EXIT_SUCCESS.
Proof.
  intros Hl Hf Ht [ga Ha] [gb Hb].
  destruct (initial_grid_spec lines) as (Hi & Hal & _ & _).
  destruct (digest_Some lines (initial_grid lines) Hl Hal)
    as (bytes & _ & Hd).
  unfold main. rewrite Hf, Ht, Ha, Hb. simpl. rewrite Hi. simpl.
  rewrite Hd. eexists. split; [done|]. simpl. done.
Qed.

(** C9, at the failing input.  When [calloc] fails for [from], [main] with
    one line calls [initConfig] on the null pointer before it tests it; the
    behaviour is undefined, and no failure is reported. *)
Theorem main_null_from to_ok ga gb sb ss el iterations :
  main (MkEnv false to_ok ga gb sb ss el) 1 iterations = Undefined.
Proof.
  unfold main. simpl. by rewrite initConfig_null.
Qed.

(** C7, at the failing input.  With one line and no iteration, the bytes the
    digest is computed over are the single byte of [from[0][0]], a cell of
    the halo, which is 0 whatever the interior holds; the line printed is
    that of the digest of this one byte. *)
Theorem main_digest_one_line ga gb sb ss el :
  exists r,
    main (MkEnv true true (Some ga) (Some gb) sb ss el) 1 0 = Finished r /\
    hashed r = [0] /\
    stdout r = "hash gpu: " +:+ hex_string (MD5 [0]) +:+ tab +:+ "time: "
                 +:+ el +:+ " ms" +:+ newline.
Proof.
  destruct (initial_grid_spec 1) as (Hi & Hal & _ & Hh).
  pose proof XSIZE_eq as HX.
  assert (Hb : read_bytes (initial_grid 1) 1 = Some [0]).
  { unfold read_bytes. simpl. unfold byte_at.
    rewrite Z.div_0_l, Z.mod_0_l by lia.
    rewrite Hh; [done| |]; unfold in_buf, interior; lia. }
  unfold main. simpl. rewrite Hi. simpl.
  unfold getMD5DigestStr. replace (to_size_t 1) with 1 by done.
  rewrite Hb. simpl. eexists. split; [done|]. done.
Qed.

(** C2, at the failing inputs.  With up to 131070 lines and at least one
    iteration, the first step of the loop of [main] already has no defined
    result: its launch of the boundary synchronizer accesses cells outside
    of the source buffer.  No grid is reported that would be the N-fold
    step of the initial grid. *)
Theorem main_out_of_bounds e lines iterations :
  1 <= lines <= 131070 -> 1 <= iterations ->
  calloc_from_ok e = true -> calloc_to_ok e = true ->
  is_Some (cudaMalloc_pFrom e) -> is_Some (cudaMalloc_pTo e) ->
  schedule_of numBlocks threadsPerBlock (sched_boundary e 0) ->
  main e lines iterations = Undefined.
Proof.
  intros Hl Hn Hf Ht [ga Ha] [gb Hb] Hs.
  destruct (initial_grid_spec lines) as (Hi & Hal & _ & _).
  unfold main. rewrite Hf, Ht, Ha, Hb. simpl. rewrite Hi. simpl.
  destruct (Z.to_nat iterations) as [|n] eqn:En; [lia|].
  simpl. unfold loop_step at 1. simpl.
  by rewrite run_boundary_fails.
Qed.

Lemma read_bytes_lookup buf n bytes i :
  read_bytes buf n = Some bytes -> 0 <= i < n ->
  bytes !! Z.to_nat i = byte_at buf i.
Proof.
  unfold read_bytes. intros Hm Hi. apply mapM_Some_1 in Hm.
  assert (Hs : seqZ 0 n !! Z.to_nat i = Some i).
  { rewrite lookup_seqZ. lia. }
  destruct (Forall2_lookup_l _ _ _ _ _ Hm Hs) as (b & Hb & Hf).
  by rewrite Hb, Hf.
Qed.

(** One iteration on 131072 lines, the number of lines of threads of the
    launches: the run ends normally; the interior reported is the next
    state of the initial one on the torus, and the halo reported, which the
    digest starts with, is what the fresh device memory held. *)
Lemma main_one_iteration e lines ga gb :
  lines = 131072 ->
  calloc_from_ok e = true -> calloc_to_ok e = true ->
  cudaMalloc_pFrom e = Some ga -> cudaMalloc_pTo e = Some gb ->
  schedule_of numBlocks threadsPerBlock (sched_boundary e 0) ->
  schedule_of numBlocks threadsPerBlock (sched_simulate e 0) ->
  exists r,
    main e lines 1 = Finished r /\
    (forall y x, interior lines y x ->
       final r !! (y, x) =
       next_state (synchronized lines (initial_grid lines)) y x) /\
    (forall y x, in_buf lines y x -> ~ interior lines y x ->
       final r !! (y, x) = Some (gb (y, x))) /\
    hashed r !! 0%nat = Some (gb (0, 0) mod 256).
Proof.
  intros Hlines Hf Ht Ha Hb Hsb Hss.
  destruct (initial_grid_spec lines) as (Hi & Hal & Hbin & _).
  assert (Hl : 1 <= lines < 2 ^ 31) by lia.
  assert (Hty : total_y numBlocks threadsPerBlock = lines)
    by (rewrite Hlines; exact main_total_y).
  pose proof (run_boundary_synchronized numBlocks threadsPerBlock lines
                ltac:(done) ltac:(done) main_total_x Hty Hl
                (initial_grid lines) (sched_boundary e 0) Hal Hsb) as Hrb.
  destruct (run_simulate_interior numBlocks threadsPerBlock lines
              ltac:(done) ltac:(done) main_total_x Hty Hl
              (synchronized lines (initial_grid lines))
              (alloc lines gb) (sched_simulate e 0)
              (synchronized_allocated _ _)
              (synchronized_binary _ _ Hbin)
              (alloc_allocated _ _) Hss)
    as (to' & Hrs & Hta & Hti & Hth).
  destruct (digest_Some lines to' Hl Hta) as (bytes & Hrd & Hd).
  assert (H00 : to' !! (0, 0) = Some (gb (0, 0))).
  { rewrite Hth by (unfold interior; lia).
    apply lookup_alloc. pose proof XSIZE_eq. unfold in_buf. lia. }
  unfold main. rewrite Hf, Ht, Ha, Hb. simpl. rewrite Hi. simpl.
  change (Z.to_nat 1) with 1%nat. simpl. unfold loop_step. simpl.
  rewrite Hrb. simpl. rewrite Hrs. simpl. rewrite Hd.
  eexists. split; [done|]. simpl. split_and!.
  - done.
  - intros y x Hin Hn. rewrite Hth by done. by apply lookup_alloc.
  - pose proof (read_bytes_lookup to' lines bytes 0 Hrd ltac:(lia)) as H0.
    change (Z.to_nat 0) with 0%nat in H0. rewrite H0.
    unfold byte_at. pose proof XSIZE_eq.
    rewrite Z.div_0_l, Z.mod_0_l by lia. by rewrite H00.
Qed.

(** *** The loop on 131072 lines *)

Lemma deref_store d p b : deref (store d p b) p = b.
Proof. by destruct p. Qed.

Lemma deref_store_ne d p q b : p <> q -> deref (store d p b) q = deref d q.
Proof. by destruct p, q. Qed.

Lemma synchronized_binary_interior lines orig :
  1 <= lines -> allocated lines orig -> binary_interior lines orig ->
  binary (synchronized lines orig).
Proof.
  intros Hl Ha Hb [y x] v Hv.
  destruct (decide (in_buf lines y x)) as [Hin|Hout].
  - rewrite lookup_synchronized in Hv by done.
    eapply Hb; [|exact Hv]. by apply torus_is_interior.
  - pose proof (synchronized_allocated lines orig y x) as Hs.
    destruct Hout. apply Hs. eauto.
Qed.

Lemma lookup_torus_step lines g y x :
  in_buf lines y x ->
  torus_step lines g !! (y, x) =
  Some (default 0 (s ← torus_sum9 lines g y x; anneal_at s)).
Proof. intros Hin. unfold torus_step. by rewrite lookup_alloc. Qed.

Lemma loop_step_inv e lines i g s :
  lines = 131072 ->
  schedule_of numBlocks threadsPerBlock (sched_boundary e i) ->
  schedule_of numBlocks threadsPerBlock (sched_simulate e i) ->
  loop_inv lines g s ->
  exists s',
    loop_step e lines i s = Some s' /\
    loop_inv lines (torus_step lines g) s' /\
    pFrom s' = pTo s /\ pTo s' = pFrom s /\
    launches s' = launches s ++
      [LaunchBoundary (pFrom s); LaunchSimulate (pFrom s) (pTo s)].
Proof.
  intros Hlines Hsb Hss (Hne & Haf & Hat & Hbf & Hg).
  assert (Hl : 1 <= lines < 2 ^ 31) by lia.
  assert (Hty : total_y numBlocks threadsPerBlock = lines)
    by (rewrite Hlines; exact main_total_y).
  set (src := deref (dev s) (pFrom s)) in *.
  pose proof (run_boundary_synchronized numBlocks threadsPerBlock lines
                ltac:(done) ltac:(done) main_total_x Hty Hl
                src (sched_boundary e i) Haf Hsb) as Hrb.
  assert (Hsbin : binary (synchronized lines src))
    by (apply synchronized_binary_interior; [lia|done|done]).
  destruct (run_simulate_interior numBlocks threadsPerBlock lines
              ltac:(done) ltac:(done) main_total_x Hty Hl
              (synchronized lines src) (deref (dev s) (pTo s))
              (sched_simulate e i) (synchronized_allocated _ _) Hsbin
              Hat Hss)
    as (to' & Hrs & Hta & Hti & _).
  unfold loop_step. fold src. rewrite Hrb. simpl.
  rewrite deref_store, (deref_store_ne _ _ _ _ Hne), Hrs. simpl.
  eexists. split; [done|]. simpl. split_and!; try done.
  unfold loop_inv. simpl.
  rewrite deref_store, (deref_store_ne _ (pTo s) (pFrom s)), deref_store
    by done.
  split_and!.
  - done.
  - done.
  - apply synchronized_allocated.
  - intros y x v Hi Hv. rewrite Hti in Hv by done.
    destruct (next_state_interior lines (synchronized lines src) y x
                (synchronized_allocated _ _) Hsbin Hi) as (w & Hw & Hw').
    congruence.
  - intros y x Hi. rewrite Hti by done.
    rewrite lookup_torus_step by eauto using interior_in_buf.
    destruct (next_state_interior lines (synchronized lines src) y x
                (synchronized_allocated _ _) Hsbin Hi) as (w & Hw & _).
    rewrite Hw. unfold next_state in Hw.
    rewrite sum9_synchronized in Hw by (try done; lia).
    rewrite (torus_sum9_ext lines g src) in Hw by (try done; lia).
    by rewrite Hw.
Qed.

Lemma loop_inv_run e lines n :
  lines = 131072 ->
  (forall i, schedule_of numBlocks threadsPerBlock (sched_boundary e i)) ->
  (forall i, schedule_of numBlocks threadsPerBlock (sched_simulate e i)) ->
  forall i g s, loop_inv lines g s ->
  exists s',
    loop e lines n i s = Some s' /\
    loop_inv lines (Nat.iter n (torus_step lines) g) s' /\
    launches s' = launches s ++ expected_launches n (pFrom s) (pTo s).
Proof.
  intros Hlines Hsb Hss. induction n as [|n IH]; intros i g s Hinv.
  - exists s. simpl. by rewrite app_nil_r.
  - destruct (loop_step_inv e lines i g s Hlines (Hsb i) (Hss i) Hinv)
      as (s1 & Hs1 & Hinv1 & Hpf & Hpt & Hl1).
    destruct (IH (S i) (torus_step lines g) s1 Hinv1)
      as (s' & Hs' & Hinv' & Hl').
    exists s'. split_and!.
    + simpl. by rewrite Hs1.
    + by rewrite Nat.iter_succ_r.
    + rewrite Hl', Hl1, Hpf, Hpt. simpl. by rewrite <- app_assoc.
Qed.

(** X1.  On 131072 lines, the number of lines of threads of the launches,
    [main] with [iterations] iterations ends normally after exactly that many
    steps, each a launch of [boundary] on the source and one of [simulate]
    from the source into the destination, the two buffers changing roles
    from one step to the next; the interior of the grid reported is that of
    the initial grid after as many steps of the automaton on the torus,
    whatever the device memory held and whatever the order of the threads
    in each launch. *)
Theorem main_iterates e lines iterations :
  lines = 131072 ->
  calloc_from_ok e = true -> calloc_to_ok e = true ->
  is_Some (cudaMalloc_pFrom e) -> is_Some (cudaMalloc_pTo e) ->
  (forall i, schedule_of numBlocks threadsPerBlock (sched_boundary e i)) ->
  (forall i, schedule_of numBlocks threadsPerBlock (sched_simulate e i)) ->
  exists r,
    main e lines iterations = Finished r /\
    status r = EXIT_SUCCESS /\
    launched r = expected_launches (Z.to_nat iterations) DevA DevB /\
    same_interior lines
      (Nat.iter (Z.to_nat iterations) (torus_step lines)
         (initial_grid lines))
      (final r).
Proof.
  intros Hlines Hf Ht [ga Ha] [gb Hb] Hsb Hss.
  destruct (initial_grid_spec lines) as (Hi & Hal & Hbin & _).
  assert (Hl : 1 <= lines < 2 ^ 31) by lia.
  set (s0 := LoopState (Device (initial_grid lines) (alloc lines gb))
               DevA DevB []).
  assert (Hinv0 : loop_inv lines (initial_grid lines) s0).
  { unfold loop_inv, s0. simpl. split_and!; try done.
    - apply alloc_allocated.
    - intros y x v _. apply Hbin. }
  destruct (loop_inv_run e lines (Z.to_nat iterations) Hlines Hsb Hss
              0%nat _ s0 Hinv0) as (s' & Hs' & Hinv' & Hl').
  destruct Hinv' as (_ & Haf & _ & _ & Hg).
  destruct (digest_Some lines _ Hl Haf) as (bytes & _ & Hd).
  unfold main. rewrite Hf, Ht, Ha, Hb. simpl. rewrite Hi. simpl.
  fold s0. rewrite Hs'. rewrite Hd.
  eexists. split; [done|]. simpl. split_and!; try done.
Qed.

(** C8, at the failing input.  Two runs with the same seed, 131072 lines and
    one iteration, in which the memory that [cudaMalloc] returns differs
    (0 everywhere in one, 1 everywhere in the other), end with different
    final grids and with different bytes given to MD5. *)
Theorem main_not_deterministic :
  exists r0 r1,
    main (MkEnv true true (Some (fun _ => 0)) (Some (fun _ => 0))
            (fun _ => threads_of numBlocks threadsPerBlock)
            (fun _ => threads_of numBlocks threadsPerBlock) "0.0")
         131072 1 = Finished r0 /\
    main (MkEnv true true (Some (fun _ => 1)) (Some (fun _ => 1))
            (fun _ => threads_of numBlocks threadsPerBlock)
            (fun _ => threads_of numBlocks threadsPerBlock) "0.0")
         131072 1 = Finished r1 /\
    final r0 <> final r1 /\ hashed r0 <> hashed r1.
Proof.
  destruct (main_one_iteration
              (MkEnv true true (Some (fun _ => 0)) (Some (fun _ => 0))
                 (fun _ => threads_of numBlocks threadsPerBlock)
                 (fun _ => threads_of numBlocks threadsPerBlock) "0.0")
              131072 (fun _ => 0) (fun _ => 0)
              eq_refl eq_refl eq_refl eq_refl eq_refl
              (threads_of_schedule _ _) (threads_of_schedule _ _))
    as (r0 & H0 & _ & Hh0 & Hb0).
  destruct (main_one_iteration
              (MkEnv true true (Some (fun _ => 1)) (Some (fun _ => 1))
                 (fun _ => threads_of numBlocks threadsPerBlock)
                 (fun _ => threads_of numBlocks threadsPerBlock) "0.0")
              131072 (fun _ => 1) (fun _ => 1)
              eq_refl eq_refl eq_refl eq_refl eq_refl
              (threads_of_schedule _ _) (threads_of_schedule _ _))
    as (r1 & H1 & _ & Hh1 & Hb1).
  exists r0, r1. split; [exact H0|]. split; [exact H1|]. split.
  - intros Heq. pose proof XSIZE_eq.
    assert (Hin : in_buf 131072 0 0) by (unfold in_buf; lia).
    assert (Hni : ~ interior 131072 0 0) by (unfold interior; lia).
    specialize (Hh0 0 0 Hin Hni). specialize (Hh1 0 0 Hin Hni).
    rewrite Heq, Hh1 in Hh0. discriminate Hh0.
  - intros Heq. rewrite Heq, Hb1 in Hb0. discriminate Hb0.
Qed.

(** * Part III: further properties of the routines *)

(** ** The digest string *)

Lemma hex_value_digit d : 0 <= d < 16 -> hex_value (hex_digit d) = Some d.
Proof.
  intros Hd.
  assert (Hk : exists k : nat, (k < 16)%nat /\ d = Z.of_nat k)
    by (exists (Z.to_nat d); lia).
  destruct Hk as (k & Hk & ->).
  do 16 (destruct k as [|k]; [reflexivity|]). lia.
Qed.

(** X5.  The string that the loop of [getMD5DigestStr] prints holds two
    characters for each byte of the digest, and reads back, pair by pair as
    uppercase hexadecimal, to the bytes of the digest: two digests with the
    same string are the same. *)
Theorem hex_string_round_trip sum :
  Forall (fun b => 0 <= b < 256) sum ->
  unhex (hex_string sum) = Some sum /\
  String.length (hex_string sum) = (2 * List.length sum)%nat.
Proof.
  induction 1 as [|b sum Hb _ [IHu IHl]]; [done|]. split.
  - assert (Hhi : 0 <= b / 16 < 16).
    { split; [apply Z.div_pos; lia|]. apply Z.div_lt_upper_bound; lia. }
    assert (Hlo : 0 <= b mod 16 < 16) by (apply Z.mod_pos_bound; lia).
    cbn [hex_string unhex].
    rewrite (hex_value_digit _ Hhi), (hex_value_digit _ Hlo), IHu. cbn.
    do 2 f_equal. pose proof (Z.div_mod b 16). lia.
  - cbn [hex_string String.length List.length]. rewrite IHl. lia.
Qed.

Lemma hex_string_round_trip_witness :
  unhex (hex_string [0; 171; 255]) = Some [0; 171; 255] /\
  String.length (hex_string [0; 171; 255]) = (2 * 3)%nat.
Proof.
  apply (hex_string_round_trip [0; 171; 255]).
  repeat constructor; lia.
Defined.

(** ** The bytes the digest reads *)

Lemma byte_at_None lines buf i :
  allocated lines buf -> ~ in_buf lines (i / (XSIZE + 2)) (i mod (XSIZE + 2)) ->
  byte_at buf i = None.
Proof.
  intros Ha Hn. unfold byte_at.
  assert (buf !! (i / (XSIZE + 2), i mod (XSIZE + 2)) = None) as ->; [|done].
  apply eq_None_not_Some. intros Hs. by apply Hn, Ha.
Qed.

(** A length beyond the size of the buffer makes [MD5_Update] read outside
    of it. *)
Lemma read_bytes_None lines buf buflen :
  allocated lines buf ->
  0 <= (lines + 2) * (XSIZE + 2) < buflen -> read_bytes buf buflen = None.
Proof.
  intros Ha Hn. pose proof XSIZE_eq as HX. unfold read_bytes.
  apply mapM_None_2, Exists_exists.
  exists ((lines + 2) * (XSIZE + 2)). split; [apply elem_of_seqZ; lia|].
  apply (byte_at_None lines); [done|].
  rewrite Z.div_mul, Z.mod_mul by lia.
  unfold in_buf. lia.
Qed.

(** X6.  On a buffer of [lines + 2] lines, [getMD5DigestStr] is defined
    exactly when [buflen] does not exceed the size of the buffer in bytes;
    it then reads [buflen] bytes, byte [i] being the cell in line
    [i / (XSIZE + 2)] and column [i mod (XSIZE + 2)], halo included, and
    returns the hexadecimal string of their digest. *)
Theorem getMD5DigestStr_reads lines buf buflen :
  0 <= lines + 2 -> 0 <= buflen -> allocated lines buf ->
  (is_Some (getMD5DigestStr buf buflen) <->
   buflen <= (lines + 2) * (XSIZE + 2)) /\
  (forall bytes hash, getMD5DigestStr buf buflen = Some (bytes, hash) ->
     hash = hex_string (MD5 bytes) /\
     List.length bytes = Z.to_nat buflen /\
     forall i, 0 <= i < buflen ->
       exists v, buf !! (i / (XSIZE + 2), i mod (XSIZE + 2)) = Some v /\
                 bytes !! Z.to_nat i = Some (v mod 256)).
Proof.
  intros Hl _ Ha. pose proof XSIZE_eq as HX. unfold getMD5DigestStr. split.
  - split.
    + intros Hs. destruct (Z.le_gt_cases buflen ((lines + 2) * (XSIZE + 2)))
        as [|Hgt]; [done|].
      rewrite (read_bytes_None lines) in Hs; [by destruct Hs|done|nia].
    + intros Hle. destruct (read_bytes_Some lines buf buflen Ha Hle)
        as [bytes ->]. simpl. eauto.
  - intros bytes hash Hg.
    destruct (read_bytes buf buflen) as [bs|] eqn:Hr; simpl in Hg; [|done].
    simplify_eq. split_and!; [done| |].
    + unfold read_bytes in Hr. apply mapM_Some_1, Forall2_length in Hr.
      rewrite <- Hr, length_seqZ. done.
    + intros i Hi. rewrite (read_bytes_lookup buf buflen bytes i Hr Hi).
      unfold byte_at.
      destruct (buf !! (i / (XSIZE + 2), i mod (XSIZE + 2))) as [v|] eqn:E.
      * eauto.
      * pose proof (read_bytes_lookup buf buflen bytes i Hr Hi) as Hb.
        unfold byte_at in Hb. rewrite E in Hb. simpl in Hb.
        apply lookup_ge_None in Hb.
        unfold read_bytes in Hr. apply mapM_Some_1, Forall2_length in Hr.
        rewrite length_seqZ in Hr. lia.
Qed.

(** ** A failed allocation of the second host buffer *)

(** X7.  When [calloc] succeeds for [from] and fails for [to], [main]
    prints the error message for host memory and exits with [EXIT_FAILURE],
    whatever the number of lines and of iterations; it launches no kernel
    and computes no digest. *)
Theorem main_null_to e lines iterations :
  calloc_from_ok e = true -> calloc_to_ok e = false ->
  exists r,
    main e lines iterations = Finished r /\
    status r = EXIT_FAILURE /\
    stdout r = "ERROR: failure allocating host memory" +:+ newline /\
    launched r = [] /\ hashed r = [].
Proof.
  intros Hf Ht.
  destruct (initConfig_spec lines (calloc lines) (alloc_allocated _ _))
    as (buf & Hi & _).
  unfold main. rewrite Hf, Ht. simpl. rewrite Hi. simpl.
  eexists. split; [done|]. done.
Qed.

(** ** The order of the threads of [simulate] *)

Lemma run_threads_perm {M : Type} (kernel : thread -> M -> option M) :
  (forall t1 t2 m,
     (m1 ← kernel t1 m; kernel t2 m1) = (m2 ← kernel t2 m; kernel t1 m2)) ->
  forall sched1 sched2, sched1 ≡ₚ sched2 ->
  forall m, run_threads kernel sched1 m = run_threads kernel sched2 m.
Proof.
  intros Hc sched1 sched2 Hp.
  induction Hp as [|t s1 s2 _ IH|t1 t2 s|s1 s2 s3 _ IH1 _ IH2]; intros m.
  - done.
  - simpl. destruct (kernel t m); simpl; [apply IH | done].
  - simpl. specialize (Hc t2 t1 m).
    destruct (kernel t2 m) as [m2|], (kernel t1 m) as [m1|]; simpl in *.
    + by rewrite Hc.
    + by rewrite Hc.
    + by rewrite <- Hc.
    + done.
  - by rewrite IH1.
Qed.

(** Two writes of next states commute: each value depends on the source and
    on its cell only. *)
Lemma write_next_comm (from : Buf) (y1 x1 y2 x2 : Z) (to : Buf) :
  (to1 ← (v ← next_state from y1 x1; wr to y1 x1 v);
   v ← next_state from y2 x2; wr to1 y2 x2 v) =
  (to2 ← (v ← next_state from y2 x2; wr to y2 x2 v);
   v ← next_state from y1 x1; wr to2 y1 x1 v).
Proof.
  destruct (decide ((y1, x1) = (y2, x2))) as [Heq|Hne].
  { injection Heq as -> ->. done. }
  assert (Hne' : (y2, x2) <> (y1, x1)) by congruence.
  destruct (next_state from y1 x1) as [v1|], (next_state from y2 x2) as [v2|];
    simpl.
  - unfold wr.
    destruct (to !! (y1, x1)) as [w1|] eqn:E1,
             (to !! (y2, x2)) as [w2|] eqn:E2; simpl;
      rewrite ?lookup_insert_ne, ?E1, ?E2 by done; simpl; try done.
    by rewrite insert_insert_ne.
  - by destruct (wr to y1 x1 v1).
  - by destruct (wr to y2 x2 v2).
  - done.
Qed.

Lemma simulate_comm blockDim from lines t1 t2 to :
  (to1 ← simulate blockDim from lines t1 to;
   simulate blockDim from lines t2 to1) =
  (to2 ← simulate blockDim from lines t2 to;
   simulate blockDim from lines t1 to2).
Proof.
  etrans.
  { apply option_bind_ext; [intros b; apply simulate_unfold |].
    apply simulate_unfold. }
  etrans; [apply write_next_comm|]. symmetry.
  apply option_bind_ext; [intros b; apply simulate_unfold |].
  apply simulate_unfold.
Qed.

(** X8.  The result of a launch of [simulate] (the destination buffer it
    leaves, or that it is undefined) does not depend on the order in which
    the threads run, whatever the grid of the launch, the two buffers and
    [lines]: a thread reads the source only, and two threads with the same
    destination cell write the same value. *)
Theorem simulate_launch_any_order blockDim from lines sched1 sched2 to :
  sched1 ≡ₚ sched2 ->
  run_threads (simulate blockDim from lines) sched1 to =
  run_threads (simulate blockDim from lines) sched2 to.
Proof.
  intros Hp. apply run_threads_perm; [|done].
  intros t1 t2 m. apply simulate_comm.
Qed.

Lemma simulate_launch_any_order_witness :
  run_threads (simulate threadsPerBlock (calloc 1) 1)
    [Thread (Dim3 0 0) (Dim3 0 0); Thread (Dim3 0 0) (Dim3 1 0)] (calloc 1) =
  run_threads (simulate threadsPerBlock (calloc 1) 1)
    [Thread (Dim3 0 0) (Dim3 1 0); Thread (Dim3 0 0) (Dim3 0 0)] (calloc 1).
Proof.
  apply (simulate_launch_any_order threadsPerBlock (calloc 1) 1).
  apply Permutation_swap.
Defined.

(** ** The automaton on the inverted grid *)

Lemma lookup_complement buf c :
  complement buf !! c = (fun v => 1 - v) <$> buf !! c.
Proof. unfold complement. apply lookup_fmap. Qed.

Lemma sum9_complement from y x s :
  binary from -> sum9 from y x = Some s ->
  0 <= s <= 9 /\ sum9 (complement from) y x = Some (9 - s).
Proof.
  intros Hb. unfold sum9, rd. rewrite !lookup_complement.
  destruct (from !! (y - 1, x - 1)) as [a|] eqn:Ea; simpl; [|done].
  destruct (from !! (y, x - 1)) as [b|] eqn:Eb; simpl; [|done].
  destruct (from !! (y + 1, x - 1)) as [c|] eqn:Ec; simpl; [|done].
  destruct (from !! (y - 1, x)) as [d|] eqn:Ed; simpl; [|done].
  destruct (from !! (y, x)) as [e|] eqn:Ee; simpl; [|done].
  destruct (from !! (y + 1, x)) as [f|] eqn:Ef; simpl; [|done].
  destruct (from !! (y - 1, x + 1)) as [g|] eqn:Eg; simpl; [|done].
  destruct (from !! (y, x + 1)) as [h|] eqn:Eh; simpl; [|done].
  destruct (from !! (y + 1, x + 1)) as [i|] eqn:Ei; simpl; [|done].
  intros [= <-].
  apply Hb in Ea, Eb, Ec, Ed, Ee, Ef, Eg, Eh, Ei.
  split; [lia|]. f_equal. lia.
Qed.

(** The table [anneal] read backwards is the table inverted. *)
Lemma anneal_at_complement s v :
  anneal_at s = Some v -> anneal_at (9 - s) = Some (1 - v).
Proof.
  intros Hv.
  assert (Hr : 0 <= s <= 9).
  { unfold anneal_at in Hv. destruct (Z.ltb_spec s 0); [done|].
    apply lookup_lt_Some in Hv. simpl in Hv. lia. }
  assert (Hc : s = 0 \/ s = 1 \/ s = 2 \/ s = 3 \/ s = 4 \/ s = 5 \/ s = 6
               \/ s = 7 \/ s = 8 \/ s = 9) by lia.
  destruct Hc as [->|[->|[->|[->|[->|[->|[->|[->|[->| ->]]]]]]]]];
    injection Hv as <-; reflexivity.
Qed.

Lemma wr_complement to y x v to' :
  wr to y x v = Some to' ->
  wr (complement to) y x (1 - v) = Some (complement to').
Proof.
  intros Hw. apply wr_inv in Hw as [[w Hw] ->].
  unfold wr. rewrite lookup_complement, Hw. simpl.
  unfold complement. by rewrite fmap_insert.
Qed.

Lemma simulate_complement blockDim from lines t to to' :
  binary from -> simulate blockDim from lines t to = Some to' ->
  simulate blockDim (complement from) lines t (complement to) =
    Some (complement to').
Proof.
  intros Hb. unfold simulate.
  destruct (sum9 from _ _) as [s|] eqn:Es; simpl; [|done].
  destruct (sum9_complement _ _ _ _ Hb Es) as [_ ->]. simpl.
  destruct (anneal_at s) as [v|] eqn:Ev; simpl; [|done].
  rewrite (anneal_at_complement _ _ Ev). simpl. apply wr_complement.
Qed.

(** X9.  The rule of [simulate] is its own dual: on a source of cells 0
    and 1, if a launch leaves [to'] in the destination [to], then the same
    launch on the inverted source (every 0 a 1 and every 1 a 0) and the
    inverted destination leaves [to'] inverted.  The entry of [anneal] at
    [9 - s] is the inverse of its entry at [s]. *)
Theorem simulate_launch_complement blockDim from lines sched to to' :
  binary from ->
  run_threads (simulate blockDim from lines) sched to = Some to' ->
  run_threads (simulate blockDim (complement from) lines) sched
    (complement to) = Some (complement to').
Proof.
  intros Hb. revert to. induction sched as [|t ts IH]; intros to; simpl.
  - by intros [= <-].
  - destruct (simulate blockDim from lines t to) as [to1|] eqn:E; simpl;
      [|done].
    rewrite (simulate_complement _ _ _ _ _ _ Hb E). simpl. apply IH.
Qed.

Lemma simulate_launch_complement_witness :
  exists to',
    run_threads (simulate threadsPerBlock (calloc 131072) 131072)
      (threads_of numBlocks threadsPerBlock) (calloc 131072) = Some to' /\
    run_threads (simulate threadsPerBlock (complement (calloc 131072)) 131072)
      (threads_of numBlocks threadsPerBlock) (complement (calloc 131072)) =
      Some (complement to').
Proof.
  destruct (run_simulate_interior numBlocks threadsPerBlock 131072
              eq_refl eq_refl main_total_x main_total_y ltac:(lia)
              (calloc 131072) (calloc 131072)
              (threads_of numBlocks threadsPerBlock)
              (alloc_allocated _ _) (calloc_binary _) (alloc_allocated _ _)
              (threads_of_schedule _ _)) as (to' & Hr & _).
  exists to'. split; [exact Hr|].
  apply (simulate_launch_complement threadsPerBlock (calloc 131072) 131072
           (threads_of numBlocks threadsPerBlock) (calloc 131072) to').
  - apply calloc_binary.
  - exact Hr.
Defined.

(** ** A second launch of [boundary] *)

(** The synchronized buffer depends on the interior alone. *)
Lemma synchronized_ext lines g1 g2 :
  1 <= lines -> allocated lines g1 -> allocated lines g2 ->
  same_interior lines g1 g2 ->
  synchronized lines g2 = synchronized lines g1.
Proof.
  intros Hl H1 H2 Hs. apply map_eq. intros [y x].
  destruct (decide (in_buf lines y x)) as [Hin|Hout].
  - rewrite !lookup_synchronized by done. apply Hs.
    by apply torus_is_interior.
  - assert (Hn : forall g, synchronized lines g !! (y, x) = None).
    { intros g. apply eq_None_not_Some. intros Hs'.
      by apply Hout, (synchronized_allocated lines g y x). }
    by rewrite !Hn.
Qed.

Lemma synchronized_same_interior lines buf :
  1 <= lines -> allocated lines buf ->
  same_interior lines buf (synchronized lines buf).
Proof.
  intros Hl Ha y x Hi.
  rewrite lookup_synchronized by eauto using interior_in_buf.
  by rewrite torus_interior.
Qed.

(** X10.  Launched with one thread for each interior cell, [boundary]
    leaves the same buffer whatever the order of its threads, and a second
    launch on that buffer changes nothing. *)
Theorem boundary_launch_twice nb tpb lines buf sched1 sched2 :
  0 < dim_x tpb -> 0 < dim_y tpb ->
  total_x nb tpb = XSIZE -> total_y nb tpb = lines -> 1 <= lines < 2 ^ 31 ->
  allocated lines buf ->
  schedule_of nb tpb sched1 -> schedule_of nb tpb sched2 ->
  exists buf',
    run_threads (boundary tpb lines) sched1 buf = Some buf' /\
    run_threads (boundary tpb lines) sched2 buf = Some buf' /\
    run_threads (boundary tpb lines) sched2 buf' = Some buf'.
Proof.
  intros Hbx Hby Hgx Hgy Hl Ha Hs1 Hs2.
  exists (synchronized lines buf). split_and!.
  - by apply (run_boundary_synchronized nb tpb).
  - by apply (run_boundary_synchronized nb tpb).
  - rewrite (run_boundary_synchronized nb tpb lines Hbx Hby Hgx Hgy Hl _
               sched2 (synchronized_allocated _ _) Hs2).
    f_equal. apply synchronized_ext; [lia|done|apply synchronized_allocated|].
    apply synchronized_same_interior; [lia|done].
Qed.

Lemma boundary_launch_twice_witness :
  exists buf',
    run_threads (boundary threadsPerBlock 131072)
      (threads_of numBlocks threadsPerBlock) (calloc 131072) = Some buf' /\
    run_threads (boundary threadsPerBlock 131072)
      (threads_of numBlocks threadsPerBlock) (calloc 131072) = Some buf' /\
    run_threads (boundary threadsPerBlock 131072)
      (threads_of numBlocks threadsPerBlock) buf' = Some buf'.
Proof.
  apply (boundary_launch_twice numBlocks threadsPerBlock 131072).
  - reflexivity.
  - reflexivity.
  - exact main_total_x.
  - exact main_total_y.
  - lia.
  - apply alloc_allocated.
  - apply threads_of_schedule.
  - apply threads_of_schedule.
Defined.

(** ** No two threads write the same cell *)

(** X11.  In a launch whose numbers of threads along [x] and [y] fit an
    [int], no two threads of [simulate] have the same destination cell. *)
Theorem simulate_targets_distinct nb tpb :
  0 < dim_x tpb -> 0 < dim_y tpb ->
  total_x nb tpb < 2 ^ 31 -> total_y nb tpb < 2 ^ 31 ->
  NoDup (simulate_target tpb <$> threads_of nb tpb).
Proof.
  intros Hbx Hby Hx Hy. apply NoDup_fmap_2_strong; [|apply NoDup_threads_of].
  intros t1 t2 H1 H2 Heq. unfold simulate_target in Heq.
  apply (thread_coords_inj nb tpb); try done.
  - injection Heq; intros; lia.
  - injection Heq; intros; lia.
Qed.

Lemma simulate_targets_distinct_witness :
  NoDup (simulate_target threadsPerBlock <$>
           threads_of numBlocks threadsPerBlock).
Proof.
  apply (simulate_targets_distinct numBlocks threadsPerBlock).
  - reflexivity.
  - reflexivity.
  - reflexivity.
  - reflexivity.
Defined.

(** The destination of a copy tells the thread and the copy. *)
Lemma boundary_target_unique lines x1 y1 x2 y2 c s1 s2 :
  1 <= lines -> 0 <= x1 < XSIZE -> 0 <= y1 < lines ->
  0 <= x2 < XSIZE -> 0 <= y2 < lines ->
  (c, s1) ∈ boundary_copies lines x1 y1 ->
  (c, s2) ∈ boundary_copies lines x2 y2 ->
  x1 = x2 /\ y1 = y2 /\ s1 = s2.
Proof.
  intros Hl Hx1 Hy1 Hx2 Hy2 H1 H2. pose proof XSIZE_eq as HX.
  apply elem_of_boundary_copies in H1, H2.
  repeat first [progress destruct_or! | progress destruct_and!];
    simplify_eq; first [lia | split_and!; first [lia | f_equal; lia]].
Qed.

Lemma NoDup_boundary_copies lines x y :
  1 <= lines -> NoDup (boundary_copies lines x y).
Proof.
  intros Hl. pose proof XSIZE_eq as HX. unfold boundary_copies.
  destruct (Z.eqb_spec y (lines - 1)), (Z.eqb_spec y 0), (Z.eqb_spec x 0),
    (Z.eqb_spec x (XSIZE - 1)); simpl; nodup_list.
Qed.

(** X12.  Launched with one thread for each interior cell, the copies of
    [boundary] have pairwise different destinations, all of them cells of
    the halo, and they read cells of the interior only: no copy reads or
    overwrites what another copy of the launch has written. *)
Theorem boundary_targets_distinct nb tpb lines :
  0 < dim_x tpb -> 0 < dim_y tpb ->
  total_x nb tpb = XSIZE -> total_y nb tpb = lines -> 1 <= lines < 2 ^ 31 ->
  NoDup (boundary_targets tpb lines (threads_of nb tpb)) /\
  forall t c, t ∈ threads_of nb tpb ->
    c ∈ boundary_copies lines (global_x tpb t) (global_y tpb t) ->
    halo lines c.1.1 c.1.2 /\ interior lines c.2.1 c.2.2.
Proof.
  intros Hbx Hby Hgx Hgy Hl. pose proof XSIZE_eq as HX.
  assert (Hc : forall t, t ∈ threads_of nb tpb ->
            0 <= global_x tpb t < XSIZE /\ 0 <= global_y tpb t < lines)
    by (intros t; by apply (launch_thread_coords nb tpb lines)).
  assert (Hinj : forall t1 t2, t1 ∈ threads_of nb tpb ->
            t2 ∈ threads_of nb tpb ->
            global_x tpb t1 = global_x tpb t2 ->
            global_y tpb t1 = global_y tpb t2 -> t1 = t2).
  { intros t1 t2. apply (thread_coords_inj nb tpb); try done.
    - rewrite Hgx. lia.
    - rewrite Hgy. lia. }
  split.
  - unfold boundary_targets. apply NoDup_fmap_2_strong.
    + intros [d1 s1] [d2 s2] H1 H2 Heq. simpl in Heq. subst d2.
      apply list_elem_of_bind in H1 as (t1 & H1 & Ht1).
      apply list_elem_of_bind in H2 as (t2 & H2 & Ht2).
      destruct (Hc t1 Ht1) as [Hx1 Hy1], (Hc t2 Ht2) as [Hx2 Hy2].
      destruct (boundary_target_unique lines _ _ _ _ d1 s1 s2
                  ltac:(lia) Hx1 Hy1 Hx2 Hy2 H1 H2) as (_ & _ & ->). done.
    + apply NoDup_bind; [| |apply NoDup_threads_of].
      * intros t1 t2 [d s] Ht1 Ht2 H1 H2.
        destruct (Hc t1 Ht1) as [Hx1 Hy1], (Hc t2 Ht2) as [Hx2 Hy2].
        destruct (boundary_target_unique lines _ _ _ _ d s s
                    ltac:(lia) Hx1 Hy1 Hx2 Hy2 H1 H2) as (Hx & Hy & _).
        by apply Hinj.
      * intros t _. apply NoDup_boundary_copies. lia.
  - intros t c Ht Hin. destruct (Hc t Ht) as [Hx Hy].
    pose proof (boundary_copies_valid lines _ _ ltac:(lia) Hx Hy) as Hv.
    rewrite Forall_forall in Hv. destruct (Hv _ Hin) as (Hb & Hn & Hi & _).
    by split.
Qed.

Lemma boundary_targets_distinct_witness :
  NoDup (boundary_targets threadsPerBlock 131072
           (threads_of numBlocks threadsPerBlock)) /\
  forall t c, t ∈ threads_of numBlocks threadsPerBlock ->
    c ∈ boundary_copies 131072 (global_x threadsPerBlock t)
          (global_y threadsPerBlock t) ->
    halo 131072 c.1.1 c.1.2 /\ interior 131072 c.2.1 c.2.2.
Proof.
  apply (boundary_targets_distinct numBlocks threadsPerBlock 131072).
  - reflexivity.
  - reflexivity.
  - exact main_total_x.
  - exact main_total_y.
  - lia.
Defined.

(** ** [simulate] on more lines than the launch has lines of threads *)

Lemma run_simulate_short lines from to sched :
  131072 < lines -> allocated lines from -> binary from ->
  allocated lines to -> schedule_of numBlocks threadsPerBlock sched ->
  exists to',
    run_threads (simulate threadsPerBlock from lines) sched to = Some to' /\
    allocated lines to' /\
    (forall y x, 1 <= y <= 131072 -> 1 <= x <= XSIZE ->
       to' !! (y, x) = next_state from y x) /\
    (forall y x, 131072 < y -> to' !! (y, x) = to !! (y, x)).
Proof.
  intros Hl Hf Hb Ht Hs.
  assert (Hc : forall t, t ∈ sched ->
            0 <= global_x threadsPerBlock t < XSIZE /\
            0 <= global_y threadsPerBlock t < 131072).
  { intros t Hin. apply main_thread_coords.
    by apply (elem_of_schedule numBlocks threadsPerBlock sched). }
  destruct (run_simulate_spec threadsPerBlock lines from sched Hf Hb)
    with (to := to) as (to' & Hr & Ha & Hlk); [|done|].
  { intros t Hin. destruct (Hc t Hin). unfold simulate_target, interior.
    simpl. lia. }
  exists to'. split_and!; [done|done| |].
  - intros y x Hy Hx. rewrite Hlk, decide_True; [done|].
    destruct (main_thread_at (x - 1) (y - 1)) as (t & Hin & Hgx & Hgy);
      [lia|lia|].
    apply list_elem_of_fmap. exists t. split.
    + unfold simulate_target. rewrite Hgx, Hgy. f_equal; lia.
    + by apply (elem_of_schedule numBlocks threadsPerBlock sched).
  - intros y x Hy. rewrite Hlk, decide_False; [done|].
    intros Hin. apply list_elem_of_fmap in Hin as (t & Heq & Hin).
    destruct (Hc t Hin). unfold simulate_target in Heq.
    injection Heq; intros; lia.
Qed.

(** X13.  Launched as [main] launches it, with more than 131072 lines, on a
    source of cells 0 and 1, [simulate] ends, whatever the order of its
    threads; it writes the next state in the interior lines 1 to 131072 and
    leaves every line after them as it was, the interior lines 131073 to
    [lines] included. *)
Theorem simulate_launch_misses_lines lines from to sched :
  131072 < lines -> allocated lines from -> binary from ->
  allocated lines to -> schedule_of numBlocks threadsPerBlock sched ->
  exists to',
    run_threads (simulate threadsPerBlock from lines) sched to = Some to' /\
    (forall y x, 1 <= y <= 131072 -> 1 <= x <= XSIZE ->
       exists v, next_state from y x = Some v /\ to' !! (y, x) = Some v) /\
    (forall y x, 131072 < y -> to' !! (y, x) = to !! (y, x)).
Proof.
  intros Hl Hf Hb Ht Hs.
  destruct (run_simulate_short lines from to sched Hl Hf Hb Ht Hs)
    as (to' & Hr & _ & Hnext & Hrows).
  exists to'. split_and!; [done| |done].
  intros y x Hy Hx.
  destruct (next_state_interior lines from y x Hf Hb) as (v & Hv & _).
  { unfold interior. lia. }
  exists v. split; [done|]. by rewrite Hnext.
Qed.

Lemma simulate_launch_misses_lines_witness :
  exists to',
    run_threads (simulate threadsPerBlock (calloc 131073) 131073)
      (threads_of numBlocks threadsPerBlock) (calloc 131073) = Some to' /\
    (forall y x, 1 <= y <= 131072 -> 1 <= x <= XSIZE ->
       exists v, next_state (calloc 131073) y x = Some v /\
                 to' !! (y, x) = Some v) /\
    (forall y x, 131072 < y -> to' !! (y, x) = calloc 131073 !! (y, x)).
Proof.
  apply (simulate_launch_misses_lines 131073 (calloc 131073) (calloc 131073)
           (threads_of numBlocks threadsPerBlock)).
  - lia.
  - apply alloc_allocated.
  - apply calloc_binary.
  - apply alloc_allocated.
  - apply threads_of_schedule.
Defined.

(** ** The order in which [initConfig] fills the grid *)

Lemma for_loop_seqZ {S : Type} (P : Z -> S -> Prop) a n
    (body : Z -> S -> option S) s :
  0 <= n -> P a s ->
  (forall i s, a <= i < a + n -> P i s ->
     exists s', body i s = Some s' /\ P (i + 1) s') ->
  exists s', for_loop (seqZ a n) body s = Some s' /\ P (a + n) s'.
Proof.
  intros Hn. remember (Z.to_nat n) as k eqn:Hk.
  revert a n s Hn Hk. induction k as [|k IH]; intros a n s Hn Hk Hs Hb.
  - rewrite seqZ_nil by lia. exists s. split; [done|].
    by replace (a + n) with a by lia.
  - rewrite seqZ_cons by lia. simpl.
    destruct (Hb a s ltac:(lia) Hs) as (s1 & -> & Hs1). simpl.
    destruct (IH (Z.succ a) (Z.pred n) s1 ltac:(lia) ltac:(lia))
      as (s' & Hf & Hs').
    + by replace (Z.succ a) with (a + 1) by lia.
    + intros i s2 Hi. apply Hb. lia.
    + exists s'. split; [done|].
      by replace (a + n) with (Z.succ a + Z.pred n) by lia.
Qed.

Lemma rank_inj y x y' x' :
  1 <= x <= XSIZE -> 1 <= x' <= XSIZE -> rank y x = rank y' x' ->
  (y, x) = (y', x').
Proof.
  unfold rank. rewrite XSIZE_eq. intros Hx Hx' Hr.
  assert (y = y') by lia. assert (x = x') by lia. congruence.
Qed.

Lemma init_cell_upto lines buf0 y x s :
  interior lines y x -> init_upto lines buf0 (rank y x) s ->
  exists s', init_cell y x s = Some s' /\
             init_upto lines buf0 (rank y x + 1) s'.
Proof.
  intros Hi (Hg & Ha & Hd & Ho).
  assert (Hr : 0 <= rank y x).
  { destruct Hi. unfold rank. rewrite XSIZE_eq. lia. }
  unfold init_cell. rewrite Hg.
  assert (Hv : (if 50 <=? (randInt 100 (rng_after (Z.to_nat (rank y x))
                  (initRandomLEcuyer 424243))).1 then 1 else 0) =
               draw (Z.to_nat (rank y x))) by done.
  assert (Hn : (randInt 100 (rng_after (Z.to_nat (rank y x))
                  (initRandomLEcuyer 424243))).2 =
               rng_after (Z.to_nat (rank y x + 1))
                 (initRandomLEcuyer 424243)).
  { replace (Z.to_nat (rank y x + 1)) with (S (Z.to_nat (rank y x))) by lia.
    simpl. unfold randInt. by destruct (nextRandomLEcuyer _). }
  destruct (randInt 100 _) as [r g']. simpl in Hv, Hn.
  rewrite (wr_Some lines) by eauto using interior_in_buf. simpl.
  eexists. split; [done|]. split_and!; simpl.
  - done.
  - apply insert_allocated; eauto using interior_in_buf.
  - intros y' x' Hi' Hlt.
    destruct (decide ((y, x) = (y', x'))) as [Heq|Hne].
    + injection Heq as <- <-. by rewrite lookup_insert_eq, Hv.
    + rewrite lookup_insert_ne by done. apply Hd; [done|].
      destruct (decide (rank y' x' = rank y x)) as [He|]; [|lia].
      destruct Hi, Hi'. destruct Hne. symmetry. by apply rank_inj.
  - intros y' x' Hn'.
    destruct (decide ((y, x) = (y', x'))) as [Heq|Hne].
    + injection Heq as <- <-. destruct Hn'. split; [done|lia].
    + rewrite lookup_insert_ne by done. apply Ho. intros [? ?].
      apply Hn'. split; [done|lia].
Qed.

Lemma initConfig_fill lines buf0 :
  allocated lines buf0 ->
  exists buf,
    initConfig buf0 lines = Some buf /\
    (forall y x, interior lines y x ->
       buf !! (y, x) = Some (draw (Z.to_nat (rank y x)))) /\
    (forall y x, ~ interior lines y x -> buf !! (y, x) = buf0 !! (y, x)).
Proof.
  intros Ha. unfold initConfig. pose proof XSIZE_eq as HX.
  destruct (Z.le_gt_cases 0 lines) as [Hl|Hl].
  - destruct (for_loop_seqZ
                (fun y s => init_upto lines buf0 (rank y 1) s) 1 lines
                (fun y => for_loop (seqZ 1 XSIZE) (fun x => init_cell y x))
                (initRandomLEcuyer 424243, buf0) Hl)
      as ([g buf] & -> & Hg & Hb & Hd & Ho).
    + split_and!; simpl; try done.
      intros y x [Hy Hx] Hr. unfold rank in Hr. rewrite HX in Hr. lia.
    + intros y s Hy Hs.
      destruct (for_loop_seqZ
                  (fun x s => init_upto lines buf0 (rank y x) s) 1 XSIZE
                  (fun x => init_cell y x) s ltac:(lia) Hs)
        as (s' & Hf & Hs').
      * intros x s1 Hx Hs1.
        replace (rank y (x + 1)) with (rank y x + 1) by (unfold rank; lia).
        apply init_cell_upto; [|done]. unfold interior. lia.
      * exists s'. split; [done|].
        replace (rank (y + 1) 1) with (rank y (1 + XSIZE))
          by (unfold rank; lia).
        done.
    + exists buf. simpl in *. split_and!; [done| |].
      * intros y x Hi. apply Hd; [done|]. destruct Hi.
        unfold rank. rewrite HX. lia.
      * intros y x Hn. apply Ho. by intros [? _].
  - rewrite seqZ_nil by lia. simpl. exists buf0. split_and!; [done| |done].
    intros y x [Hy _]. lia.
Qed.

(** X14.  [initConfig] fills the interior line by line and, in a line,
    column by column: the cell in line [y] and column [x] holds the value of
    [randInt(100) >= 50] at the call of rank [(y - 1) * XSIZE + (x - 1)]
    after the generator was seeded with 424243; the cells of the halo are
    left as they were. *)
Theorem initConfig_row_major lines buf0 :
  allocated lines buf0 ->
  exists buf,
    initConfig buf0 lines = Some buf /\ allocated lines buf /\
    (forall y x, interior lines y x ->
       buf !! (y, x) = Some (draw (Z.to_nat (rank y x)))) /\
    (forall y x, ~ interior lines y x -> buf !! (y, x) = buf0 !! (y, x)).
Proof.
  intros Ha.
  destruct (initConfig_fill lines buf0 Ha) as (buf & Hi & Hd & Ho).
  destruct (initConfig_spec lines buf0 Ha) as (buf' & Hi' & Ha' & _).
  assert (buf' = buf) by congruence. subst buf'.
  exists buf. by split_and!.
Qed.

(** X15.  What [initConfig] builds depends on the buffer it is given
    through the halo only, since it seeds the generator itself and writes
    every interior cell: two buffers with the same halo give the same
    grid, and a second call on that grid changes nothing. *)
Theorem initConfig_overwrites lines buf0 buf1 :
  allocated lines buf0 -> allocated lines buf1 ->
  (forall y x, ~ interior lines y x -> buf0 !! (y, x) = buf1 !! (y, x)) ->
  exists buf,
    initConfig buf0 lines = Some buf /\ initConfig buf1 lines = Some buf /\
    initConfig buf lines = Some buf.
Proof.
  intros H0 H1 Hh.
  destruct (initConfig_spec lines buf0 H0) as (buf & He & Ha & _).
  assert (Hsame : forall b b', allocated lines b ->
            initConfig buf0 lines = Some b ->
            (forall y x, ~ interior lines y x ->
               b' !! (y, x) = buf0 !! (y, x)) ->
            allocated lines b' -> initConfig b' lines = Some b).
  { intros b b' Hb Hi Hh' Hb'.
    destruct (initConfig_fill lines buf0 H0) as (c & Hc & Hd & Ho).
    destruct (initConfig_fill lines b' Hb') as (c' & Hc' & Hd' & Ho').
    rewrite Hc', <- Hi, Hc. f_equal. apply map_eq. intros [y x].
    destruct (decide (interior lines y x)) as [Hin|Hout].
    - by rewrite Hd, Hd'.
    - by rewrite Ho, Ho', Hh'. }
  exists buf. split_and!; [done| |].
  - apply Hsame; try done. intros y x Hn. symmetry. by apply Hh.
  - apply Hsame; try done.
    destruct (initConfig_fill lines buf0 H0) as (c & Hc & _ & Ho).
    intros y x Hn. assert (c = buf) by congruence. subst c. by apply Ho.
Qed.

(** ** The whole grid that [main] reports *)

Lemma run_threads_pres {M : Type} (P : M -> Prop)
    (kernel : thread -> M -> option M) sched m m' :
  (forall t m m', P m -> kernel t m = Some m' -> P m') ->
  P m -> run_threads kernel sched m = Some m' -> P m'.
Proof.
  intros Hk. revert m. induction sched as [|t ts IH]; intros m Hm Hr;
    simpl in Hr.
  - by simplify_eq.
  - destruct (kernel t m) as [m1|] eqn:E; simpl in Hr; [|done]. eauto.
Qed.

Lemma loop_app e lines n m i s :
  loop e lines (n + m) i s =
  s' ← loop e lines n i s; loop e lines m (i + n) s'.
Proof.
  revert i s. induction n as [|n IH]; intros i s; simpl.
  - by rewrite Nat.add_0_r.
  - destruct (loop_step e lines i s) as [s1|]; simpl; [|done].
    rewrite IH. by rewrite Nat.add_succ_comm.
Qed.

Lemma env_of_ok garbage : env_ok (env_of garbage).
Proof.
  unfold env_ok, env_of. simpl. split_and!; eauto;
    intros i; apply threads_of_schedule.
Qed.

(** What one step of the loop leaves in the two buffers: the source is
    synchronized, and the destination keeps its halo. *)
Lemma loop_step_buffers e lines i g s :
  lines = 131072 ->
  schedule_of numBlocks threadsPerBlock (sched_boundary e i) ->
  schedule_of numBlocks threadsPerBlock (sched_simulate e i) ->
  loop_inv lines g s ->
  exists s',
    loop_step e lines i s = Some s' /\
    deref (dev s') (pTo s') = synchronized lines (deref (dev s) (pFrom s)) /\
    (forall y x, ~ interior lines y x ->
       deref (dev s') (pFrom s') !! (y, x) =
       deref (dev s) (pTo s) !! (y, x)).
Proof.
  intros Hlines Hsb Hss (Hne & Haf & Hat & Hbf & Hg).
  assert (Hl : 1 <= lines < 2 ^ 31) by lia.
  assert (Hty : total_y numBlocks threadsPerBlock = lines)
    by (rewrite Hlines; exact main_total_y).
  set (src := deref (dev s) (pFrom s)) in *.
  pose proof (run_boundary_synchronized numBlocks threadsPerBlock lines
                ltac:(done) ltac:(done) main_total_x Hty Hl
                src (sched_boundary e i) Haf Hsb) as Hrb.
  assert (Hsbin : binary (synchronized lines src))
    by (apply synchronized_binary_interior; [lia|done|done]).
  destruct (run_simulate_interior numBlocks threadsPerBlock lines
              ltac:(done) ltac:(done) main_total_x Hty Hl
              (synchronized lines src) (deref (dev s) (pTo s))
              (sched_simulate e i) (synchronized_allocated _ _) Hsbin
              Hat Hss)
    as (to' & Hrs & _ & _ & Hth).
  unfold loop_step. fold src. rewrite Hrb. simpl.
  rewrite deref_store, (deref_store_ne _ _ _ _ Hne), Hrs. simpl.
  eexists. split; [done|]. simpl. split.
  - by rewrite (deref_store_ne _ (pTo s) (pFrom s)), deref_store by done.
  - intros y x Hn. rewrite deref_store. by apply Hth.
Qed.

(** After two steps the halo of the source buffer is that of the grid the
    two steps started from. *)
Lemma loop_two_steps e lines i g s :
  lines = 131072 ->
  (forall i, schedule_of numBlocks threadsPerBlock (sched_boundary e i)) ->
  (forall i, schedule_of numBlocks threadsPerBlock (sched_simulate e i)) ->
  loop_inv lines g s ->
  exists s',
    loop e lines 2 i s = Some s' /\
    forall y x, in_buf lines y x -> ~ interior lines y x ->
      deref (dev s') (pFrom s') !! (y, x) = g !! torus lines (y, x).
Proof.
  intros Hlines Hsb Hss Hinv.
  destruct (loop_step_inv e lines i g s Hlines (Hsb i) (Hss i) Hinv)
    as (s1 & Hs1 & Hinv1 & _).
  destruct (loop_step_buffers e lines i g s Hlines (Hsb i) (Hss i) Hinv)
    as (s1' & Hs1' & Hto1 & _).
  assert (s1' = s1) by congruence. subst s1'.
  destruct (loop_step_buffers e lines (S i) _ s1 Hlines (Hsb (S i))
              (Hss (S i)) Hinv1) as (s2 & Hs2 & _ & Hh2).
  exists s2. split.
  - simpl. rewrite Hs1. simpl. by rewrite Hs2.
  - intros y x Hin Hn. rewrite Hh2, Hto1 by done.
    destruct Hinv as (_ & Haf & _ & _ & Hg).
    rewrite lookup_synchronized by (try done; lia).
    apply Hg. apply torus_is_interior; [lia|done].
Qed.

(** The end of [main] after a loop that has run. *)
Lemma main_after_loop e lines iterations ga gb s :
  1 <= lines < 2 ^ 31 ->
  calloc_from_ok e = true -> calloc_to_ok e = true ->
  cudaMalloc_pFrom e = Some ga -> cudaMalloc_pTo e = Some gb ->
  loop e lines (Z.to_nat iterations) 0
    (LoopState (Device (initial_grid lines) (alloc lines gb)) DevA DevB [])
    = Some s ->
  allocated lines (deref (dev s) (pFrom s)) ->
  exists bytes,
    read_bytes (deref (dev s) (pFrom s)) lines = Some bytes /\
    main e lines iterations =
      Finished (MkRun EXIT_SUCCESS
        ("hash gpu: " +:+ hex_string (MD5 bytes) +:+ tab +:+ "time: "
           +:+ elapsed e +:+ " ms" +:+ newline)
        (deref (dev s) (pFrom s)) bytes (launches s)).
Proof.
  intros Hl Hf Ht Ha Hb Hs Hal.
  destruct (initial_grid_spec lines) as (Hi & _).
  destruct (digest_Some lines _ Hl Hal) as (bytes & Hr & Hd).
  exists bytes. split; [done|].
  unfold main. rewrite Hf, Ht, Ha, Hb. simpl. rewrite Hi. simpl.
  rewrite Hs. by rewrite Hd.
Qed.

(** The run of [main] on 131072 lines with two iterations or more. *)
Lemma main_two_or_more e lines iterations :
  lines = 131072 -> 2 <= iterations -> env_ok e ->
  exists r,
    main e lines iterations = Finished r /\
    allocated lines (final r) /\
    same_interior lines
      (Nat.iter (Z.to_nat iterations) (torus_step lines)
         (initial_grid lines)) (final r) /\
    (forall y x, in_buf lines y x -> ~ interior lines y x ->
       final r !! (y, x) =
       Nat.iter (Z.to_nat (iterations - 2)) (torus_step lines)
         (initial_grid lines) !! torus lines (y, x)) /\
    read_bytes (final r) lines = Some (hashed r) /\
    stdout r = "hash gpu: " +:+ hex_string (MD5 (hashed r)) +:+ tab +:+
                 "time: " +:+ elapsed e +:+ " ms" +:+ newline /\
    launched r = expected_launches (Z.to_nat iterations) DevA DevB /\
    status r = EXIT_SUCCESS.
Proof.
  intros Hlines Hn (Hf & Ht & [ga Ha] & [gb Hb] & Hsb & Hss).
  destruct (initial_grid_spec lines) as (Hi & Hal & Hbin & _).
  assert (Hl : 1 <= lines < 2 ^ 31) by lia.
  set (s0 := LoopState (Device (initial_grid lines) (alloc lines gb))
               DevA DevB []).
  assert (Hinv0 : loop_inv lines (initial_grid lines) s0).
  { unfold loop_inv, s0. simpl. split_and!; try done.
    - apply alloc_allocated.
    - intros y x v _. apply Hbin. }
  destruct (loop_inv_run e lines (Z.to_nat iterations) Hlines Hsb Hss
              0%nat _ s0 Hinv0) as (s' & Hs' & Hinv' & Hl').
  set (n := Z.to_nat (iterations - 2)).
  assert (Hsplit : Z.to_nat iterations = (n + 2)%nat) by lia.
  destruct (loop_inv_run e lines n Hlines Hsb Hss 0%nat _ s0 Hinv0)
    as (sn & Hsn & Hinvn & _).
  destruct (loop_two_steps e lines (0 + n) _ sn Hlines Hsb Hss Hinvn)
    as (s2 & Hs2 & Hh2).
  assert (s2 = s').
  { rewrite Hsplit, loop_app, Hsn in Hs'.
    change (loop e lines 2 (0 + n) sn = Some s') in Hs'. congruence. }
  subst s2.
  destruct Hinv' as (_ & Haf & _ & _ & Hg).
  destruct (main_after_loop e lines iterations ga gb s' Hl Hf Ht Ha Hb Hs' Haf)
    as (bytes & Hr & Hm).
  eexists. split; [exact Hm|]. simpl. split_and!; try done.
Qed.

(** The run of [main] with no iteration. *)
Lemma main_no_iteration e lines iterations :
  1 <= lines < 2 ^ 31 -> iterations <= 0 ->
  calloc_from_ok e = true -> calloc_to_ok e = true ->
  is_Some (cudaMalloc_pFrom e) -> is_Some (cudaMalloc_pTo e) ->
  exists r,
    main e lines iterations = Finished r /\
    final r = initial_grid lines /\
    read_bytes (final r) lines = Some (hashed r) /\
    stdout r = "hash gpu: " +:+ hex_string (MD5 (hashed r)) +:+ tab +:+
                 "time: " +:+ elapsed e +:+ " ms" +:+ newline /\
    launched r = [] /\ status r = EXIT_SUCCESS.
Proof.
  intros Hl Hn Hf Ht [ga Ha] [gb Hb].
  destruct (initial_grid_spec lines) as (_ & Hal & _).
  destruct (main_after_loop e lines iterations ga gb
              (LoopState (Device (initial_grid lines) (alloc lines gb))
                 DevA DevB []) Hl Hf Ht Ha Hb) as (bytes & Hr & Hm).
  - by replace (Z.to_nat iterations) with 0%nat by lia.
  - done.
  - eexists. split; [exact Hm|]. simpl. done.
Qed.

(** X16.  On 131072 lines with two iterations or more, the halo of the
    grid that [main] reports, and computes the digest from, is not that of
    its interior: every cell of the halo holds the value that the interior
    cell at its place on the torus had two steps before the last one.  The
    last launch of [simulate] wrote the interior of a buffer whose halo the
    launch of [boundary] of the step before the last had set. *)
Theorem main_halo_lags e lines iterations :
  lines = 131072 -> 2 <= iterations -> env_ok e ->
  exists r,
    main e lines iterations = Finished r /\
    forall y x, halo lines y x ->
      final r !! (y, x) =
      Nat.iter (Z.to_nat (iterations - 2)) (torus_step lines)
        (initial_grid lines) !! torus lines (y, x).
Proof.
  intros Hlines Hn He.
  destruct (main_two_or_more e lines iterations Hlines Hn He)
    as (r & Hm & _ & _ & Hh & _).
  exists r. split; [done|]. intros y x [Hin Hni]. by apply Hh.
Qed.

(** X17.  On 131072 lines and with an iteration count other than 1, the
    grid that [main] reports, halo included, the bytes it computes the
    digest from and the launches it makes are the same in every run in
    which the allocations succeed, whatever the fresh device memory held
    and whatever the order of the threads; the line printed is the same but
    for the time. *)
Theorem main_deterministic e1 e2 lines iterations :
  lines = 131072 -> iterations <> 1 -> env_ok e1 -> env_ok e2 ->
  exists r1 r2,
    main e1 lines iterations = Finished r1 /\
    main e2 lines iterations = Finished r2 /\
    final r1 = final r2 /\ hashed r1 = hashed r2 /\
    launched r1 = launched r2 /\
    (elapsed e1 = elapsed e2 -> stdout r1 = stdout r2).
Proof.
  intros Hlines Hn He1 He2.
  assert (Hfin : forall r1 r2,
            final r1 = final r2 ->
            read_bytes (final r1) lines = Some (hashed r1) ->
            read_bytes (final r2) lines = Some (hashed r2) ->
            hashed r1 = hashed r2)
    by (intros r1 r2 Heq; rewrite Heq; congruence).
  destruct (Z.le_gt_cases iterations 0) as [H0|H0].
  - destruct He1 as (Hc1 & Hc1' & Hd1 & Hd1' & _).
    destruct He2 as (Hc2 & Hc2' & Hd2 & Hd2' & _).
    destruct (main_no_iteration e1 lines iterations ltac:(lia) H0
                Hc1 Hc1' Hd1 Hd1')
      as (r1 & Hm1 & Hf1 & Hr1 & Ho1 & Hl1 & _).
    destruct (main_no_iteration e2 lines iterations ltac:(lia) H0
                Hc2 Hc2' Hd2 Hd2')
      as (r2 & Hm2 & Hf2 & Hr2 & Ho2 & Hl2 & _).
    assert (Hh : hashed r1 = hashed r2)
      by (apply Hfin; [congruence|done..]).
    exists r1, r2.
    split_and!; [done|done|congruence|done|congruence|].
    intros Hel. by rewrite Ho1, Ho2, Hh, Hel.
  - destruct (main_two_or_more e1 lines iterations Hlines ltac:(lia) He1)
      as (r1 & Hm1 & Ha1 & Hi1 & Hh1 & Hr1 & Ho1 & Hl1 & _).
    destruct (main_two_or_more e2 lines iterations Hlines ltac:(lia) He2)
      as (r2 & Hm2 & Ha2 & Hi2 & Hh2 & Hr2 & Ho2 & Hl2 & _).
    assert (Hf : final r1 = final r2).
    { apply map_eq. intros [y x].
      destruct (decide (in_buf lines y x)) as [Hin|Hout].
      - destruct (decide (interior lines y x)) as [Hint|Hh].
        + by rewrite Hi1, Hi2.
        + by rewrite Hh1, Hh2.
      - transitivity (@None Z); [|symmetry]; apply eq_None_not_Some;
          intros Hs; [by apply Hout, Ha1 | by apply Hout, Ha2]. }
    assert (Hh : hashed r1 = hashed r2) by (by apply Hfin).
    exists r1, r2.
    split_and!; [done|done|congruence|done|congruence|].
    intros Hel. by rewrite Ho1, Ho2, Hh, Hel.
Qed.

(** ** Line counts that [main] does not support *)

(** X18.  With 1 to 131071 lines and at least one iteration, [main] has no
    defined result: whatever the first launch of [boundary] does, the first
    launch of [simulate] has threads below the last interior line, which
    read outside of the source buffer.  131072 is the least number of lines
    for which a run with an iteration is defined. *)
Theorem main_undefined_below e lines iterations :
  1 <= lines < 131072 -> 1 <= iterations ->
  calloc_from_ok e = true -> calloc_to_ok e = true ->
  is_Some (cudaMalloc_pFrom e) -> is_Some (cudaMalloc_pTo e) ->
  schedule_of numBlocks threadsPerBlock (sched_simulate e 0) ->
  main e lines iterations = Undefined.
Proof.
  intros Hl Hn Hf Ht [ga Ha] [gb Hb] Hs.
  destruct (initial_grid_spec lines) as (Hi & Hal & _ & _).
  unfold main. rewrite Hf, Ht, Ha, Hb. simpl. rewrite Hi. simpl.
  destruct (Z.to_nat iterations) as [|n] eqn:En; [lia|].
  simpl. unfold loop_step at 1. simpl.
  destruct (run_threads (boundary threadsPerBlock lines) _ _) as [b|] eqn:Eb;
    simpl; [|done].
  assert (Hab : allocated lines b).
  { apply (run_threads_pres (allocated lines) _ _ _ _
             (fun t m m' => boundary_allocated _ lines t m m') Hal Eb). }
  rewrite (run_simulate_fails lines b (alloc lines gb) _ Hl Hab
             (alloc_allocated _ _) Hs). done.
Qed.

Lemma loop_step_allocated e lines i s s' :
  allocated lines (memA (dev s)) -> allocated lines (memB (dev s)) ->
  loop_step e lines i s = Some s' ->
  allocated lines (memA (dev s')) /\ allocated lines (memB (dev s')).
Proof.
  intros HA HB. unfold loop_step.
  assert (Hf : allocated lines (deref (dev s) (pFrom s)))
    by (by destruct (pFrom s)).
  destruct (run_threads (boundary _ _) _ _) as [b|] eqn:Eb; simpl; [|done].
  assert (Hb : allocated lines b).
  { apply (run_threads_pres (allocated lines) _ _ _ _
             (fun t m m' => boundary_allocated _ lines t m m') Hf Eb). }
  assert (Ht : allocated lines
                 (deref (store (dev s) (pFrom s) b) (pTo s)))
    by (by destruct (pFrom s), (pTo s)).
  destruct (run_threads (simulate _ _ _) _ _) as [t|] eqn:Et; simpl; [|done].
  assert (Ht' : allocated lines t).
  { apply (run_threads_pres (allocated lines) _ _ _ _
             (fun t m m' => simulate_allocated _ _ lines t m m') Ht Et). }
  intros [= <-]. simpl. by destruct (pFrom s), (pTo s).
Qed.

Lemma loop_allocated e lines n i s s' :
  allocated lines (memA (dev s)) -> allocated lines (memB (dev s)) ->
  loop e lines n i s = Some s' ->
  allocated lines (deref (dev s') (pFrom s')).
Proof.
  revert i s. induction n as [|n IH]; intros i s HA HB Hl; simpl in Hl.
  - simplify_eq. by destruct (pFrom s').
  - destruct (loop_step e lines i s) as [s1|] eqn:E; simpl in Hl; [|done].
    destruct (loop_step_allocated e lines i s s1 HA HB E). eauto.
Qed.

(** X19.  With a negative number of lines for which the allocations
    succeed ([lines = -1] allocates one line), [main] has no defined result,
    whatever the number of iterations: [lines], an [int], is the length
    given to [getMD5DigestStr], a [size_t], and the digest would read more
    than [2 ^ 63] bytes. *)
Theorem main_negative_lines e lines iterations :
  - 2 ^ 31 <= lines < 0 ->
  calloc_from_ok e = true -> calloc_to_ok e = true ->
  is_Some (cudaMalloc_pFrom e) -> is_Some (cudaMalloc_pTo e) ->
  2 ^ 63 < to_size_t lines /\ main e lines iterations = Undefined.
Proof.
  intros Hl Hf Ht [ga Ha] [gb Hb]. pose proof XSIZE_eq as HX.
  assert (Hsz : to_size_t lines = lines + 2 ^ 64).
  { unfold to_size_t. symmetry. apply (Z.mod_unique _ _ (-1)); lia. }
  split; [lia|].
  assert (Hi : initConfig (calloc lines) lines = Some (calloc lines)).
  { unfold initConfig. by rewrite seqZ_nil by lia. }
  unfold main. rewrite Hf, Ht, Ha, Hb. simpl. rewrite Hi. simpl.
  destruct (loop e lines _ _ _) as [s|] eqn:El; [|done].
  apply loop_allocated in El; simpl; try apply alloc_allocated.
  assert (Hn : read_bytes (deref (dev s) (pFrom s)) (to_size_t lines) = None).
  { unfold read_bytes. apply mapM_None_2, Exists_exists.
    exists (Z.max 0 ((lines + 2) * (XSIZE + 2))).
    split; [apply elem_of_seqZ; nia|].
    apply (byte_at_None lines); [done|]. unfold in_buf.
    destruct (Z.max_spec 0 ((lines + 2) * (XSIZE + 2))) as [[? ->]|[? ->]].
    - rewrite Z.div_mul by lia. lia.
    - rewrite Z.div_0_l by lia. nia. }
  unfold getMD5DigestStr. by rewrite Hn.
Qed.

(** ** The digest of a run with no iteration *)

(** X20.  With up to [XSIZE + 2] lines and no iteration, the bytes that
    [main] computes the digest from are [lines] zero bytes, whatever the
    initial configuration: the [lines] bytes that [getMD5DigestStr] is asked
    to read all lie in line 0 of the buffer, which is halo. *)
Theorem main_digest_zeros e lines iterations :
  1 <= lines <= XSIZE + 2 -> iterations <= 0 ->
  calloc_from_ok e = true -> calloc_to_ok e = true ->
  is_Some (cudaMalloc_pFrom e) -> is_Some (cudaMalloc_pTo e) ->
  exists r,
    main e lines iterations = Finished r /\
    hashed r = replicate (Z.to_nat lines) 0 /\
    stdout r = "hash gpu: " +:+
                 hex_string (MD5 (replicate (Z.to_nat lines) 0)) +:+ tab +:+
                 "time: " +:+ elapsed e +:+ " ms" +:+ newline.
Proof.
  intros Hl Hn Hf Ht Ha Hb. pose proof XSIZE_eq as HX.
  destruct (main_no_iteration e lines iterations ltac:(lia) Hn Hf Ht Ha Hb)
    as (r & Hm & Hfin & Hr & Ho & _).
  destruct (initial_grid_spec lines) as (_ & _ & _ & Hh).
  assert (Hlen : List.length (hashed r) = Z.to_nat lines).
  { unfold read_bytes in Hr. apply mapM_Some_1, Forall2_length in Hr.
    by rewrite <- Hr, length_seqZ. }
  assert (Hz : hashed r = replicate (Z.to_nat lines) 0).
  { apply list_eq. intros i.
    destruct (decide (i < Z.to_nat lines)%nat) as [Hi|Hi].
    - rewrite lookup_replicate_2 by done.
      pose proof (read_bytes_lookup _ _ _ (Z.of_nat i) Hr ltac:(lia)) as Hb'.
      rewrite Nat2Z.id in Hb'. rewrite Hb', Hfin. unfold byte_at.
      rewrite Z.div_small, Z.mod_small by lia.
      rewrite Hh; [done| |]; unfold in_buf, interior; lia.
    - rewrite (lookup_ge_None_2 (hashed r)) by lia.
      symmetry. apply lookup_ge_None_2. rewrite length_replicate. lia. }
  exists r. split_and!; [done|done|]. by rewrite Ho, Hz.
Qed.

(** ** The pointers that [main] frees *)

Lemma pointers_after_S n :
  pointers_after (S n) = swap (pointers_after n).
Proof. done. Qed.

Lemma pointers_after_distinct n :
  ptr_from (pointers_after n) <> ptr_to (pointers_after n).
Proof.
  induction n as [|n IH]; [done|].
  rewrite pointers_after_S. simpl. congruence.
Qed.

(** The pointers of the loop of [main] are those of [pointers_after]. *)
Lemma loop_pointers e lines n i s s' :
  loop e lines n i s = Some s' ->
  forall k, pFrom s = ptr_from (pointers_after k) ->
            pTo s = ptr_to (pointers_after k) ->
  pFrom s' = ptr_from (pointers_after (n + k)) /\
  pTo s' = ptr_to (pointers_after (n + k)).
Proof.
  revert i s. induction n as [|n IH]; intros i s Hl k Hf Ht; simpl in Hl.
  - by simplify_eq.
  - destruct (loop_step e lines i s) as [s1|] eqn:E; simpl in Hl; [|done].
    replace (S n + k)%nat with (n + S k)%nat by lia.
    apply (IH _ _ Hl (S k)); rewrite pointers_after_S; simpl.
    + unfold loop_step in E.
      destruct (run_threads _ _ _); simpl in E; [|done].
      destruct (run_threads _ _ _); simpl in E; [|done].
      by simplify_eq.
    + unfold loop_step in E.
      destruct (run_threads _ _ _); simpl in E; [|done].
      destruct (run_threads _ _ _); simpl in E; [|done].
      by simplify_eq.
Qed.

(** X21.  After a loop of at least one step, [pTemp] holds the pointer
    that [pTo] holds: the three calls of [cudaFree] at the end of [main]
    free the allocation of [pFrom] once and that of [pTo] twice, the third
    call being given a pointer that the second has freed. *)
Theorem main_frees_twice e lines n s0 s :
  pFrom s0 = DevA -> pTo s0 = DevB -> (1 <= n)%nat ->
  loop e lines n 0 s0 = Some s ->
  freed (pointers_after n) = [Some (pFrom s); Some (pTo s); Some (pTo s)] /\
  pFrom s <> pTo s.
Proof.
  intros Hf Ht Hn Hl.
  destruct (loop_pointers e lines n 0 s0 s Hl 0%nat Hf Ht) as [Hpf Hpt].
  rewrite Nat.add_0_r in Hpf, Hpt. split.
  - destruct n as [|n]; [lia|]. rewrite Hpf, Hpt.
    rewrite pointers_after_S. done.
  - rewrite Hpf, Hpt. apply pointers_after_distinct.
Qed.

(** ** The two kernels, one after the other *)

(** X22.  Launched with one thread for each interior cell, [boundary] on a
    buffer and then [simulate] from that buffer make one step of the
    automaton on the torus: whatever the order of the threads in the two
    launches, every interior cell of the destination holds the entry of
    [anneal] at the sum of the nine cells around it read in the interior at
    the indices taken modulo [lines] and [XSIZE], and the halo of the
    destination is left as it was. *)
Theorem kernels_make_torus_step nb tpb lines buf to sched_b sched_s :
  0 < dim_x tpb -> 0 < dim_y tpb ->
  total_x nb tpb = XSIZE -> total_y nb tpb = lines -> 1 <= lines < 2 ^ 31 ->
  allocated lines buf -> binary_interior lines buf -> allocated lines to ->
  schedule_of nb tpb sched_b -> schedule_of nb tpb sched_s ->
  exists buf' to',
    run_threads (boundary tpb lines) sched_b buf = Some buf' /\
    run_threads (simulate tpb buf' lines) sched_s to = Some to' /\
    same_interior lines (torus_step lines buf) to' /\
    (forall y x, ~ interior lines y x -> to' !! (y, x) = to !! (y, x)).
Proof.
  intros Hbx Hby Hgx Hgy Hl Ha Hb Ht Hsb Hss.
  assert (Hsbin : binary (synchronized lines buf))
    by (apply synchronized_binary_interior; [lia|done|done]).
  destruct (run_simulate_interior nb tpb lines Hbx Hby Hgx Hgy Hl
              (synchronized lines buf) to sched_s
              (synchronized_allocated _ _) Hsbin Ht Hss)
    as (to' & Hrs & _ & Hti & Hth).
  exists (synchronized lines buf), to'. split_and!; [|done| |done].
  - by apply (run_boundary_synchronized nb tpb).
  - intros y x Hi. rewrite Hti by done.
    rewrite lookup_torus_step by eauto using interior_in_buf.
    destruct (next_state_interior lines (synchronized lines buf) y x
                (synchronized_allocated _ _) Hsbin Hi) as (w & Hw & _).
    rewrite Hw. unfold next_state in Hw.
    rewrite sum9_synchronized in Hw by (try done; lia).
    by rewrite Hw.
Qed.

Lemma kernels_make_torus_step_witness :
  exists buf' to',
    run_threads (boundary (Dim3 32 2) 4)
      (threads_of (Dim3 32 2) (Dim3 32 2)) (calloc 4) = Some buf' /\
    run_threads (simulate (Dim3 32 2) buf' 4)
      (threads_of (Dim3 32 2) (Dim3 32 2)) (calloc 4) = Some to' /\
    same_interior 4 (torus_step 4 (calloc 4)) to' /\
    (forall y x, ~ interior 4 y x -> to' !! (y, x) = calloc 4 !! (y, x)).
Proof.
  apply (kernels_make_torus_step (Dim3 32 2) (Dim3 32 2) 4).
  - reflexivity.
  - reflexivity.
  - by rewrite XSIZE_eq.
  - reflexivity.
  - lia.
  - apply alloc_allocated.
  - intros y x v _. apply calloc_binary.
  - apply alloc_allocated.
  - apply threads_of_schedule.
  - apply threads_of_schedule.
Defined.

(** ** More lines than the launches have lines of threads *)

(** X23.  With more than 131072 lines and one iteration, [main] ends
    normally and reports, in every line after line 131072 of the grid, the
    interior lines 131073 to [lines] included, what the fresh device memory
    of [pTo] held: no thread of [simulate] writes these lines. *)
Theorem main_large_lines e lines gb :
  131072 < lines < 2 ^ 31 ->
  calloc_from_ok e = true -> calloc_to_ok e = true ->
  is_Some (cudaMalloc_pFrom e) -> cudaMalloc_pTo e = Some gb ->
  schedule_of numBlocks threadsPerBlock (sched_boundary e 0) ->
  schedule_of numBlocks threadsPerBlock (sched_simulate e 0) ->
  exists r,
    main e lines 1 = Finished r /\ status r = EXIT_SUCCESS /\
    forall y x, 131072 < y -> in_buf lines y x ->
      final r !! (y, x) = Some (gb (y, x)).
Proof.
  intros Hl Hf Ht [ga Ha] Hb Hsb Hss.
  destruct (initial_grid_spec lines) as (Hi & Hal & Hbin & _).
  destruct (run_boundary_spec threadsPerBlock lines (initial_grid lines)
              (sched_boundary e 0)) as (b & Hrb & Hab & _); [lia|done| |].
  { intros t Hin.
    apply (elem_of_schedule numBlocks threadsPerBlock) in Hin; [|done].
    destruct (main_thread_coords t Hin). lia. }
  assert (Hbb : binary b).
  { apply (run_threads_pres binary _ _ _ _
             (fun t m m' => boundary_binary _ lines t m m') Hbin Hrb). }
  destruct (run_simulate_short lines b (alloc lines gb) (sched_simulate e 0)
              ltac:(lia) Hab Hbb (alloc_allocated _ _) Hss)
    as (to' & Hrs & Hta & _ & Hrows).
  destruct (digest_Some lines to' ltac:(lia) Hta) as (bytes & _ & Hd).
  unfold main. rewrite Hf, Ht, Ha, Hb. simpl. rewrite Hi. simpl.
  change (Z.to_nat 1) with 1%nat. simpl. unfold loop_step. simpl.
  rewrite Hrb. simpl. rewrite Hrs. simpl. rewrite Hd.
  eexists. split; [done|]. simpl. split; [done|].
  intros y x Hy Hin. rewrite Hrows by done. by apply lookup_alloc.
Qed.

(** ** What the digest of a run on 131072 lines covers *)

(** The run of [main] on 131072 lines, for any number of iterations. *)
Lemma main_any_iterations e lines iterations :
  lines = 131072 -> env_ok e ->
  exists r,
    main e lines iterations = Finished r /\
    allocated lines (final r) /\
    read_bytes (final r) lines = Some (hashed r).
Proof.
  intros Hlines (Hf & Ht & [ga Ha] & [gb Hb] & Hsb & Hss).
  destruct (initial_grid_spec lines) as (Hi & Hal & Hbin & _).
  assert (Hl : 1 <= lines < 2 ^ 31) by lia.
  assert (Hinv0 : loop_inv lines (initial_grid lines)
            (LoopState (Device (initial_grid lines) (alloc lines gb))
               DevA DevB [])).
  { unfold loop_inv. simpl. split_and!; try done.
    - apply alloc_allocated.
    - intros y x v _. apply Hbin. }
  destruct (loop_inv_run e lines (Z.to_nat iterations) Hlines Hsb Hss
              0%nat _ _ Hinv0) as (s' & Hs' & (_ & Haf & _) & _).
  destruct (main_after_loop e lines iterations ga gb s' Hl Hf Ht Ha Hb Hs' Haf)
    as (bytes & Hr & Hm).
  eexists. split; [exact Hm|]. simpl. by split.
Qed.

(** X24.  On 131072 lines, the one number of lines with which [main]
    iterates, the digest covers the first 131072 bytes of the buffer and no
    more: byte [i] is the cell in line [i / (XSIZE + 2)], at most line 127,
    and column [i mod (XSIZE + 2)], the cells of the halo in line 0 and in
    columns 0 and [XSIZE + 1] included.  No cell after line 127 of the grid
    reaches the digest. *)
Theorem main_digest_covers e lines iterations :
  lines = 131072 -> env_ok e ->
  exists r,
    main e lines iterations = Finished r /\
    List.length (hashed r) = Z.to_nat lines /\
    forall i, 0 <= i < lines ->
      0 <= i / (XSIZE + 2) <= 127 /\
      exists v,
        final r !! (i / (XSIZE + 2), i mod (XSIZE + 2)) = Some v /\
        hashed r !! Z.to_nat i = Some (v mod 256).
Proof.
  intros Hlines He. pose proof XSIZE_eq as HX.
  destruct (main_any_iterations e lines iterations Hlines He)
    as (r & Hm & Ha & Hr).
  exists r. split_and!; [done| |].
  - unfold read_bytes in Hr. apply mapM_Some_1, Forall2_length in Hr.
    by rewrite <- Hr, length_seqZ.
  - intros i Hi.
    assert (Hrow : 0 <= i / (XSIZE + 2) <= 127).
    { split; [apply Z.div_pos; lia|].
      apply Z.lt_succ_r, Z.div_lt_upper_bound; lia. }
    split; [done|].
    assert (Hin : in_buf lines (i / (XSIZE + 2)) (i mod (XSIZE + 2))).
    { split; [lia|]. apply Z.mod_pos_bound. lia. }
    apply Ha in Hin as [v Hv]. exists v. split; [done|].
    rewrite (read_bytes_lookup _ _ _ i Hr Hi). unfold byte_at.
    by rewrite Hv.
Qed.

End Program.

Lemma main_zero_iterations_witness :
  exists r,
    main unit unit (fun _ => tt) zero_rng (fun _ _ => 0) (fun _ => [])
      (env_of (fun _ => 7)) 1 0 = Finished r /\
    initConfig unit unit (fun _ => tt) zero_rng (fun _ _ => 0) (calloc 1) 1
      = Some (final r) /\
    launched r = [] /\ status r = EXIT_SUCCESS.
Proof.
  apply (main_zero_iterations unit unit (fun _ => tt) zero_rng
           (fun _ _ => 0) (fun _ => []) (env_of (fun _ => 7)) 1).
  - lia.
  - reflexivity.
  - reflexivity.
  - simpl. eauto.
  - simpl. eauto.
Defined.

Lemma main_out_of_bounds_witness :
  main unit unit (fun _ => tt) zero_rng (fun _ _ => 0) (fun _ => [])
    (env_of (fun _ => 7)) 1 1 = Undefined.
Proof.
  apply (main_out_of_bounds unit unit (fun _ => tt) zero_rng
           (fun _ _ => 0) (fun _ => []) (env_of (fun _ => 7)) 1 1).
  - lia.
  - lia.
  - reflexivity.
  - reflexivity.
  - simpl. eauto.
  - simpl. eauto.
  - apply threads_of_schedule.
Defined.


Lemma main_iterates_witness :
  exists r,
    main unit unit (fun _ => tt) zero_rng (fun _ _ => 0) (fun _ => [])
      (env_of (fun _ => 7)) 131072 2 = Finished r /\
    status r = EXIT_SUCCESS /\
    launched r = expected_launches (Z.to_nat 2) DevA DevB /\
    same_interior 131072
      (Nat.iter (Z.to_nat 2) (torus_step 131072)
         (initial_grid unit unit (fun _ => tt) zero_rng (fun _ _ => 0)
            131072))
      (final r).
Proof.
  apply (main_iterates unit unit (fun _ => tt) zero_rng
           (fun _ _ => 0) (fun _ => []) (env_of (fun _ => 7)) 131072 2).
  - reflexivity.
  - reflexivity.
  - reflexivity.
  - simpl. eauto.
  - simpl. eauto.
  - intros i. apply threads_of_schedule.
  - intros i. apply threads_of_schedule.
Defined.

Lemma getMD5DigestStr_reads_witness :
  (is_Some (getMD5DigestStr (fun _ => []) (calloc 1) 2) <->
   2 <= (1 + 2) * (XSIZE + 2)) /\
  (forall bytes hash,
     getMD5DigestStr (fun _ => []) (calloc 1) 2 = Some (bytes, hash) ->
     hash = hex_string [] /\
     List.length bytes = Z.to_nat 2 /\
     forall i, 0 <= i < 2 ->
       exists v, calloc 1 !! (i / (XSIZE + 2), i mod (XSIZE + 2)) = Some v /\
                 bytes !! Z.to_nat i = Some (v mod 256)).
Proof.
  apply (getMD5DigestStr_reads (fun _ => []) 1 (calloc 1) 2).
  - lia.
  - lia.
  - apply alloc_allocated.
Defined.

Lemma main_null_to_witness :
  exists r,
    main unit unit (fun _ => tt) zero_rng (fun _ _ => 0) (fun _ => [])
      (MkEnv true false None None (fun _ => []) (fun _ => []) "0.0") 1 1
      = Finished r /\
    status r = EXIT_FAILURE /\
    stdout r = "ERROR: failure allocating host memory" +:+ newline /\
    launched r = [] /\ hashed r = [].
Proof.
  apply (main_null_to unit unit (fun _ => tt) zero_rng (fun _ _ => 0)
           (fun _ => [])
           (MkEnv true false None None (fun _ => []) (fun _ => []) "0.0")
           1 1).
  - reflexivity.
  - reflexivity.
Defined.

Lemma initConfig_row_major_witness :
  exists buf,
    initConfig Z Z (fun _ => 0) count_rng count_scale (calloc 2) 2
      = Some buf /\ allocated 2 buf /\
    (forall y x, interior 2 y x ->
       buf !! (y, x) =
       Some (draw Z Z (fun _ => 0) count_rng count_scale
               (Z.to_nat (rank y x)))) /\
    (forall y x, ~ interior 2 y x -> buf !! (y, x) = calloc 2 !! (y, x)).
Proof.
  apply (initConfig_row_major Z Z (fun _ => 0) count_rng count_scale 2
           (calloc 2)).
  apply alloc_allocated.
Defined.

Lemma initConfig_overwrites_witness :
  exists buf,
    initConfig Z Z (fun _ => 0) count_rng count_scale (calloc 2) 2
      = Some buf /\
    initConfig Z Z (fun _ => 0) count_rng count_scale
      (<[(1, 1) := 1]> (calloc 2)) 2 = Some buf /\
    initConfig Z Z (fun _ => 0) count_rng count_scale buf 2 = Some buf.
Proof.
  apply (initConfig_overwrites Z Z (fun _ => 0) count_rng count_scale 2
           (calloc 2) (<[(1, 1) := 1]> (calloc 2))).
  - apply alloc_allocated.
  - apply insert_allocated; [apply alloc_allocated|].
    unfold in_buf. rewrite XSIZE_eq. lia.
  - intros y x Hn. rewrite lookup_insert_ne; [done|].
    intros [= <- <-]. apply Hn. unfold interior. rewrite XSIZE_eq. lia.
Defined.

Lemma main_halo_lags_witness :
  exists r,
    main Z Z (fun _ => 0) count_rng count_scale (fun _ => [])
      (env_of (fun _ => 7)) 131072 3 = Finished r /\
    forall y x, halo 131072 y x ->
      final r !! (y, x) =
      Nat.iter (Z.to_nat (3 - 2)) (torus_step 131072)
        (initial_grid Z Z (fun _ => 0) count_rng count_scale 131072)
        !! torus 131072 (y, x).
Proof.
  apply (main_halo_lags Z Z (fun _ => 0) count_rng count_scale (fun _ => [])
           (env_of (fun _ => 7)) 131072 3).
  - reflexivity.
  - lia.
  - apply env_of_ok.
Defined.

Lemma main_deterministic_witness :
  exists r1 r2,
    main Z Z (fun _ => 0) count_rng count_scale (fun _ => [])
      (env_of (fun _ => 0)) 131072 2 = Finished r1 /\
    main Z Z (fun _ => 0) count_rng count_scale (fun _ => [])
      (env_of (fun _ => 1)) 131072 2 = Finished r2 /\
    final r1 = final r2 /\ hashed r1 = hashed r2 /\
    launched r1 = launched r2 /\
    (elapsed (env_of (fun _ => 0)) = elapsed (env_of (fun _ => 1)) ->
     stdout r1 = stdout r2).
Proof.
  apply (main_deterministic Z Z (fun _ => 0) count_rng count_scale
           (fun _ => []) (env_of (fun _ => 0)) (env_of (fun _ => 1))
           131072 2).
  - reflexivity.
  - lia.
  - apply env_of_ok.
  - apply env_of_ok.
Defined.

Lemma main_undefined_below_witness :
  main Z Z (fun _ => 0) count_rng count_scale (fun _ => [])
    (env_of (fun _ => 7)) 131071 1 = Undefined.
Proof.
  apply (main_undefined_below Z Z (fun _ => 0) count_rng count_scale
           (fun _ => []) (env_of (fun _ => 7)) 131071 1).
  - lia.
  - lia.
  - reflexivity.
  - reflexivity.
  - simpl. eauto.
  - simpl. eauto.
  - apply threads_of_schedule.
Defined.

Lemma main_negative_lines_witness :
  2 ^ 63 < to_size_t (-1) /\
  main Z Z (fun _ => 0) count_rng count_scale (fun _ => [])
    (env_of (fun _ => 7)) (-1) 0 = Undefined.
Proof.
  apply (main_negative_lines Z Z (fun _ => 0) count_rng count_scale
           (fun _ => []) (env_of (fun _ => 7)) (-1) 0).
  - lia.
  - reflexivity.
  - reflexivity.
  - simpl. eauto.
  - simpl. eauto.
Defined.

Lemma main_digest_zeros_witness :
  exists r,
    main Z Z (fun _ => 0) count_rng count_scale (fun _ => [])
      (env_of (fun _ => 7)) 1026 0 = Finished r /\
    hashed r = replicate (Z.to_nat 1026) 0 /\
    stdout r = "hash gpu: " +:+ hex_string [] +:+ tab +:+ "time: " +:+
                 elapsed (env_of (fun _ => 7)) +:+ " ms" +:+ newline.
Proof.
  apply (main_digest_zeros Z Z (fun _ => 0) count_rng count_scale
           (fun _ => []) (env_of (fun _ => 7)) 1026 0).
  - rewrite XSIZE_eq. lia.
  - lia.
  - reflexivity.
  - reflexivity.
  - simpl. eauto.
  - simpl. eauto.
Defined.

Lemma main_frees_twice_witness :
  exists s,
    loop (env_of (fun _ => 7)) 131072 1 0
      (LoopState (Device (calloc 131072) (calloc 131072)) DevA DevB [])
      = Some s /\
    freed (pointers_after 1) = [Some (pFrom s); Some (pTo s); Some (pTo s)] /\
    pFrom s <> pTo s.
Proof.
  destruct (loop_inv_run (env_of (fun _ => 7)) 131072 1 eq_refl
              (fun _ => threads_of_schedule _ _)
              (fun _ => threads_of_schedule _ _) 0%nat (calloc 131072)
              (LoopState (Device (calloc 131072) (calloc 131072))
                 DevA DevB []))
    as (s & Hs & _).
  - unfold loop_inv. simpl. split_and!.
    + done.
    + apply alloc_allocated.
    + apply alloc_allocated.
    + intros y x v _. apply calloc_binary.
    + done.
  - exists s. split; [exact Hs|].
    apply (main_frees_twice (env_of (fun _ => 7)) 131072 1
             (LoopState (Device (calloc 131072) (calloc 131072))
                DevA DevB []) s).
    + reflexivity.
    + reflexivity.
    + lia.
    + exact Hs.
Defined.

Lemma main_large_lines_witness :
  exists r,
    main Z Z (fun _ => 0) count_rng count_scale (fun _ => [])
      (env_of (fun _ => 7)) 131073 1 = Finished r /\
    status r = EXIT_SUCCESS /\
    forall y x, 131072 < y -> in_buf 131073 y x ->
      final r !! (y, x) = Some 7.
Proof.
  apply (main_large_lines Z Z (fun _ => 0) count_rng count_scale
           (fun _ => []) (env_of (fun _ => 7)) 131073 (fun _ => 7)).
  - lia.
  - reflexivity.
  - reflexivity.
  - simpl. eauto.
  - reflexivity.
  - apply threads_of_schedule.
  - apply threads_of_schedule.
Defined.

Lemma main_digest_covers_witness :
  exists r,
    main Z Z (fun _ => 0) count_rng count_scale (fun _ => [])
      (env_of (fun _ => 7)) 131072 5 = Finished r /\
    List.length (hashed r) = Z.to_nat 131072 /\
    forall i, 0 <= i < 131072 ->
      0 <= i / (XSIZE + 2) <= 127 /\
      exists v,
        final r !! (i / (XSIZE + 2), i mod (XSIZE + 2)) = Some v /\
        hashed r !! Z.to_nat i = Some (v mod 256).
Proof.
  apply (main_digest_covers Z Z (fun _ => 0) count_rng count_scale
           (fun _ => []) (env_of (fun _ => 7)) 131072 5).
  - reflexivity.
  - apply env_of_ok.
Defined.
